(** * Icon generation scripts: create_bond_icon.py, generate_icon.py, resize_icons.py

    A shallow embedding of the three scripts and the properties of their
    renderers, file namers and batch drivers.

    Integers are [Z]; Python's [//] with a positive divisor is [Z.div]
    (both round towards minus infinity).  Strings are [string].  The
    Pillow canvas is a record holding the mode, the size and the list of
    drawing calls made on it, in call order.  The file system is a set of
    directories and a finite map from paths to file contents. *)

From Stdlib Require Import ZArith Lia List String Ascii Bool DecimalString.
From stdpp Require Import gmap strings list fin_maps.
Import ListNotations.

Local Open Scope string_scope.
Local Open Scope Z_scope.

(** ** Python values and control *)

Module Py.

(** Exceptions the scripts can meet. *)
Inductive exn :=
| ValueError (msg : string)
| OSError (msg : string)
| FileNotFoundError (path : string)
| FileExistsError (path : string)
| NotADirectoryError (path : string)
| IsADirectoryError (path : string)
| UnidentifiedImageError (path : string).

(** The outcome of running a statement or a call. *)
Inductive outcome (A : Type) :=
| Returned (a : A)
| Raised (e : exn).
Arguments Returned {A} a.
Arguments Raised {A} e.

Definition bind {A B} (m : outcome A) (k : A -> outcome B) : outcome B :=
  match m with
  | Returned a => k a
  | Raised e => Raised e
  end.

(** [for x in xs: body] threading the state [s]. *)
Fixpoint for_each {A S} (xs : list A) (body : A -> S -> outcome S) (s : S)
  : outcome S :=
  match xs with
  | [] => Returned s
  | x :: rest => bind (body x s) (for_each rest body)
  end.

(** [range(n)] *)
Definition range (n : nat) : list Z := map Z.of_nat (seq 0 n).

(** The line feed, [\n] in a Python string. *)
Definition newline : string := String (ascii_of_nat 10) EmptyString.

(** [str(n)] and [{n}] inside an f-string, for an [int]. *)
Definition str (n : Z) : string := NilZero.string_of_int (Z.to_int n).

(** [str(e)] for an exception caught by [except Exception as e]. *)
Definition str_exn (e : exn) : string :=
  match e with
  | ValueError m => m
  | OSError m => m
  | FileNotFoundError p => "[Errno 2] No such file or directory: '" ++ p ++ "'"
  | FileExistsError p => "[Errno 17] File exists: '" ++ p ++ "'"
  | NotADirectoryError p => "[Errno 20] Not a directory: '" ++ p ++ "'"
  | IsADirectoryError p => "[Errno 21] Is a directory: '" ++ p ++ "'"
  | UnidentifiedImageError p => "cannot identify image file '" ++ p ++ "'"
  end.

End Py.

Notation "x <- m ;; k" := (Py.bind m (fun x => k))
  (at level 100, m at next level, right associativity).

(** ** The file system and the console *)

Module OS.

(** What a run does to the outside world, in call order. *)
Inductive event :=
| Print (line : string)
| Makedirs (path : string)
| Open (path : string)
| Resize (w h : Z)
| Save (path : string).

Section World.
(** [C] is what a regular file holds. *)
Context {C : Type}.

Record world := {
  dirs : gset string;
  files : gmap string C;
  trace : list event
}.

Definition log (ev : event) (w : world) : world :=
  {| dirs := dirs w; files := files w; trace := (trace w ++ [ev])%list |}.

Definition isdir (w : world) (p : string) : bool := bool_decide (p ∈ dirs w).

Definition isfile (w : world) (p : string) : bool :=
  match files w !! p with Some _ => true | None => false end.

(** [os.path.exists] *)
Definition path_exists (w : world) (p : string) : bool := isdir w p || isfile w p.

(** [print(line)] *)
Definition print (line : string) (w : world) : world := log (Print line) w.

(** The lines printed so far. *)
Definition stdout (w : world) : list string :=
  flat_map (fun ev => match ev with Print l => [l] | _ => [] end) (trace w).

(** The paths a save was attempted on. *)
Definition saves (w : world) : list string :=
  flat_map (fun ev => match ev with Save p => [p] | _ => [] end) (trace w).

(** From [w] to [w'] no directory has changed, the file at [p] is what
    it was, and no save on [p] has been attempted. *)
Definition keeps (p : string) (w w' : world) : Prop :=
  dirs w' = dirs w
  /\ files w' !! p = files w !! p
  /\ exists new, saves w' = (saves w ++ new)%list /\ ~ In p new.
End World.
Arguments world : clear implicits.

(** [p[:i]] for [i = p.rfind('/') + 1]: the part up to and including the
    last slash, [None] when there is no slash. *)
Fixpoint head_slash (p : string) : option string :=
  match p with
  | EmptyString => None
  | String c rest =>
      match head_slash rest with
      | Some h => Some (String c h)
      | None => if Ascii.eqb c "/" then Some (String c EmptyString) else None
      end
  end.

(** [s.rstrip('/')] *)
Fixpoint rstrip_slash (s : string) : string :=
  match s with
  | EmptyString => EmptyString
  | String c rest =>
      match rstrip_slash rest with
      | EmptyString => if Ascii.eqb c "/" then EmptyString else String c EmptyString
      | r => String c r
      end
  end.

(** [os.path.dirname] (posixpath) *)
Definition dirname (p : string) : string :=
  match head_slash p with
  | None => ""
  | Some h => match rstrip_slash h with EmptyString => h | r => r end
  end.

(** [os.path.join(a, b)] (posixpath, two arguments) *)
Definition path_join (a b : string) : string :=
  match b with
  | String "/" _ => b
  | _ => match a with
         | EmptyString => b
         | _ => if String.eqb (rstrip_slash a) a then a ++ "/" ++ b else a ++ b
         end
  end.

(** The proper ancestors of a path, outermost first. *)
Fixpoint ancestors_upto (fuel : nat) (p : string) : list string :=
  match fuel with
  | O => []
  | S n =>
      let d := dirname p in
      if String.eqb d "" || String.eqb d p then []
      else (ancestors_upto n d ++ [d])%list
  end.

Definition ancestors (p : string) : list string :=
  ancestors_upto (String.length p) p.

Section Calls.
Context {C : Type}.
Implicit Type w : world C.

(** [os.makedirs(p, exist_ok=True)]: nothing when [p] is a directory;
    otherwise [p] and its missing ancestors are created, unless a
    regular file is in the way. *)
Definition makedirs_exist_ok (p : string) w : Py.outcome unit * world C :=
  let w := log (Makedirs p) w in
  if isdir w p then (Py.Returned tt, w)
  else if isfile w p then (Py.Raised (Py.FileExistsError p), w)
  else match List.find (isfile w) (ancestors p) with
       | Some a => (Py.Raised (Py.NotADirectoryError a), w)
       | None =>
           (Py.Returned tt,
            {| dirs := dirs w ∪ list_to_set (ancestors p) ∪ {[p]};
               files := files w;
               trace := trace w |})
       end.

(** Opening [p] for writing and storing [c]: the directory of [p] has to
    exist and [p] must not be a directory; an existing file is
    replaced. *)
Definition write_file (p : string) (c : C) w : Py.outcome unit * world C :=
  let w := log (Save p) w in
  if isdir w p then (Py.Raised (Py.IsADirectoryError p), w)
  else if String.eqb (dirname p) "" || isdir w (dirname p) then
    (Py.Returned tt,
     {| dirs := dirs w; files := <[p := c]> (files w); trace := trace w |})
  else (Py.Raised (Py.FileNotFoundError p), w).

(** [for x in xs: body] where the body acts on the world; an exception
    leaves the loop with the world as it is at that point. *)
Fixpoint for_each_io {A} (xs : list A) (body : A -> world C -> Py.outcome unit * world C)
    w : Py.outcome unit * world C :=
  match xs with
  | [] => (Py.Returned tt, w)
  | x :: rest =>
      match body x w with
      | (Py.Returned _, w') => for_each_io rest body w'
      | (Py.Raised e, w') => (Py.Raised e, w')
      end
  end.
End Calls.

End OS.

(** ** Pillow: fonts, canvases and drawing calls *)

Module Pillow.

Inductive font :=
| TrueType (path : string) (size : Z)
| DefaultFont.

(** What the machine offers: which font files load, whether the built-in
    font loads, and the font metrics behind [textbbox]. *)
Record font_env := {
  truetype_loads : string -> Z -> bool;
  default_loads : bool;
  bbox_at_origin : font -> string -> Z * Z * Z * Z
}.

(** [ImageFont.truetype(path, size)] *)
Definition truetype (env : font_env) (path : string) (size : Z) : Py.outcome font :=
  if truetype_loads env path size then Py.Returned (TrueType path size)
  else Py.Raised (Py.OSError "cannot open resource").

(** [ImageFont.load_default()] *)
Definition load_default (env : font_env) : Py.outcome font :=
  if default_loads env then Py.Returned DefaultFont
  else Py.Raised (Py.OSError "cannot open resource").

Inductive draw_op :=
| Rectangle (x0 y0 x1 y1 : Z) (fill : option string) (outline : string) (width : Z)
| RoundedRectangle (x0 y0 x1 y1 : Z) (radius : Z) (fill : option string)
    (outline : string) (width : Z)
| Text (x y : Z) (text : string) (fill : string) (fnt : font) (anchor : option string).

(** An image together with the drawing calls made on it so far. *)
Record image := {
  mode : string;
  width : Z;
  height : Z;
  background : string;
  ops : list draw_op
}.

(** [Image.new(mode, (w, h), color)] *)
Definition new (mode : string) (w h : Z) (color : string) : Py.outcome image :=
  if (w <? 0) || (h <? 0) then Py.Raised (Py.ValueError "Width and height must be >= 0")
  else Py.Returned {| mode := mode; width := w; height := h;
                      background := color; ops := [] |}.

Definition draw (op : draw_op) (img : image) : image :=
  {| mode := mode img; width := width img; height := height img;
     background := background img; ops := (ops img ++ [op])%list |}.

(** Several drawing calls in a row. *)
Definition draw_all (more : list draw_op) (img : image) : image :=
  {| mode := mode img; width := width img; height := height img;
     background := background img; ops := (ops img ++ more)%list |}.

(** [draw.rectangle([x0, y0, x1, y1], fill, outline, width)]: Pillow
    refuses a box whose second corner lies before the first. *)
Definition rectangle (x0 y0 x1 y1 : Z) (fill : option string) (outline : string)
    (width : Z) (img : image) : Py.outcome image :=
  if x1 <? x0 then Py.Raised (Py.ValueError "x1 must be greater than or equal to x0")
  else if y1 <? y0 then Py.Raised (Py.ValueError "y1 must be greater than or equal to y0")
  else Py.Returned (draw (Rectangle x0 y0 x1 y1 fill outline width) img).

(** [draw.rounded_rectangle([x0, y0, x1, y1], radius, fill, outline, width)] *)
Definition rounded_rectangle (x0 y0 x1 y1 : Z) (radius : Z) (fill : option string)
    (outline : string) (width : Z) (img : image) : Py.outcome image :=
  if x1 <? x0 then Py.Raised (Py.ValueError "x1 must be greater than or equal to x0")
  else if y1 <? y0 then Py.Raised (Py.ValueError "y1 must be greater than or equal to y0")
  else Py.Returned (draw (RoundedRectangle x0 y0 x1 y1 radius fill outline width) img).

(** [draw.text((x, y), text, fill, font, anchor)] *)
Definition text (x y : Z) (txt : string) (fill : string) (fnt : font)
    (anchor : option string) (img : image) : Py.outcome image :=
  Py.Returned (draw (Text x y txt fill fnt anchor) img).

(** [draw.textbbox((0, 0), text, font)] *)
Definition textbbox (env : font_env) (txt : string) (fnt : font) : Z * Z * Z * Z :=
  bbox_at_origin env fnt txt.

(** The rectangles of one fill colour among the calls made on an image. *)
Definition filled_with (color : string) (op : draw_op) : bool :=
  match op with
  | Rectangle _ _ _ _ (Some c) _ _ => String.eqb c color
  | _ => false
  end.

Definition is_text (op : draw_op) : bool :=
  match op with Text _ _ _ _ _ _ => true | _ => false end.

(** The labels written by a list of calls, and on an image, in call order. *)
Definition texts_of (calls : list draw_op) : list string :=
  flat_map (fun op => match op with Text _ _ t _ _ _ => [t] | _ => [] end) calls.

Definition labels (img : image) : list string := texts_of (ops img).

(** A box lies inside the pixel grid of an image. *)
Definition inside (img : image) (x0 y0 x1 y1 : Z) : bool :=
  (0 <=? x0) && (0 <=? y0) && (x1 <? width img) && (y1 <? height img).

(** The fonts the labels are written in, in call order. *)
Definition label_fonts (calls : list draw_op) : list font :=
  flat_map (fun op => match op with Text _ _ _ _ f _ => [f] | _ => [] end) calls.

(** The corners of the box of a rectangle call; a label has none. *)
Definition box_of (op : draw_op) : option (Z * Z * Z * Z) :=
  match op with
  | Rectangle x0 y0 x1 y1 _ _ _ => Some (x0, y0, x1, y1)
  | RoundedRectangle x0 y0 x1 y1 _ _ _ _ => Some (x0, y0, x1, y1)
  | Text _ _ _ _ _ _ => None
  end.

(** The box of a call, if it has one, lies inside the pixel grid. *)
Definition box_inside (img : image) (op : draw_op) : Prop :=
  match box_of op with
  | Some (x0, y0, x1, y1) => 0 <= x0 /\ 0 <= y0 /\ x1 < width img /\ y1 < height img
  | None => True
  end.

(** Two calls have boxes with no pixel in common. *)
Definition boxes_apart (a b : draw_op) : Prop :=
  match box_of a, box_of b with
  | Some (ax0, ay0, ax1, ay1), Some (bx0, by0, bx1, by1) =>
      ax1 < bx0 \/ bx1 < ax0 \/ ay1 < by0 \/ by1 < ay0
  | _, _ => True
  end.

(** The calls other than labels. *)
Definition shapes (calls : list draw_op) : list draw_op :=
  List.filter (fun op => negb (is_text op)) calls.

(** Two machines to run examples on: one where no font loads at all, and
    one that has the built-in bitmap font only (6 by 11 pixels a glyph). *)
Definition no_fonts : font_env :=
  {| truetype_loads := fun _ _ => false;
     default_loads := false;
     bbox_at_origin := fun _ _ => (0, 0, 0, 0) |}.

Definition builtin_font_only : font_env :=
  {| truetype_loads := fun _ _ => false;
     default_loads := true;
     bbox_at_origin := fun _ txt => (0, 0, 6 * Z.of_nat (String.length txt), 11) |}.

End Pillow.

(** ** create_bond_icon.py *)

Module CreateBondIcon.
Import Pillow.

Definition ICON_SIZES : list (Z * string) :=
  [ (20, "@1x"); (40, "@2x"); (60, "@3x");
    (29, "@1x"); (58, "@2x"); (87, "@3x");
    (40, "@1x"); (80, "@2x"); (120, "@3x");
    (120, "@2x"); (180, "@3x");
    (76, "@1x"); (152, "@2x");
    (167, "@2x");
    (1024, "@1x") ].

Definition hundred_color := "#1E88E5".
Definition ten_color := "#FF7043".
Definition unit_color := "#66BB6A".
Definition text_color := "#263238".
Definition border_color := "#424242".

(** *** Geometry *)

Definition margin (size : Z) : Z := Z.max 2 (size / 20).
Definition content_area (size : Z) : Z := size - 2 * margin size.
Definition block_spacing (size : Z) : Z := Z.max 2 (content_area size / 20).

Definition hundred_size (size : Z) : Z :=
  Z.min (content_area size / 3) (content_area size - 2 * block_spacing size).
Definition hundred_x (size : Z) : Z :=
  margin size + (content_area size - hundred_size size) / 2.
Definition hundred_y (size : Z) : Z := margin size.
Definition cell_size (size : Z) : Z := Z.max 1 (hundred_size size / 10).

Definition ten_y (size : Z) : Z := hundred_y size + hundred_size size + block_spacing size.
Definition ten_width (size : Z) : Z :=
  Z.min (content_area size * 3 / 4) (hundred_size size).
Definition ten_height (size : Z) : Z := Z.max 2 (content_area size / 15).
Definition ten_x (size : Z) : Z := margin size + (content_area size - ten_width size) / 2.
Definition unit_width (size : Z) : Z := Z.max 1 (ten_width size / 10).

Definition unit_y (size : Z) : Z := ten_y size + ten_height size + block_spacing size.
Definition unit_size (size : Z) : Z :=
  Z.max 4 (Z.min (content_area size / 8) (hundred_size size / 4)).
Definition unit_x (size : Z) : Z := margin size + (content_area size - unit_size size) / 2.

(** *** Font setup: a font is looked for from 100 pixels on only, and any
    failure to load it leaves [font = None]. *)
Definition font_setup (env : font_env) (size : Z) : option font :=
  let attempt :=
    if size >=? 100 then
      let font_size := Z.max 8 (size / 25) in
      f <- truetype env "/System/Library/Fonts/Helvetica-Bold.ttc" font_size ;;
      Py.Returned (Some f)
    else Py.Returned None in
  match attempt with
  | Py.Returned f => f
  | Py.Raised _ => None
  end.

(** *** 1. The hundred block *)

Definition hundred_cell (size : Z) (row col : Z) (img : image) : Py.outcome image :=
  if cell_size size >=? 1 then
    let x1 := hundred_x size + col * cell_size size in
    let y1 := hundred_y size + row * cell_size size in
    let x2 := x1 + cell_size size - 1 in
    let y2 := y1 + cell_size size - 1 in
    if (x2 >? x1) && (y2 >? y1) then
      rectangle x1 y1 x2 y2 (Some hundred_color) border_color
        (if size >=? 60 then 1 else 0) img
    else Py.Returned img
  else Py.Returned img.

Definition draw_hundred_block (size : Z) (font : option font) (img : image)
  : Py.outcome image :=
  if hundred_size size >? 10 then
    img <- Py.for_each (Py.range 10) (fun row =>
             Py.for_each (Py.range 10) (fun col => hundred_cell size row col)) img ;;
    match font with
    | Some f =>
        if size >=? 60 then
          text (hundred_x size + hundred_size size / 2 - 10)
               (hundred_y size + hundred_size size + 2)
               "100" text_color f (Some "mt") img
        else Py.Returned img
    | None => Py.Returned img
    end
  else Py.Returned img.

(** *** 2. The ten strip *)

Definition ten_cell (size : Z) (i : Z) (img : image) : Py.outcome image :=
  if unit_width size >=? 1 then
    let x1 := ten_x size + i * unit_width size in
    let y1 := ten_y size in
    let x2 := x1 + unit_width size - 1 in
    let y2 := y1 + ten_height size in
    if (x2 >? x1) && (y2 >? y1) then
      rectangle x1 y1 x2 y2 (Some ten_color) border_color
        (if size >=? 60 then 1 else 0) img
    else Py.Returned img
  else Py.Returned img.

Definition draw_ten_strip (size : Z) (font : option font) (img : image)
  : Py.outcome image :=
  if (ten_width size >? 10) && (ten_height size >? 0) then
    img <- Py.for_each (Py.range 10) (ten_cell size) img ;;
    match font with
    | Some f =>
        if size >=? 60 then
          text (ten_x size + ten_width size / 2) (ten_y size + ten_height size + 2)
               "10" text_color f (Some "mt") img
        else Py.Returned img
    | None => Py.Returned img
    end
  else Py.Returned img.

(** *** 3. The unit cube *)

Definition draw_unit_cube (size : Z) (font : option font) (img : image)
  : Py.outcome image :=
  if unit_size size >? 2 then
    img <- rectangle (unit_x size) (unit_y size)
             (unit_x size + unit_size size) (unit_y size + unit_size size)
             (Some unit_color) border_color (if size >=? 60 then 2 else 1) img ;;
    match font with
    | Some f =>
        if size >=? 60 then
          text (unit_x size + unit_size size / 2) (unit_y size + unit_size size + 2)
               "1" text_color f (Some "mt") img
        else Py.Returned img
    | None => Py.Returned img
    end
  else Py.Returned img.

(** *** The rounded border of larger icons *)

Definition draw_border (size : Z) (img : image) : Py.outcome image :=
  if size >=? 120 then
    let border_radius := size / 25 in
    rounded_rectangle 1 1 (size - 2) (size - 2) border_radius None "#E0E0E0" 1 img
  else Py.Returned img.

Definition create_bond_to_ten_icon (env : font_env) (size : Z) : Py.outcome image :=
  img <- new "RGB" size size "#FFFFFF" ;;
  let font := font_setup env size in
  img <- draw_hundred_block size font img ;;
  img <- draw_ten_strip size font img ;;
  img <- draw_unit_cube size font img ;;
  draw_border size img.

(** *** The drawing calls of a run, in closed form *)

Definition blank (size : Z) : image :=
  {| mode := "RGB"; width := size; height := size; background := "#FFFFFF"; ops := [] |}.

Definition label_call (size : Z) (font : option font) (x y : Z) (txt : string)
  : list draw_op :=
  match font with
  | Some f => if size >=? 60 then [Text x y txt text_color f (Some "mt")] else []
  | None => []
  end.

(** The 10x10 grid, row by row. *)
Definition hundred_grid (size : Z) : list draw_op :=
  flat_map (fun row =>
    map (fun col =>
      Rectangle (hundred_x size + col * cell_size size)
                (hundred_y size + row * cell_size size)
                (hundred_x size + col * cell_size size + cell_size size - 1)
                (hundred_y size + row * cell_size size + cell_size size - 1)
                (Some hundred_color) border_color (if size >=? 60 then 1 else 0))
        (Py.range 10))
    (Py.range 10).

Definition hundred_calls (size : Z) (font : option font) : list draw_op :=
  if hundred_size size >? 10 then
    ((if cell_size size >? 1 then hundred_grid size else [])
     ++ label_call size font (hundred_x size + hundred_size size / 2 - 10)
          (hundred_y size + hundred_size size + 2) "100")%list
  else [].

Definition ten_cells (size : Z) : list draw_op :=
  map (fun i =>
    Rectangle (ten_x size + i * unit_width size) (ten_y size)
              (ten_x size + i * unit_width size + unit_width size - 1)
              (ten_y size + ten_height size)
              (Some ten_color) border_color (if size >=? 60 then 1 else 0))
      (Py.range 10).

Definition ten_calls (size : Z) (font : option font) : list draw_op :=
  if (ten_width size >? 10) && (ten_height size >? 0) then
    ((if unit_width size >? 1 then ten_cells size else [])
     ++ label_call size font (ten_x size + ten_width size / 2)
          (ten_y size + ten_height size + 2) "10")%list
  else [].

Definition unit_square (size : Z) : draw_op :=
  Rectangle (unit_x size) (unit_y size)
            (unit_x size + unit_size size) (unit_y size + unit_size size)
            (Some unit_color) border_color (if size >=? 60 then 2 else 1).

Definition unit_calls (size : Z) (font : option font) : list draw_op :=
  (unit_square size
   :: label_call size font (unit_x size + unit_size size / 2)
        (unit_y size + unit_size size + 2) "1")%list.

Definition border_calls (size : Z) : list draw_op :=
  if size >=? 120 then
    [RoundedRectangle 1 1 (size - 2) (size - 2) (size / 25) None "#E0E0E0" 1]
  else [].

Definition all_calls (env : font_env) (size : Z) : list draw_op :=
  let font := font_setup env size in
  (hundred_calls size font ++ ten_calls size font ++ unit_calls size font
   ++ border_calls size)%list.

(** *** The batch driver *)

Definition icon_dir := "ios/Runner/Assets.xcassets/AppIcon.appiconset".

(** The base size of a table entry, from its scale. *)
Definition base_size_of (size : Z) (scale : string) : Z :=
  if String.eqb scale "@2x" then size / 2
  else if String.eqb scale "@3x" then size / 3
  else size.

(** The file name of a table entry. *)
Definition filename_of (size : Z) (scale : string) : string :=
  let base_size := base_size_of size scale in
  if size =? 1024 then "Icon-App-1024x1024@1x.png"
  else if base_size =? 20 then "Icon-App-20x20" ++ scale ++ ".png"
  else if base_size =? 29 then "Icon-App-29x29" ++ scale ++ ".png"
  else if base_size =? 40 then "Icon-App-40x40" ++ scale ++ ".png"
  else if base_size =? 60 then "Icon-App-60x60" ++ scale ++ ".png"
  else if base_size =? 76 then "Icon-App-76x76" ++ scale ++ ".png"
  else if size =? 167 then "Icon-App-83.5x83.5@2x.png"
  else "Icon-App-" ++ Py.str size ++ "x" ++ Py.str size ++ ".png".

(** One turn of the loop over [ICON_SIZES].  Every entry is a pair, so
    [len(size_info) == 2] holds and the other branch is never taken. *)
Definition generate_one (env : font_env) (size_info : Z * string)
    (w : OS.world image) : Py.outcome unit * OS.world image :=
  let '(size, scale) := size_info in
  match create_bond_to_ten_icon env size with
  | Py.Raised e => (Py.Raised e, w)
  | Py.Returned icon =>
      let filename := filename_of size scale in
      let filepath := OS.path_join icon_dir filename in
      match OS.write_file filepath icon w with
      | (Py.Raised e, w) => (Py.Raised e, w)
      | (Py.Returned _, w) =>
          (Py.Returned tt,
           OS.print ("âœ… Generated: " ++ filename ++ " (" ++ Py.str size ++ "x"
                     ++ Py.str size ++ ")") w)
      end
  end.

Definition generate_ios_icons (env : font_env) (w : OS.world image)
  : Py.outcome unit * OS.world image :=
  match OS.makedirs_exist_ok icon_dir w with
  | (Py.Raised e, w) => (Py.Raised e, w)
  | (Py.Returned _, w) =>
      let w := OS.print "Generating proper Bond to Ten app icons..." w in
      OS.for_each_io ICON_SIZES (generate_one env) w
  end.

(** The path an entry is saved under, and the line printed for it. *)
Definition filepath_of (size : Z) (scale : string) : string :=
  OS.path_join icon_dir (filename_of size scale).

Definition progress_line (size : Z) (scale : string) : string :=
  "âœ… Generated: " ++ filename_of size scale ++ " (" ++ Py.str size ++ "x" ++ Py.str size ++ ")".

(** *** The script run as a program *)

Definition closing_lines : list string :=
  [ Py.newline ++ "ðŸŽ‰ Bond to Ten icon generation complete!";
    "ðŸ“± Icons created with proper base-10 blocks representation:";
    "   â€¢ Blue 10x10 grid (hundreds)";
    "   â€¢ Orange strip of 10 units (tens)";
    "   â€¢ Green single square (units)";
    Py.newline ++ "Next steps:";
    "1. flutter clean";
    "2. flutter build ios --release";
    "3. Install to iPhone" ].

Definition script (env : font_env) (w : OS.world image)
  : Py.outcome unit * OS.world image :=
  match generate_ios_icons env w with
  | (Py.Raised e, w) => (Py.Raised e, w)
  | (Py.Returned _, w) =>
      (Py.Returned tt, fold_left (fun w line => OS.print line w) closing_lines w)
  end.

End CreateBondIcon.

(** ** generate_icon.py *)

Module GenerateIcon.
Import Pillow.

Definition ICON_SIZES : list (Z * string) :=
  [ (20, "@1x"); (40, "@2x"); (60, "@3x");
    (29, "@1x"); (58, "@2x"); (87, "@3x");
    (40, "@1x"); (80, "@2x"); (120, "@3x");
    (120, "@2x"); (180, "@3x");
    (76, "@1x"); (152, "@2x");
    (167, "@2x");
    (1024, "@1x") ].

Definition unit_color := "#4CAF50".
Definition ten_color := "#FF9800".
Definition hundred_color := "#2196F3".
Definition border_color := "#333333".

(** *** Geometry *)

Definition margin (size : Z) : Z := size / 12.
Definition content_size (size : Z) : Z := size - 2 * margin size.

Definition hundred_size (size : Z) : Z := content_size size / 3.
Definition hundred_x (size : Z) : Z :=
  margin size + (content_size size - hundred_size size) / 2.
Definition hundred_y (size : Z) : Z := margin size.
Definition cell_size (size : Z) : Z := Z.max 1 (hundred_size size / 10).

Definition ten_width (size : Z) : Z := content_size size / 2.
Definition ten_height (size : Z) : Z := content_size size / 12.
Definition ten_x (size : Z) : Z := margin size.
Definition ten_y (size : Z) : Z := hundred_y size + hundred_size size + margin size.
Definition unit_width (size : Z) : Z := Z.max 1 (ten_width size / 10).

Definition unit_size (size : Z) : Z := content_size size / 8.
Definition unit_x (size : Z) : Z := margin size + content_size size - unit_size size.
Definition unit_y (size : Z) : Z := ten_y size + ten_height size + margin size / 2.

(** *** Font setup: both TrueType files have to load, else the built-in
    font is tried, else there is no font.  The result is
    [(font, title_font)]. *)
Definition font_setup (env : font_env) (size : Z) : option font * option font :=
  let attempt :=
    let font_size := Z.max (size / 20) 8 in
    font <- truetype env "/System/Library/Fonts/Helvetica-Bold.ttc" font_size ;;
    let title_font_size := Z.max (size / 25) 6 in
    title_font <- truetype env "/System/Library/Fonts/Helvetica.ttc" title_font_size ;;
    Py.Returned (font, title_font) in
  match attempt with
  | Py.Returned (font, title_font) => (Some font, Some title_font)
  | Py.Raised _ =>
      match load_default env with
      | Py.Returned font => (Some font, Some font)
      | Py.Raised _ => (None, None)
      end
  end.

(** The width of a label, from its bounding box at the origin. *)
Definition text_width (env : font_env) (txt : string) (f : font) : Z :=
  let '(x0, _, x1, _) := textbbox env txt f in x1 - x0.

(** *** 1. The hundred square *)

Definition hundred_cell (size : Z) (row col : Z) (img : image) : Py.outcome image :=
  let cell_x := hundred_x size + col * cell_size size in
  let cell_y := hundred_y size + row * cell_size size in
  let cell_x2 := cell_x + cell_size size - 1 in
  let cell_y2 := cell_y + cell_size size - 1 in
  if (cell_x2 >? cell_x) && (cell_y2 >? cell_y) then
    rectangle cell_x cell_y cell_x2 cell_y2 (Some hundred_color) border_color 1 img
  else Py.Returned img.

Definition draw_hundred_square (env : font_env) (size : Z) (font : option font)
    (img : image) : Py.outcome image :=
  img <- Py.for_each (Py.range 10) (fun row =>
           Py.for_each (Py.range 10) (fun col => hundred_cell size row col)) img ;;
  match font with
  | Some f =>
      let text_x := hundred_x size + (hundred_size size - text_width env "100" f) / 2 in
      let text_y := hundred_y size + hundred_size size + 2 in
      text text_x text_y "100" border_color f None img
  | None => Py.Returned img
  end.

(** *** 2. The ten strip *)

Definition ten_cell (size : Z) (i : Z) (img : image) : Py.outcome image :=
  let unit_x := ten_x size + i * unit_width size in
  let unit_x2 := unit_x + unit_width size - 1 in
  let unit_y2 := ten_y size + ten_height size in
  if (unit_x2 >? unit_x) && (unit_y2 >? ten_y size) then
    rectangle unit_x (ten_y size) unit_x2 unit_y2 (Some ten_color) border_color 1 img
  else Py.Returned img.

Definition draw_ten_strip (env : font_env) (size : Z) (font : option font)
    (img : image) : Py.outcome image :=
  img <- Py.for_each (Py.range 10) (ten_cell size) img ;;
  match font with
  | Some f =>
      let text_x := ten_x size + (ten_width size - text_width env "10" f) / 2 in
      let text_y := ten_y size + ten_height size + 2 in
      text text_x text_y "10" border_color f None img
  | None => Py.Returned img
  end.

(** *** 3. The single unit: drawn with no test on its extent *)

Definition draw_single_unit (env : font_env) (size : Z) (font : option font)
    (img : image) : Py.outcome image :=
  img <- rectangle (unit_x size) (unit_y size)
           (unit_x size + unit_size size) (unit_y size + unit_size size)
           (Some unit_color) border_color 2 img ;;
  match font with
  | Some f =>
      let text_x := unit_x size + (unit_size size - text_width env "1" f) / 2 in
      let text_y := unit_y size + unit_size size + 2 in
      text text_x text_y "1" border_color f None img
  | None => Py.Returned img
  end.

(** *** The rounded border of larger icons *)

Definition draw_border (size : Z) (img : image) : Py.outcome image :=
  if size >=? 100 then
    let border_radius := size / 20 in
    rounded_rectangle 2 2 (size - 3) (size - 3) border_radius None "#E0E0E0" 2 img
  else Py.Returned img.

Definition create_bond_to_ten_icon (env : font_env) (size : Z) : Py.outcome image :=
  img <- new "RGB" size size "#FFFFFF" ;;
  let font := fst (font_setup env size) in
  img <- draw_hundred_square env size font img ;;
  img <- draw_ten_strip env size font img ;;
  img <- draw_single_unit env size font img ;;
  draw_border size img.

(** *** The drawing calls of a run, in closed form *)

Definition blank (size : Z) : image :=
  {| mode := "RGB"; width := size; height := size; background := "#FFFFFF"; ops := [] |}.

(** A label centred on the span [left .. left + span]. *)
Definition label_call (env : font_env) (font : option font) (left span y : Z)
    (txt : string) : list draw_op :=
  match font with
  | Some f => [Text (left + (span - text_width env txt f) / 2) y txt border_color f None]
  | None => []
  end.

(** The 10x10 grid, row by row. *)
Definition hundred_grid (size : Z) : list draw_op :=
  flat_map (fun row =>
    map (fun col =>
      Rectangle (hundred_x size + col * cell_size size)
                (hundred_y size + row * cell_size size)
                (hundred_x size + col * cell_size size + cell_size size - 1)
                (hundred_y size + row * cell_size size + cell_size size - 1)
                (Some hundred_color) border_color 1)
        (Py.range 10))
    (Py.range 10).

Definition hundred_calls (env : font_env) (size : Z) (font : option font)
  : list draw_op :=
  ((if cell_size size >? 1 then hundred_grid size else [])
   ++ label_call env font (hundred_x size) (hundred_size size)
        (hundred_y size + hundred_size size + 2) "100")%list.

Definition ten_cells (size : Z) : list draw_op :=
  map (fun i =>
    Rectangle (ten_x size + i * unit_width size) (ten_y size)
              (ten_x size + i * unit_width size + unit_width size - 1)
              (ten_y size + ten_height size)
              (Some ten_color) border_color 1)
      (Py.range 10).

Definition ten_calls (env : font_env) (size : Z) (font : option font)
  : list draw_op :=
  ((if (unit_width size >? 1) && (ten_height size >? 0) then ten_cells size else [])
   ++ label_call env font (ten_x size) (ten_width size)
        (ten_y size + ten_height size + 2) "10")%list.

Definition unit_square (size : Z) : draw_op :=
  Rectangle (unit_x size) (unit_y size)
            (unit_x size + unit_size size) (unit_y size + unit_size size)
            (Some unit_color) border_color 2.

Definition unit_calls (env : font_env) (size : Z) (font : option font)
  : list draw_op :=
  (unit_square size
   :: label_call env font (unit_x size) (unit_size size)
        (unit_y size + unit_size size + 2) "1")%list.

Definition border_calls (size : Z) : list draw_op :=
  if size >=? 100 then
    [RoundedRectangle 2 2 (size - 3) (size - 3) (size / 20) None "#E0E0E0" 2]
  else [].

Definition all_calls (env : font_env) (size : Z) : list draw_op :=
  let font := fst (font_setup env size) in
  (hundred_calls env size font ++ ten_calls env size font ++ unit_calls env size font
   ++ border_calls size)%list.

(** *** The batch driver *)

Definition icon_dir := "ios/Runner/Assets.xcassets/AppIcon.appiconset".

(** The base size of a table entry, from its scale. *)
Definition base_size_of (size : Z) (scale : string) : Z :=
  if String.eqb scale "@1x" then size
  else if String.eqb scale "@2x" then size / 2
  else if String.eqb scale "@3x" then size / 3
  else size.

(** The file name of a table entry. *)
Definition filename_of (size : Z) (scale : string) : string :=
  let base_size := base_size_of size scale in
  if size =? 1024 then "Icon-App-1024x1024@1x.png"
  else if base_size =? 20 then "Icon-App-20x20" ++ scale ++ ".png"
  else if base_size =? 29 then "Icon-App-29x29" ++ scale ++ ".png"
  else if base_size =? 40 then "Icon-App-40x40" ++ scale ++ ".png"
  else if base_size =? 60 then "Icon-App-60x60" ++ scale ++ ".png"
  else if base_size =? 76 then "Icon-App-76x76" ++ scale ++ ".png"
  else if size =? 167 then "Icon-App-83.5x83.5@2x.png"
  else "Icon-App-" ++ Py.str size ++ "x" ++ Py.str size ++ ".png".

(** One turn of the loop over [ICON_SIZES].  Every entry is a pair, so
    [len(size_info) == 2] holds and the other branch is never taken. *)
Definition generate_one (env : font_env) (size_info : Z * string)
    (w : OS.world image) : Py.outcome unit * OS.world image :=
  let '(size, scale) := size_info in
  match create_bond_to_ten_icon env size with
  | Py.Raised e => (Py.Raised e, w)
  | Py.Returned icon =>
      let filename := filename_of size scale in
      let filepath := OS.path_join icon_dir filename in
      match OS.write_file filepath icon w with
      | (Py.Raised e, w) => (Py.Raised e, w)
      | (Py.Returned _, w) =>
          (Py.Returned tt,
           OS.print ("Generated: " ++ filename ++ " (" ++ Py.str size ++ "x"
                     ++ Py.str size ++ ")") w)
      end
  end.

Definition generate_ios_icons (env : font_env) (w : OS.world image)
  : Py.outcome unit * OS.world image :=
  match OS.makedirs_exist_ok icon_dir w with
  | (Py.Raised e, w) => (Py.Raised e, w)
  | (Py.Returned _, w) =>
      OS.for_each_io ICON_SIZES (generate_one env) w
  end.

(** The path an entry is saved under, and the line printed for it. *)
Definition filepath_of (size : Z) (scale : string) : string :=
  OS.path_join icon_dir (filename_of size scale).

Definition progress_line (size : Z) (scale : string) : string :=
  "Generated: " ++ filename_of size scale ++ " (" ++ Py.str size ++ "x" ++ Py.str size ++ ")".

(** *** The script run as a program *)

Definition closing_lines : list string :=
  [ "Icon generation complete!";
    Py.newline ++ "Next steps:";
    "1. Run: flutter clean";
    "2. Run: flutter build ios --release";
    "3. Install to iPhone" ].

Definition script (env : font_env) (w : OS.world image)
  : Py.outcome unit * OS.world image :=
  let w := OS.print "Generating Bond to Ten app icons..." w in
  match generate_ios_icons env w with
  | (Py.Raised e, w) => (Py.Raised e, w)
  | (Py.Returned _, w) =>
      (Py.Returned tt, fold_left (fun w line => OS.print line w) closing_lines w)
  end.

End GenerateIcon.

(** ** The naming pattern of the icon catalogue *)

Module Catalogue.

(** The factor a scale label stands for. *)
Definition scale_factor (scale : string) : Z :=
  if String.eqb scale "@2x" then 2
  else if String.eqb scale "@3x" then 3
  else 1.

(** The point size of an entry in decimal: the pixel size divided by the
    factor of its scale, with one digit after the point when the
    division leaves a remainder. *)
Definition point_size (size : Z) (scale : string) : string :=
  let k := scale_factor scale in
  if size mod k =? 0 then Py.str (size / k)
  else Py.str (size / k) ++ "." ++ Py.str (10 * (size mod k) / k).

(** The pattern [Icon-App-<base>x<base><scale>.png], following the words
    of the specification, to compare the scripts' names with. *)
Definition spec_pattern (size : Z) (scale : string) : string :=
  "Icon-App-" ++ point_size size scale ++ "x" ++ point_size size scale
  ++ scale ++ ".png".

(** A world in which the output directory is there and nothing else is. *)
Definition catalogue_only {C} : OS.world C :=
  {| OS.dirs := {[ "ios/Runner/Assets.xcassets/AppIcon.appiconset" ]};
     OS.files := ∅;
     OS.trace := [] |}.

End Catalogue.

(** ** resize_icons.py *)

Module ResizeIcons.

(** An image as this script sees it: decoded from a file, or the result
    of resampling another one. *)
Inductive picture :=
| Decoded (w h : Z) (pixels : string)
| Lanczos (src : picture) (w h : Z).

Definition pic_width (p : picture) : Z :=
  match p with Decoded w _ _ => w | Lanczos _ w _ => w end.
Definition pic_height (p : picture) : Z :=
  match p with Decoded _ h _ => h | Lanczos _ _ h => h end.

(** What a regular file holds: an encoded picture, or something Pillow
    cannot identify. *)
Inductive content :=
| PNG (p : picture)
| NotAnImage.

Abbreviation world := (OS.world content).

Definition ICON_SIZES : list (Z * string) :=
  [ (40, "Icon-App-20x20@2x.png");
    (60, "Icon-App-20x20@3x.png");
    (29, "Icon-App-29x29@1x.png");
    (58, "Icon-App-29x29@2x.png");
    (87, "Icon-App-29x29@3x.png");
    (80, "Icon-App-40x40@2x.png");
    (120, "Icon-App-40x40@3x.png");
    (120, "Icon-App-60x60@2x.png");
    (20, "Icon-App-20x20@1x.png");
    (40, "Icon-App-40x40@1x.png");
    (1024, "Icon-App-1024x1024@1x.png") ].

(** [Image.open(path)] *)
Definition image_open (path : string) (w : world) : Py.outcome picture * world :=
  let w := OS.log (OS.Open path) w in
  if OS.isdir w path then (Py.Raised (Py.IsADirectoryError path), w)
  else match OS.files w !! path with
       | None => (Py.Raised (Py.FileNotFoundError path), w)
       | Some NotAnImage => (Py.Raised (Py.UnidentifiedImageError path), w)
       | Some (PNG p) => (Py.Returned p, w)
       end.

(** [img.resize((tw, th), Image.Resampling.LANCZOS)] *)
Definition resize (img : picture) (tw th : Z) (w : world) : Py.outcome picture * world :=
  let w := OS.log (OS.Resize tw th) w in
  if (tw <=? 0) || (th <=? 0) then
    (Py.Raised (Py.ValueError "height and width must be > 0"), w)
  else (Py.Returned (Lanczos img tw th), w).

Definition target_path_of (target_filename : string) : string :=
  "ios/Runner/Assets.xcassets/AppIcon.appiconset/" ++ target_filename.

(** The body of the [try] in [resize_icon]. *)
Definition resize_and_save (source_path : string) (target_size : Z)
    (target_filename : string) (w : world) : Py.outcome unit * world :=
  match image_open source_path w with
  | (Py.Raised e, w) => (Py.Raised e, w)
  | (Py.Returned img, w) =>
      match resize img target_size target_size w with
      | (Py.Raised e, w) => (Py.Raised e, w)
      | (Py.Returned resized_img, w) =>
          let target_path := target_path_of target_filename in
          match OS.write_file target_path (PNG resized_img) w with
          | (Py.Raised e, w) => (Py.Raised e, w)
          | (Py.Returned _, w) =>
              (Py.Returned tt,
               OS.print ("✅ Created " ++ target_filename ++ " (" ++ Py.str target_size
                         ++ "x" ++ Py.str target_size ++ ")") w)
          end
      end
  end.

(** [resize_icon]: every exception is caught and reported. *)
Definition resize_icon (source_path : string) (target_size : Z)
    (target_filename : string) (w : world) : world :=
  match resize_and_save source_path target_size target_filename w with
  | (Py.Returned _, w) => w
  | (Py.Raised e, w) =>
      OS.print ("❌ Error creating " ++ target_filename ++ ": " ++ Py.str_exn e) w
  end.

Definition source_icon := "icon/bond_to_ten_icon_167x167.png".

(** One turn of the loop of [main]. *)
Definition main_step (w : world) (entry : Z * string) : world :=
  let '(target_size, target_filename) := entry in
  let target_path := target_path_of target_filename in
  if negb (OS.path_exists w target_path)
     || String.eqb target_filename "Icon-App-60x60@2x.png"
  then resize_icon source_icon target_size target_filename w
  else OS.print ("⏭️  Skipped " ++ target_filename ++ " (already exists)") w.

Definition newline : string := String (ascii_of_nat 10) EmptyString.

Definition main (w : world) : world :=
  if negb (OS.path_exists w source_icon) then
    OS.print ("❌ Source icon not found: " ++ source_icon) w
  else
    let w := OS.print "🎨 Generating missing iOS app icons..." w in
    let w := fold_left main_step ICON_SIZES w in
    let w := OS.print (newline ++ "🎉 Icon generation complete!") w in
    OS.print "📱 Ready to build and deploy to iPhone!" w.

(** The line [main] prints for an entry: created, failed with some
    exception, or skipped. *)
Definition reports (entry : Z * string) (line : string) : Prop :=
  line = "✅ Created " ++ snd entry ++ " (" ++ Py.str (fst entry)
         ++ "x" ++ Py.str (fst entry) ++ ")"
  \/ (exists e, line = "❌ Error creating " ++ snd entry ++ ": " ++ Py.str_exn e)
  \/ line = "⏭️  Skipped " ++ snd entry ++ " (already exists)".

(** Two worlds to run examples on: one with the source image and no
    output directory, and one with the output directory stocked with two
    icons of an earlier run. *)
Definition source_only : world :=
  {| OS.dirs := {[ "icon" ]};
     OS.files := {[ source_icon := PNG (Decoded 167 167 "bond to ten") ]};
     OS.trace := [] |}.

Definition stocked : world :=
  {| OS.dirs := {[ "icon" ]} ∪ {[ "ios/Runner/Assets.xcassets/AppIcon.appiconset" ]};
     OS.files :=
       <[ target_path_of "Icon-App-60x60@2x.png" := PNG (Decoded 60 60 "earlier copy") ]>
       (<[ target_path_of "Icon-App-20x20@2x.png" := PNG (Decoded 40 40 "earlier 20@2x") ]>
        {[ source_icon := PNG (Decoded 167 167 "bond to ten") ]});
     OS.trace := [] |}.

End ResizeIcons.

(** * Properties *)

(** ** Arithmetic with floor division by constants *)

Ltac div_lia := Z.to_euclidean_division_equations; lia.

(** [~ In x l] for a closed list [l] whose entries all differ from [x]. *)
Ltac not_listed :=
  let H := fresh "Hin" in
  intros H; simpl in H;
  repeat (destruct H as [H|H]; [discriminate H|]); exact H.

Lemma string_app_assoc (a b c : string) : ((a ++ b) ++ c = a ++ (b ++ c))%string.
Proof.
  induction a as [|ch a IH]; [reflexivity|].
  change (String ch ((a ++ b) ++ c) = String ch (a ++ (b ++ c)))%string.
  by rewrite IH.
Qed.

Lemma gtb_true a b : b < a -> (a >? b) = true.
Proof. intros. destruct (Z.gtb_spec a b); [done|lia]. Qed.

Lemma gtb_false a b : a <= b -> (a >? b) = false.
Proof. intros. destruct (Z.gtb_spec a b); [lia|done]. Qed.

(** ** Canvases *)

Section CanvasFacts.
Import Pillow.

Lemma draw_all_nil img : draw_all [] img = img.
Proof. destruct img; unfold draw_all; simpl. by rewrite app_nil_r. Qed.

Lemma draw_all_app l1 l2 img : draw_all l2 (draw_all l1 img) = draw_all (l1 ++ l2) img.
Proof. unfold draw_all; simpl. by rewrite app_assoc. Qed.

Lemma draw_one op img : draw op img = draw_all [op] img.
Proof. reflexivity. Qed.

Lemma rectangle_ok x0 y0 x1 y1 fill outline w img :
  x0 <= x1 -> y0 <= y1 ->
  rectangle x0 y0 x1 y1 fill outline w img
  = Py.Returned (draw_all [Rectangle x0 y0 x1 y1 fill outline w] img).
Proof.
  intros Hx Hy. unfold rectangle.
  destruct (Z.ltb_spec x1 x0); [lia|].
  destruct (Z.ltb_spec y1 y0); [lia|]. reflexivity.
Qed.

Lemma rounded_rectangle_ok x0 y0 x1 y1 r fill outline w img :
  x0 <= x1 -> y0 <= y1 ->
  rounded_rectangle x0 y0 x1 y1 r fill outline w img
  = Py.Returned (draw_all [RoundedRectangle x0 y0 x1 y1 r fill outline w] img).
Proof.
  intros Hx Hy. unfold rounded_rectangle.
  destruct (Z.ltb_spec x1 x0); [lia|].
  destruct (Z.ltb_spec y1 y0); [lia|]. reflexivity.
Qed.

(** A loop whose every turn makes a fixed list of calls makes them all,
    in order. *)
Lemma for_each_draws {A} (f : A -> list draw_op) (body : A -> image -> Py.outcome image)
    (xs : list A) :
  (forall x img, In x xs -> body x img = Py.Returned (draw_all (f x) img)) ->
  forall img, Py.for_each xs body img = Py.Returned (draw_all (flat_map f xs) img).
Proof.
  induction xs as [|x xs IH]; intros Hbody img; simpl.
  - by rewrite draw_all_nil.
  - rewrite Hbody by (by left). simpl.
    rewrite IH by (intros; apply Hbody; by right).
    by rewrite draw_all_app.
Qed.

Lemma filter_filled_app c (l1 l2 : list draw_op) :
  List.filter (filled_with c) (l1 ++ l2)
  = (List.filter (filled_with c) l1 ++ List.filter (filled_with c) l2)%list.
Proof. apply List.filter_app. Qed.

End CanvasFacts.

(** ** The renderer of create_bond_icon.py *)

Section CreateBondIconFacts.
Import Pillow CreateBondIcon.

Lemma cbi_cell_size_pos size : 1 <= cell_size size.
Proof. unfold cell_size. lia. Qed.

Lemma cbi_unit_size_ge_4 size : 4 <= unit_size size.
Proof. unfold unit_size. lia. Qed.

Lemma cbi_hundred_cell size row col img :
  hundred_cell size row col img
  = Py.Returned (draw_all
      (if cell_size size >? 1 then
         [Rectangle (hundred_x size + col * cell_size size)
                    (hundred_y size + row * cell_size size)
                    (hundred_x size + col * cell_size size + cell_size size - 1)
                    (hundred_y size + row * cell_size size + cell_size size - 1)
                    (Some hundred_color) border_color (if size >=? 60 then 1 else 0)]
       else []) img).
Proof.
  unfold hundred_cell. pose proof (cbi_cell_size_pos size) as Hc.
  destruct (Z.geb_spec (cell_size size) 1); [|lia].
  destruct (Z.gtb_spec (cell_size size) 1) as [Hgt|Hle].
  - rewrite !gtb_true by lia.
    simpl. apply rectangle_ok; lia.
  - rewrite gtb_false by lia.
    simpl. by rewrite draw_all_nil.
Qed.

Lemma cbi_label size font x y txt img :
  match font with
  | Some f => if size >=? 60 then text x y txt text_color f (Some "mt") img
              else Py.Returned img
  | None => Py.Returned img
  end = Py.Returned (draw_all (label_call size font x y txt) img).
Proof.
  unfold label_call. destruct font as [f|]; [destruct (size >=? 60)|];
    by rewrite ?draw_all_nil.
Qed.

Lemma cbi_draw_hundred_block size font img :
  draw_hundred_block size font img
  = Py.Returned (draw_all (hundred_calls size font) img).
Proof.
  unfold draw_hundred_block, hundred_calls.
  destruct (hundred_size size >? 10); [|by rewrite draw_all_nil].
  rewrite (for_each_draws
    (fun row => flat_map (fun col =>
       if cell_size size >? 1 then
         [Rectangle (hundred_x size + col * cell_size size)
                    (hundred_y size + row * cell_size size)
                    (hundred_x size + col * cell_size size + cell_size size - 1)
                    (hundred_y size + row * cell_size size + cell_size size - 1)
                    (Some hundred_color) border_color (if size >=? 60 then 1 else 0)]
       else []) (Py.range 10))).
  2:{ intros row img' _. apply for_each_draws. intros col img'' _.
      apply cbi_hundred_cell. }
  simpl Py.bind. rewrite cbi_label, draw_all_app. do 3 f_equal.
  unfold hundred_grid. destruct (cell_size size >? 1); reflexivity.
Qed.

Lemma cbi_ten_cell size i img :
  ten_cell size i img
  = Py.Returned (draw_all
      (if unit_width size >? 1 then
         [Rectangle (ten_x size + i * unit_width size) (ten_y size)
                    (ten_x size + i * unit_width size + unit_width size - 1)
                    (ten_y size + ten_height size)
                    (Some ten_color) border_color (if size >=? 60 then 1 else 0)]
       else []) img).
Proof.
  unfold ten_cell.
  assert (1 <= unit_width size) as Hu by (unfold unit_width; lia).
  assert (2 <= ten_height size) as Hh by (unfold ten_height; lia).
  destruct (Z.geb_spec (unit_width size) 1); [|lia].
  destruct (Z.gtb_spec (unit_width size) 1) as [Hgt|Hle].
  - rewrite !gtb_true by lia.
    simpl. apply rectangle_ok; lia.
  - rewrite gtb_false by lia.
    simpl. by rewrite draw_all_nil.
Qed.

Lemma cbi_draw_ten_strip size font img :
  draw_ten_strip size font img = Py.Returned (draw_all (ten_calls size font) img).
Proof.
  unfold draw_ten_strip, ten_calls.
  destruct ((ten_width size >? 10) && (ten_height size >? 0)); [|by rewrite draw_all_nil].
  rewrite (for_each_draws _ _ _ (fun i img' _ => cbi_ten_cell size i img')).
  simpl Py.bind. rewrite cbi_label, draw_all_app. do 3 f_equal.
  unfold ten_cells. destruct (unit_width size >? 1); reflexivity.
Qed.

Lemma cbi_draw_unit_cube size font img :
  draw_unit_cube size font img = Py.Returned (draw_all (unit_calls size font) img).
Proof.
  unfold draw_unit_cube, unit_calls, unit_square.
  pose proof (cbi_unit_size_ge_4 size) as Hu.
  destruct (Z.gtb_spec (unit_size size) 2); [|lia].
  rewrite rectangle_ok by lia. simpl Py.bind.
  by rewrite cbi_label, draw_all_app.
Qed.

Lemma cbi_draw_border size img :
  draw_border size img = Py.Returned (draw_all (border_calls size) img).
Proof.
  unfold draw_border, border_calls.
  destruct (Z.geb_spec size 120); [|by rewrite draw_all_nil].
  apply rounded_rectangle_ok; lia.
Qed.

(** The renderer never raises on a size it can make a canvas of, and its
    calls are those of the closed form. *)
Lemma cbi_create_closed_form env size :
  0 <= size ->
  create_bond_to_ten_icon env size
  = Py.Returned (draw_all (all_calls env size) (blank size)).
Proof.
  intros Hs. unfold create_bond_to_ten_icon, new.
  destruct (Z.ltb_spec size 0); [lia|]. simpl.
  rewrite cbi_draw_hundred_block. simpl Py.bind.
  rewrite cbi_draw_ten_strip. simpl Py.bind.
  rewrite cbi_draw_unit_cube. simpl Py.bind.
  rewrite cbi_draw_border. unfold all_calls.
  rewrite !draw_all_app. f_equal; by rewrite <- ?app_assoc.
Qed.
End CreateBondIconFacts.

(** ** The renderer of generate_icon.py *)

Section GenerateIconFacts.
Import Pillow GenerateIcon.

Lemma gi_cell_size_pos size : 1 <= cell_size size.
Proof. unfold cell_size. lia. Qed.

Lemma gi_content_size_nonneg size : 0 <= size -> 0 <= content_size size.
Proof. unfold content_size, margin. intros. div_lia. Qed.

Lemma gi_unit_size_nonneg size : 0 <= size -> 0 <= unit_size size.
Proof.
  intros Hs. pose proof (gi_content_size_nonneg size Hs).
  unfold unit_size. div_lia.
Qed.

Lemma gi_hundred_cell size row col img :
  hundred_cell size row col img
  = Py.Returned (draw_all
      (if cell_size size >? 1 then
         [Rectangle (hundred_x size + col * cell_size size)
                    (hundred_y size + row * cell_size size)
                    (hundred_x size + col * cell_size size + cell_size size - 1)
                    (hundred_y size + row * cell_size size + cell_size size - 1)
                    (Some hundred_color) border_color 1]
       else []) img).
Proof.
  unfold hundred_cell.
  destruct (Z.gtb_spec (cell_size size) 1) as [Hgt|Hle].
  - rewrite !gtb_true by lia. simpl. apply rectangle_ok; lia.
  - rewrite gtb_false by lia. simpl. by rewrite draw_all_nil.
Qed.

Lemma gi_label env font left span y txt img :
  match font with
  | Some f => text (left + (span - text_width env txt f) / 2) y txt border_color f None img
  | None => Py.Returned img
  end = Py.Returned (draw_all (label_call env font left span y txt) img).
Proof. unfold label_call. destruct font; by rewrite ?draw_all_nil. Qed.

Lemma gi_draw_hundred_square env size font img :
  draw_hundred_square env size font img
  = Py.Returned (draw_all (hundred_calls env size font) img).
Proof.
  unfold draw_hundred_square, hundred_calls.
  rewrite (for_each_draws
    (fun row => flat_map (fun col =>
       if cell_size size >? 1 then
         [Rectangle (hundred_x size + col * cell_size size)
                    (hundred_y size + row * cell_size size)
                    (hundred_x size + col * cell_size size + cell_size size - 1)
                    (hundred_y size + row * cell_size size + cell_size size - 1)
                    (Some hundred_color) border_color 1]
       else []) (Py.range 10))).
  2:{ intros row img' _. apply for_each_draws. intros col img'' _.
      apply gi_hundred_cell. }
  simpl Py.bind. rewrite gi_label, draw_all_app. do 3 f_equal.
  unfold hundred_grid. destruct (cell_size size >? 1); reflexivity.
Qed.

Lemma gi_ten_cell size i img :
  ten_cell size i img
  = Py.Returned (draw_all
      (if (unit_width size >? 1) && (ten_height size >? 0) then
         [Rectangle (ten_x size + i * unit_width size) (ten_y size)
                    (ten_x size + i * unit_width size + unit_width size - 1)
                    (ten_y size + ten_height size)
                    (Some ten_color) border_color 1]
       else []) img).
Proof.
  unfold ten_cell.
  destruct (Z.gtb_spec (unit_width size) 1) as [Hgt|Hle];
    destruct (Z.gtb_spec (ten_height size) 0) as [Hh|Hh]; simpl.
  - rewrite !gtb_true by lia. simpl. apply rectangle_ok; lia.
  - rewrite gtb_true by lia. rewrite gtb_false by lia. simpl. by rewrite draw_all_nil.
  - rewrite gtb_false by lia. simpl. by rewrite draw_all_nil.
  - rewrite gtb_false by lia. simpl. by rewrite draw_all_nil.
Qed.

Lemma gi_draw_ten_strip env size font img :
  draw_ten_strip env size font img
  = Py.Returned (draw_all (ten_calls env size font) img).
Proof.
  unfold draw_ten_strip, ten_calls.
  rewrite (for_each_draws _ _ _ (fun i img' _ => gi_ten_cell size i img')).
  simpl Py.bind. rewrite gi_label, draw_all_app. do 3 f_equal.
  unfold ten_cells. destruct ((unit_width size >? 1) && (ten_height size >? 0));
    reflexivity.
Qed.

Lemma gi_draw_single_unit env size font img :
  0 <= size ->
  draw_single_unit env size font img
  = Py.Returned (draw_all (unit_calls env size font) img).
Proof.
  intros Hs. unfold draw_single_unit, unit_calls, unit_square.
  pose proof (gi_unit_size_nonneg size Hs) as Hu.
  rewrite rectangle_ok by lia. simpl Py.bind.
  by rewrite gi_label, draw_all_app.
Qed.

Lemma gi_draw_border size img :
  draw_border size img = Py.Returned (draw_all (border_calls size) img).
Proof.
  unfold draw_border, border_calls.
  destruct (Z.geb_spec size 100); [|by rewrite draw_all_nil].
  apply rounded_rectangle_ok; lia.
Qed.

(** The renderer never raises on a size it can make a canvas of, and its
    calls are those of the closed form. *)
Lemma gi_create_closed_form env size :
  0 <= size ->
  create_bond_to_ten_icon env size
  = Py.Returned (draw_all (all_calls env size) (blank size)).
Proof.
  intros Hs. unfold create_bond_to_ten_icon, new.
  destruct (Z.ltb_spec size 0); [lia|]. simpl.
  rewrite gi_draw_hundred_square. simpl Py.bind.
  rewrite gi_draw_ten_strip. simpl Py.bind.
  rewrite gi_draw_single_unit by done. simpl Py.bind.
  rewrite gi_draw_border. unfold all_calls.
  rewrite !draw_all_app. f_equal; by rewrite <- ?app_assoc.
Qed.
End GenerateIconFacts.

(** ** Lists of drawing calls *)

Section CallLists.
Import Pillow.

Lemma filter_all {A} (f : A -> bool) (l : list A) :
  (forall x, In x l -> f x = true) -> List.filter f l = l.
Proof.
  induction l as [|a l IH]; intros H; simpl; [done|].
  rewrite (H a) by (by left). f_equal. apply IH. intros; apply H; by right.
Qed.

Lemma filter_none {A} (f : A -> bool) (l : list A) :
  (forall x, In x l -> f x = false) -> List.filter f l = [].
Proof.
  induction l as [|a l IH]; intros H; simpl; [done|].
  rewrite (H a) by (by left). apply IH. intros; apply H; by right.
Qed.


Lemma NoDup_range n : List.NoDup (Py.range n).
Proof.
  unfold Py.range. apply List.NoDup_map_inv with (f := Z.to_nat).
  rewrite List.map_map. erewrite List.map_ext; [rewrite List.map_id; apply List.seq_NoDup|].
  intros a; simpl. lia.
Qed.
End CallLists.

(** ** Which rectangles carry which colour *)

Section ColourFacts.
Import Pillow.

Lemma cbi_label_not_filled c size font x y txt :
  List.filter (filled_with c) (CreateBondIcon.label_call size font x y txt) = [].
Proof.
  unfold CreateBondIcon.label_call. destruct font; [destruct (size >=? 60)|]; reflexivity.
Qed.

Lemma cbi_grid_is_hundred size :
  List.filter (filled_with CreateBondIcon.hundred_color) (CreateBondIcon.hundred_grid size)
  = CreateBondIcon.hundred_grid size.
Proof.
  apply filter_all. intros op Hop. unfold CreateBondIcon.hundred_grid in Hop.
  apply List.in_flat_map in Hop. destruct Hop as (row & _ & Hop).
  apply List.in_map_iff in Hop. destruct Hop as (col & <- & _). reflexivity.
Qed.

Lemma cbi_grid_not_ten size :
  List.filter (filled_with CreateBondIcon.ten_color) (CreateBondIcon.hundred_grid size) = [].
Proof.
  apply filter_none. intros op Hop. unfold CreateBondIcon.hundred_grid in Hop.
  apply List.in_flat_map in Hop. destruct Hop as (row & _ & Hop).
  apply List.in_map_iff in Hop. destruct Hop as (col & <- & _). reflexivity.
Qed.

Lemma cbi_strip_not_hundred size :
  List.filter (filled_with CreateBondIcon.hundred_color) (CreateBondIcon.ten_cells size) = [].
Proof.
  apply filter_none. intros op Hop. unfold CreateBondIcon.ten_cells in Hop.
  apply List.in_map_iff in Hop. destruct Hop as (i & <- & _). reflexivity.
Qed.

Lemma cbi_strip_is_ten size :
  List.filter (filled_with CreateBondIcon.ten_color) (CreateBondIcon.ten_cells size)
  = CreateBondIcon.ten_cells size.
Proof.
  apply filter_all. intros op Hop. unfold CreateBondIcon.ten_cells in Hop.
  apply List.in_map_iff in Hop. destruct Hop as (i & <- & _). reflexivity.
Qed.

(** The hundred cells among the calls of a run of create_bond_icon.py:
    the whole grid or nothing. *)
Lemma cbi_hundred_cells env size :
  List.filter (filled_with CreateBondIcon.hundred_color) (CreateBondIcon.all_calls env size)
  = if CreateBondIcon.cell_size size >? 1 then CreateBondIcon.hundred_grid size else [].
Proof.
  unfold CreateBondIcon.all_calls, CreateBondIcon.hundred_calls,
    CreateBondIcon.ten_calls, CreateBondIcon.unit_calls, CreateBondIcon.border_calls.
  rewrite !List.filter_app.
  replace (List.filter _ (if (_ >? 10) && _ then _ else _)) with (@nil draw_op).
  2:{ destruct (_ && _); [|done]. rewrite List.filter_app, cbi_label_not_filled.
      destruct (_ >? 1); [by rewrite cbi_strip_not_hundred|done]. }
  replace (List.filter _ (if size >=? 120 then _ else _)) with (@nil draw_op)
    by (by destruct (size >=? 120)).
  simpl List.filter at 2. rewrite cbi_label_not_filled, !app_nil_r.
  destruct (Z.gtb_spec (CreateBondIcon.hundred_size size) 10) as [Hh|Hh].
  - rewrite List.filter_app, cbi_label_not_filled, app_nil_r.
    destruct (_ >? 1); [apply cbi_grid_is_hundred|done].
  - rewrite gtb_false; [done|]. unfold CreateBondIcon.cell_size. div_lia.
Qed.

(** The ten cells among the calls of a run of create_bond_icon.py. *)
Lemma cbi_ten_cells env size :
  List.filter (filled_with CreateBondIcon.ten_color) (CreateBondIcon.all_calls env size)
  = if CreateBondIcon.unit_width size >? 1 then CreateBondIcon.ten_cells size else [].
Proof.
  unfold CreateBondIcon.all_calls, CreateBondIcon.hundred_calls,
    CreateBondIcon.ten_calls, CreateBondIcon.unit_calls, CreateBondIcon.border_calls.
  rewrite !List.filter_app.
  replace (List.filter _ (if _ >? 10 then _ else _)) with (@nil draw_op).
  2:{ destruct (_ >? 10); [|done]. rewrite List.filter_app, cbi_label_not_filled.
      destruct (_ >? 1); [by rewrite cbi_grid_not_ten|done]. }
  replace (List.filter _ (if size >=? 120 then _ else _)) with (@nil draw_op)
    by (by destruct (size >=? 120)).
  simpl List.filter at 2. rewrite cbi_label_not_filled, !app_nil_r. simpl app.
  assert (2 <= CreateBondIcon.ten_height size) by (unfold CreateBondIcon.ten_height; lia).
  rewrite (gtb_true (CreateBondIcon.ten_height size)) by lia. rewrite andb_true_r.
  destruct (Z.gtb_spec (CreateBondIcon.ten_width size) 10) as [Hh|Hh].
  - rewrite List.filter_app, cbi_label_not_filled, app_nil_r.
    destruct (_ >? 1); [apply cbi_strip_is_ten|done].
  - rewrite gtb_false; [done|]. unfold CreateBondIcon.unit_width. div_lia.
Qed.
End ColourFacts.

Section GenerateIconColours.
Import Pillow.

Lemma gi_label_not_filled c env font left span y txt :
  List.filter (filled_with c) (GenerateIcon.label_call env font left span y txt) = [].
Proof. unfold GenerateIcon.label_call. destruct font; reflexivity. Qed.

Lemma gi_grid_is_hundred size :
  List.filter (filled_with GenerateIcon.hundred_color) (GenerateIcon.hundred_grid size)
  = GenerateIcon.hundred_grid size.
Proof.
  apply filter_all. intros op Hop. unfold GenerateIcon.hundred_grid in Hop.
  apply List.in_flat_map in Hop. destruct Hop as (row & _ & Hop).
  apply List.in_map_iff in Hop. destruct Hop as (col & <- & _). reflexivity.
Qed.

Lemma gi_strip_not_hundred size :
  List.filter (filled_with GenerateIcon.hundred_color) (GenerateIcon.ten_cells size) = [].
Proof.
  apply filter_none. intros op Hop. unfold GenerateIcon.ten_cells in Hop.
  apply List.in_map_iff in Hop. destruct Hop as (i & <- & _). reflexivity.
Qed.

(** The hundred cells among the calls of a run of generate_icon.py: the
    whole grid or nothing. *)
Lemma gi_hundred_cells env size :
  List.filter (filled_with GenerateIcon.hundred_color) (GenerateIcon.all_calls env size)
  = if GenerateIcon.cell_size size >? 1 then GenerateIcon.hundred_grid size else [].
Proof.
  unfold GenerateIcon.all_calls, GenerateIcon.hundred_calls,
    GenerateIcon.ten_calls, GenerateIcon.unit_calls, GenerateIcon.border_calls.
  rewrite !List.filter_app, !gi_label_not_filled.
  replace (List.filter _ (if _ && _ then _ else _)) with (@nil draw_op)
    by (destruct (_ && _); [by rewrite gi_strip_not_hundred|done]).
  replace (List.filter _ (if size >=? 100 then _ else _)) with (@nil draw_op)
    by (by destruct (size >=? 100)).
  simpl List.filter at 2. rewrite gi_label_not_filled, !app_nil_r.
  destruct (_ >? 1); [apply gi_grid_is_hundred|done].
Qed.
End GenerateIconColours.

(** ** Labels *)

Section LabelFacts.
Import Pillow.

Lemma texts_of_app l1 l2 : texts_of (l1 ++ l2) = (texts_of l1 ++ texts_of l2)%list.
Proof. apply List.flat_map_app. Qed.

Lemma texts_of_none l :
  (forall op, In op l -> is_text op = false) -> texts_of l = [].
Proof.
  induction l as [|op l IH]; intros H; [done|].
  unfold texts_of in *. simpl. rewrite IH by (intros; apply H; by right).
  specialize (H op (or_introl eq_refl)). by destruct op.
Qed.

Lemma cbi_grid_no_text size : texts_of (CreateBondIcon.hundred_grid size) = [].
Proof.
  apply texts_of_none. intros op Hop. unfold CreateBondIcon.hundred_grid in Hop.
  apply List.in_flat_map in Hop. destruct Hop as (row & _ & Hop).
  apply List.in_map_iff in Hop. by destruct Hop as (col & <- & _).
Qed.

Lemma cbi_strip_no_text size : texts_of (CreateBondIcon.ten_cells size) = [].
Proof.
  apply texts_of_none. intros op Hop. unfold CreateBondIcon.ten_cells in Hop.
  apply List.in_map_iff in Hop. by destruct Hop as (i & <- & _).
Qed.

Lemma gi_grid_no_text size : texts_of (GenerateIcon.hundred_grid size) = [].
Proof.
  apply texts_of_none. intros op Hop. unfold GenerateIcon.hundred_grid in Hop.
  apply List.in_flat_map in Hop. destruct Hop as (row & _ & Hop).
  apply List.in_map_iff in Hop. by destruct Hop as (col & <- & _).
Qed.

Lemma gi_strip_no_text size : texts_of (GenerateIcon.ten_cells size) = [].
Proof.
  apply texts_of_none. intros op Hop. unfold GenerateIcon.ten_cells in Hop.
  apply List.in_map_iff in Hop. by destruct Hop as (i & <- & _).
Qed.

(** create_bond_icon.py writes a label only with a font in hand and from
    60 pixels on. *)
Lemma cbi_texts_without_font size x y txt :
  texts_of (CreateBondIcon.label_call size None x y txt) = [].
Proof. reflexivity. Qed.

Lemma cbi_texts_small size font x y txt :
  size < 60 -> texts_of (CreateBondIcon.label_call size font x y txt) = [].
Proof.
  intros Hs. unfold CreateBondIcon.label_call. destruct font; [|done].
  destruct (Z.geb_spec size 60); [lia|done].
Qed.

Lemma cbi_texts_unlabelled env size :
  (forall x y txt,
      texts_of (CreateBondIcon.label_call size (CreateBondIcon.font_setup env size) x y txt)
      = []) ->
  texts_of (CreateBondIcon.all_calls env size) = [].
Proof.
  intros Hno.
  unfold CreateBondIcon.all_calls, CreateBondIcon.hundred_calls,
    CreateBondIcon.ten_calls, CreateBondIcon.unit_calls, CreateBondIcon.border_calls.
  rewrite !texts_of_app.
  replace (texts_of (if _ >? 10 then _ else _)) with (@nil string).
  2:{ destruct (_ >? 10); [|done]. rewrite texts_of_app, Hno.
      destruct (_ >? 1); [by rewrite cbi_grid_no_text|done]. }
  replace (texts_of (if _ && _ then _ else _)) with (@nil string).
  2:{ destruct (_ && _); [|done]. rewrite texts_of_app, Hno.
      destruct (_ >? 1); [by rewrite cbi_strip_no_text|done]. }
  replace (texts_of (if size >=? 120 then _ else _)) with (@nil string)
    by (by destruct (size >=? 120)).
  change (texts_of (CreateBondIcon.unit_square size :: ?l)) with (texts_of l).
  by rewrite Hno.
Qed.

(** generate_icon.py writes its three labels whenever it has a font. *)
Lemma gi_texts env size :
  texts_of (GenerateIcon.all_calls env size)
  = match fst (GenerateIcon.font_setup env size) with
    | Some _ => ["100"; "10"; "1"]
    | None => []
    end.
Proof.
  unfold GenerateIcon.all_calls, GenerateIcon.hundred_calls,
    GenerateIcon.ten_calls, GenerateIcon.unit_calls, GenerateIcon.border_calls.
  rewrite !texts_of_app.
  replace (texts_of (if _ >? 1 then _ else _)) with (@nil string)
    by (destruct (_ >? 1); [by rewrite gi_grid_no_text|done]).
  replace (texts_of (if _ && _ then _ else _)) with (@nil string)
    by (destruct (_ && _); [by rewrite gi_strip_no_text|done]).
  replace (texts_of (if size >=? 100 then _ else _)) with (@nil string)
    by (by destruct (size >=? 100)).
  change (texts_of (GenerateIcon.unit_square size :: ?l)) with (texts_of l).
  by destruct (fst (GenerateIcon.font_setup env size)).
Qed.
End LabelFacts.

(** ** The size tables *)

Lemma cbi_table_dimensions_positive :
  Forall (fun entry => 1 <= fst entry) CreateBondIcon.ICON_SIZES.
Proof. repeat constructor; simpl; lia. Qed.

Lemma gi_table_dimensions_positive :
  Forall (fun entry => 1 <= fst entry) GenerateIcon.ICON_SIZES.
Proof. repeat constructor; simpl; lia. Qed.

(** ** Properties of the renderers *)

(** C1. For every dimension [d >= 1] (every dimension of the size tables is
    one, see [cbi_table_dimensions_positive] and
    [gi_table_dimensions_positive]), [create_bond_to_ten_icon d] of either
    render script returns, and what it returns is an RGB image [d] pixels
    wide and [d] pixels high. *)
Theorem render_returns_square_rgb (env : Pillow.font_env) (d : Z) :
  1 <= d ->
  (exists img, CreateBondIcon.create_bond_to_ten_icon env d = Py.Returned img
               /\ Pillow.mode img = "RGB"
               /\ Pillow.width img = d /\ Pillow.height img = d)
  /\ (exists img, GenerateIcon.create_bond_to_ten_icon env d = Py.Returned img
                  /\ Pillow.mode img = "RGB"
                  /\ Pillow.width img = d /\ Pillow.height img = d).
Proof.
  intros Hd. split.
  - eexists. split; [apply cbi_create_closed_form; lia|]. by simpl.
  - eexists. split; [apply gi_create_closed_form; lia|]. by simpl.
Qed.

Lemma render_returns_square_rgb_witness :
  1 <= 20
  /\ (exists img, CreateBondIcon.create_bond_to_ten_icon Pillow.no_fonts 20 = Py.Returned img
                  /\ Pillow.mode img = "RGB"
                  /\ Pillow.width img = 20 /\ Pillow.height img = 20)
  /\ (exists img, GenerateIcon.create_bond_to_ten_icon Pillow.no_fonts 20 = Py.Returned img
                  /\ Pillow.mode img = "RGB"
                  /\ Pillow.width img = 20 /\ Pillow.height img = 20).
Proof. split; [lia | apply (render_returns_square_rgb Pillow.no_fonts 20); lia]. Defined.




(** C5, as the code has it.  In create_bond_icon.py no label is written
    without a font, and none below 100 pixels (so none below 60) whatever
    fonts there are.  generate_icon.py has no threshold: at every dimension
    it writes the three labels when it has a font, the built-in one
    included, and none when it has not. *)
Theorem labels_by_script (env : Pillow.font_env) (size : Z) :
  1 <= size ->
  (exists img,
      CreateBondIcon.create_bond_to_ten_icon env size = Py.Returned img
      /\ (CreateBondIcon.font_setup env size = None -> Pillow.labels img = [])
      /\ (size < 100 -> Pillow.labels img = []))
  /\ (exists img,
      GenerateIcon.create_bond_to_ten_icon env size = Py.Returned img
      /\ (fst (GenerateIcon.font_setup env size) = None -> Pillow.labels img = [])
      /\ (fst (GenerateIcon.font_setup env size) <> None ->
          Pillow.labels img = ["100"; "10"; "1"])).
Proof.
  intros Hs. split.
  - eexists. split; [apply cbi_create_closed_form; lia|].
    unfold Pillow.labels. cbn [Pillow.ops Pillow.draw_all CreateBondIcon.blank app].
    split.
    + intros Hfont. apply cbi_texts_unlabelled. intros x y txt. by rewrite Hfont.
    + intros Hsmall. apply cbi_texts_unlabelled. intros x y txt.
      replace (CreateBondIcon.font_setup env size) with (@None Pillow.font); [done|].
      unfold CreateBondIcon.font_setup. destruct (Z.geb_spec size 100); [lia|done].
  - eexists. split; [apply gi_create_closed_form; lia|].
    unfold Pillow.labels. cbn [Pillow.ops Pillow.draw_all GenerateIcon.blank app].
    rewrite gi_texts. split.
    + by intros ->.
    + intros Hfont. by destruct (fst (GenerateIcon.font_setup env size)).
Qed.

Lemma labels_by_script_witness :
  1 <= 120
  /\ (exists img,
         CreateBondIcon.create_bond_to_ten_icon Pillow.no_fonts 120 = Py.Returned img
         /\ Pillow.labels img = [])
  /\ (exists img,
         GenerateIcon.create_bond_to_ten_icon Pillow.builtin_font_only 120 = Py.Returned img
         /\ Pillow.labels img = ["100"; "10"; "1"]).
Proof.
  split; [lia|].
  destruct (labels_by_script Pillow.no_fonts 120 ltac:(lia))
    as [(img & Hret & Hnofont & _) _].
  destruct (labels_by_script Pillow.builtin_font_only 120 ltac:(lia))
    as [_ (img' & Hret' & _ & Hfont)].
  split.
  - exists img. split; [exact Hret | apply Hnofont; reflexivity].
  - exists img'. split; [exact Hret' | apply Hfont; discriminate].
Defined.

(** C5 as stated fails for generate_icon.py: at 20 pixels, below the
    threshold, with the built-in font the three labels are written. *)
Lemma labels_below_threshold_counterexample :
  20 < 60
  /\ fst (GenerateIcon.font_setup Pillow.builtin_font_only 20) = Some Pillow.DefaultFont
  /\ exists img,
       GenerateIcon.create_bond_to_ten_icon Pillow.builtin_font_only 20 = Py.Returned img
       /\ Pillow.labels img = ["100"; "10"; "1"].
Proof.
  split; [lia|]. split; [reflexivity|].
  eexists. split; [vm_compute; reflexivity | reflexivity].
Qed.

(** C6 fails on generate_icon.py: at 7 pixels the single unit is a
    rectangle from (7, 2) to (7, 2), of no width and no height, drawn with
    no test on its extent (the hundred cells and the ten strip, which are
    tested, are skipped). *)
Lemma single_unit_drawn_without_extent :
  GenerateIcon.unit_size 7 = 0
  /\ GenerateIcon.create_bond_to_ten_icon Pillow.no_fonts 7
     = Py.Returned
         {| Pillow.mode := "RGB"; Pillow.width := 7; Pillow.height := 7;
            Pillow.background := "#FFFFFF";
            Pillow.ops := [Pillow.Rectangle 7 2 7 2 (Some "#4CAF50") "#333333" 2] |}.
Proof. split; reflexivity. Qed.

(** Dimensions up to 16, one by one. *)
Lemma tiny_dimension size :
  1 <= size <= 16 -> In size (map Z.of_nat (seq 1 16)).
Proof.
  intros [Hlo Hhi]. apply List.in_map_iff. exists (Z.to_nat size).
  split; [lia|]. apply List.in_seq. lia.
Qed.

(** C10. In create_bond_icon.py, for every dimension [>= 1]: [unit_size]
    is at least 4, so the test [unit_size > 2] always passes, and the
    renderer returns an image on which the unit square has been drawn.  Up
    to 16 pixels no hundred cell and no ten cell is drawn, and the unit
    square that is drawn does not fit inside the image. *)
Theorem unit_square_always_drawn (env : Pillow.font_env) (size : Z) :
  1 <= size ->
  4 <= CreateBondIcon.unit_size size
  /\ (CreateBondIcon.unit_size size >? 2) = true
  /\ exists img,
       CreateBondIcon.create_bond_to_ten_icon env size = Py.Returned img
       /\ In (Pillow.Rectangle
                (CreateBondIcon.unit_x size) (CreateBondIcon.unit_y size)
                (CreateBondIcon.unit_x size + CreateBondIcon.unit_size size)
                (CreateBondIcon.unit_y size + CreateBondIcon.unit_size size)
                (Some CreateBondIcon.unit_color) CreateBondIcon.border_color
                (if size >=? 60 then 2 else 1))
             (Pillow.ops img)
       /\ (size <= 16 ->
           List.filter (Pillow.filled_with CreateBondIcon.hundred_color) (Pillow.ops img) = []
           /\ List.filter (Pillow.filled_with CreateBondIcon.ten_color) (Pillow.ops img) = []
           /\ Pillow.inside img
                (CreateBondIcon.unit_x size) (CreateBondIcon.unit_y size)
                (CreateBondIcon.unit_x size + CreateBondIcon.unit_size size)
                (CreateBondIcon.unit_y size + CreateBondIcon.unit_size size)
              = false).
Proof.
  intros Hs. pose proof (cbi_unit_size_ge_4 size) as Hu.
  split; [done|]. split; [apply gtb_true; lia|].
  eexists. split; [apply cbi_create_closed_form; lia|]. split.
  - cbn [Pillow.ops Pillow.draw_all CreateBondIcon.blank app].
    unfold CreateBondIcon.all_calls, CreateBondIcon.unit_calls, CreateBondIcon.unit_square.
    apply List.in_or_app; right. apply List.in_or_app; right.
    apply List.in_or_app; left. by left.
  - intros Htiny.
    cbn [Pillow.ops Pillow.draw_all CreateBondIcon.blank app].
    rewrite cbi_hundred_cells, cbi_ten_cells.
    pose proof (tiny_dimension size (conj Hs Htiny)) as Hin.
    cbn in Hin. repeat (destruct Hin as [<-|Hin]; [by vm_compute|]). done.
Qed.

Lemma unit_square_always_drawn_witness :
  1 <= 1
  /\ exists img,
       CreateBondIcon.create_bond_to_ten_icon Pillow.no_fonts 1 = Py.Returned img
       /\ In (Pillow.Rectangle (-2) 1 2 5 (Some "#66BB6A") "#424242" 1) (Pillow.ops img)
       /\ Pillow.inside img (-2) 1 2 5 = false.
Proof.
  split; [lia|].
  destruct (unit_square_always_drawn Pillow.no_fonts 1 ltac:(lia))
    as (_ & _ & img & Hret & Hin & Htiny).
  exists img. split; [exact Hret|]. split; [exact Hin|]. apply Htiny. lia.
Defined.

(** ** The file namers *)

Section NamerFacts.

Lemma base_size_of_agree size scale :
  GenerateIcon.base_size_of size scale = CreateBondIcon.base_size_of size scale.
Proof.
  unfold GenerateIcon.base_size_of, CreateBondIcon.base_size_of.
  destruct (String.eqb_spec scale "@1x") as [->|]; reflexivity.
Qed.

Lemma filename_of_agree size scale :
  GenerateIcon.filename_of size scale = CreateBondIcon.filename_of size scale.
Proof.
  unfold GenerateIcon.filename_of, CreateBondIcon.filename_of.
  by rewrite base_size_of_agree.
Qed.

Lemma tables_agree : GenerateIcon.ICON_SIZES = CreateBondIcon.ICON_SIZES.
Proof. reflexivity. Qed.

Lemma cbi_table_NoDup : List.NoDup CreateBondIcon.ICON_SIZES.
Proof. apply NoDup_ListNoDup. compute_done. Qed.

Lemma cbi_names_NoDup :
  List.NoDup (map (fun entry => CreateBondIcon.filename_of (fst entry) (snd entry))
                  CreateBondIcon.ICON_SIZES).
Proof. apply NoDup_ListNoDup. compute_done. Qed.

(** Any name is [Icon-App-....png]; with no special case in the way it is
    made of the pixel size alone. *)
Lemma cbi_filename_shape size scale :
  exists middle,
    CreateBondIcon.filename_of size scale = "Icon-App-" ++ middle ++ ".png"
    /\ (size <> 1024 -> size <> 167 ->
        ~ In (CreateBondIcon.base_size_of size scale) [20; 29; 40; 60; 76] ->
        middle = Py.str size ++ "x" ++ Py.str size).
Proof.
  unfold CreateBondIcon.filename_of.
  destruct (Z.eqb_spec size 1024);
    [exists "1024x1024@1x"; split; [reflexivity|lia]|].
  destruct (Z.eqb_spec (CreateBondIcon.base_size_of size scale) 20) as [->|];
    [exists ("20x20" ++ scale); split; [reflexivity|simpl; tauto]|].
  destruct (Z.eqb_spec (CreateBondIcon.base_size_of size scale) 29) as [->|];
    [exists ("29x29" ++ scale); split; [reflexivity|simpl; tauto]|].
  destruct (Z.eqb_spec (CreateBondIcon.base_size_of size scale) 40) as [->|];
    [exists ("40x40" ++ scale); split; [reflexivity|simpl; tauto]|].
  destruct (Z.eqb_spec (CreateBondIcon.base_size_of size scale) 60) as [->|];
    [exists ("60x60" ++ scale); split; [reflexivity|simpl; tauto]|].
  destruct (Z.eqb_spec (CreateBondIcon.base_size_of size scale) 76) as [->|];
    [exists ("76x76" ++ scale); split; [reflexivity|simpl; tauto]|].
  destruct (Z.eqb_spec size 167);
    [exists "83.5x83.5@2x"; split; [reflexivity|lia]|].
  exists (Py.str size ++ "x" ++ Py.str size). split; [|done].
  f_equal. by rewrite !string_app_assoc.
Qed.
End NamerFacts.

(** C2. The size table of either render script has 15 different entries.
    The namer, a total function, gives them 15 different names; each name
    is the pattern [Icon-App-<base>x<base><scale>.png] with the point size
    of the entry for [<base>] (83.5 for the 167 pixel entry); and 1024
    pixels get the fixed name [Icon-App-1024x1024@1x.png] whatever the
    scale. *)
Theorem names_injective_and_patterned :
  (List.length CreateBondIcon.ICON_SIZES = 15%nat
   /\ List.NoDup CreateBondIcon.ICON_SIZES
   /\ List.NoDup (map (fun entry => CreateBondIcon.filename_of (fst entry) (snd entry))
                      CreateBondIcon.ICON_SIZES)
   /\ List.Forall (fun entry => CreateBondIcon.filename_of (fst entry) (snd entry)
                                = Catalogue.spec_pattern (fst entry) (snd entry))
                  CreateBondIcon.ICON_SIZES
   /\ forall scale, CreateBondIcon.filename_of 1024 scale = "Icon-App-1024x1024@1x.png")
  /\ (List.length GenerateIcon.ICON_SIZES = 15%nat
      /\ List.NoDup GenerateIcon.ICON_SIZES
      /\ List.NoDup (map (fun entry => GenerateIcon.filename_of (fst entry) (snd entry))
                         GenerateIcon.ICON_SIZES)
      /\ List.Forall (fun entry => GenerateIcon.filename_of (fst entry) (snd entry)
                                   = Catalogue.spec_pattern (fst entry) (snd entry))
                     GenerateIcon.ICON_SIZES
      /\ forall scale, GenerateIcon.filename_of 1024 scale = "Icon-App-1024x1024@1x.png").
Proof.
  split.
  - split; [reflexivity|]. split; [apply cbi_table_NoDup|].
    split; [apply cbi_names_NoDup|]. split.
    + unfold CreateBondIcon.ICON_SIZES.
      repeat (apply List.Forall_cons; [vm_compute; reflexivity|]). apply List.Forall_nil.
    + intros scale. reflexivity.
  - rewrite tables_agree. split; [reflexivity|]. split; [apply cbi_table_NoDup|].
    split.
    + erewrite List.map_ext; [apply cbi_names_NoDup|].
      intros entry. apply filename_of_agree.
    + split.
      * unfold CreateBondIcon.ICON_SIZES.
        repeat (apply List.Forall_cons; [vm_compute; reflexivity|]). apply List.Forall_nil.
      * intros scale. reflexivity.
Qed.

Section DriverTraces.
Context {C : Type}.
Implicit Type w : OS.world C.

Lemma saves_log_save p w : OS.saves (OS.log (OS.Save p) w) = (OS.saves w ++ [p])%list.
Proof. unfold OS.saves, OS.log; simpl. by rewrite List.flat_map_app. Qed.

Lemma saves_print line w : OS.saves (OS.print line w) = OS.saves w.
Proof.
  unfold OS.saves, OS.print, OS.log; simpl.
  by rewrite List.flat_map_app, app_nil_r.
Qed.

Lemma stdout_print line w : OS.stdout (OS.print line w) = (OS.stdout w ++ [line])%list.
Proof. unfold OS.stdout, OS.print, OS.log; simpl. by rewrite List.flat_map_app. Qed.

Lemma saves_write_file p (c : C) w :
  OS.saves (snd (OS.write_file p c w)) = (OS.saves w ++ [p])%list.
Proof.
  unfold OS.write_file.
  destruct (OS.isdir _ p); [apply saves_log_save|].
  destruct (_ || _); apply saves_log_save.
Qed.
End DriverTraces.

(** C4, as the code has it.  For every combination of a dimension [>= 0]
    and a scale, in the table or not, the naming step raises nothing: it
    yields a name [Icon-App-....png], and the turn of the loop goes on to
    save the icon under that name.  A combination that meets none of the
    special cases is named [Icon-App-<size>x<size>.png], with no scale. *)
Theorem any_combination_is_named (env : Pillow.font_env) (size : Z) (scale : string)
    (w : OS.world Pillow.image) :
  0 <= size ->
  (exists middle,
      CreateBondIcon.filename_of size scale = "Icon-App-" ++ middle ++ ".png"
      /\ GenerateIcon.filename_of size scale = "Icon-App-" ++ middle ++ ".png"
      /\ (size <> 1024 -> size <> 167 ->
          ~ In (CreateBondIcon.base_size_of size scale) [20; 29; 40; 60; 76] ->
          middle = Py.str size ++ "x" ++ Py.str size))
  /\ OS.saves (snd (CreateBondIcon.generate_one env (size, scale) w))
     = (OS.saves w
        ++ [OS.path_join CreateBondIcon.icon_dir (CreateBondIcon.filename_of size scale)])%list
  /\ OS.saves (snd (GenerateIcon.generate_one env (size, scale) w))
     = (OS.saves w
        ++ [OS.path_join GenerateIcon.icon_dir (GenerateIcon.filename_of size scale)])%list.
Proof.
  intros Hs. split; [|split].
  - destruct (cbi_filename_shape size scale) as (middle & Hname & Hplain).
    exists middle. by rewrite filename_of_agree.
  - unfold CreateBondIcon.generate_one. rewrite cbi_create_closed_form by done.
    pose proof (saves_write_file
      (OS.path_join CreateBondIcon.icon_dir (CreateBondIcon.filename_of size scale))
      (Pillow.draw_all (CreateBondIcon.all_calls env size) (CreateBondIcon.blank size)) w)
      as Hsave.
    destruct (OS.write_file _ _ w) as [[[]|e] w']; simpl in *; [|done].
    by rewrite saves_print.
  - unfold GenerateIcon.generate_one. rewrite gi_create_closed_form by done.
    pose proof (saves_write_file
      (OS.path_join GenerateIcon.icon_dir (GenerateIcon.filename_of size scale))
      (Pillow.draw_all (GenerateIcon.all_calls env size) (GenerateIcon.blank size)) w)
      as Hsave.
    destruct (OS.write_file _ _ w) as [[[]|e] w']; simpl in *; [|done].
    by rewrite saves_print.
Qed.

Lemma any_combination_is_named_witness :
  0 <= 50
  /\ OS.saves (snd (CreateBondIcon.generate_one Pillow.no_fonts (50, "@1x")
                      Catalogue.catalogue_only))
     = ["ios/Runner/Assets.xcassets/AppIcon.appiconset/Icon-App-50x50.png"].
Proof.
  split; [lia|].
  destruct (any_combination_is_named Pillow.no_fonts 50 "@1x" Catalogue.catalogue_only
              ltac:(lia)) as (_ & Hsaves & _).
  exact Hsaves.
Defined.

(** C4 as stated fails at (50, "@1x"), which is in neither table: the
    namer yields [Icon-App-50x50.png], and with the output directory in
    place the turn of the loop returns with the icon saved under that
    name. *)
Lemma off_table_combination_counterexample :
  ~ In (50, "@1x") CreateBondIcon.ICON_SIZES
  /\ ~ In (50, "@1x") GenerateIcon.ICON_SIZES
  /\ CreateBondIcon.filename_of 50 "@1x" = "Icon-App-50x50.png"
  /\ GenerateIcon.filename_of 50 "@1x" = "Icon-App-50x50.png"
  /\ (let r := CreateBondIcon.generate_one Pillow.no_fonts (50, "@1x")
                 Catalogue.catalogue_only in
      fst r = Py.Returned tt
      /\ OS.isfile (snd r) "ios/Runner/Assets.xcassets/AppIcon.appiconset/Icon-App-50x50.png"
         = true)
  /\ (let r := GenerateIcon.generate_one Pillow.no_fonts (50, "@1x")
                 Catalogue.catalogue_only in
      fst r = Py.Returned tt
      /\ OS.isfile (snd r) "ios/Runner/Assets.xcassets/AppIcon.appiconset/Icon-App-50x50.png"
         = true).
Proof.
  split; [not_listed|]. split; [not_listed|].
  repeat split; by vm_compute.
Qed.

(** ** The drivers and the outside world *)

Section WorldFacts.
Context {C : Type}.
Implicit Type w : OS.world C.

Lemma keeps_refl p w : OS.keeps p w w.
Proof.
  split; [done|]. split; [done|]. exists []. split; [by rewrite app_nil_r | by intros []].
Qed.

Lemma keeps_trans p w1 w2 w3 : OS.keeps p w1 w2 -> OS.keeps p w2 w3 -> OS.keeps p w1 w3.
Proof.
  intros (Hd & Hf & new & Hs & Hn) (Hd' & Hf' & new' & Hs' & Hn').
  split; [congruence|]. split; [congruence|].
  exists (new ++ new')%list. split.
  - by rewrite Hs', Hs, app_assoc.
  - intros Hin. apply List.in_app_or in Hin. tauto.
Qed.

Lemma keeps_print p line w : OS.keeps p w (OS.print line w).
Proof.
  split; [done|]. split; [done|]. exists [].
  split; [by rewrite saves_print, app_nil_r | by intros []].
Qed.

Lemma keeps_log_open p q w : OS.keeps p w (OS.log (OS.Open q) w).
Proof.
  split; [done|]. split; [done|]. exists [].
  split; [|by intros []].
  unfold OS.saves, OS.log; simpl. by rewrite List.flat_map_app, !app_nil_r.
Qed.

Lemma keeps_log_resize p a b w : OS.keeps p w (OS.log (OS.Resize a b) w).
Proof.
  split; [done|]. split; [done|]. exists [].
  split; [|by intros []].
  unfold OS.saves, OS.log; simpl. by rewrite List.flat_map_app, !app_nil_r.
Qed.

Lemma keeps_write_file p q (c : C) w :
  p <> q -> OS.keeps p w (snd (OS.write_file q c w)).
Proof.
  intros Hpq. split; [|split].
  - unfold OS.write_file. destruct (OS.isdir _ q); [done|]. by destruct (_ || _).
  - unfold OS.write_file. destruct (OS.isdir _ q); [done|].
    destruct (_ || _); simpl; [|done]. by rewrite lookup_insert_ne.
  - exists [q]. split; [apply saves_write_file|]. simpl. intros [?|[]]. congruence.
Qed.

Lemma keeps_path_exists p w w' :
  OS.keeps p w w' -> OS.path_exists w' p = OS.path_exists w p.
Proof.
  intros (Hd & Hf & _). unfold OS.path_exists, OS.isdir, OS.isfile.
  by rewrite Hd, Hf.
Qed.

Lemma keeps_isdir p q w w' : OS.keeps p w w' -> OS.isdir w' q = OS.isdir w q.
Proof. intros (Hd & _). unfold OS.isdir. by rewrite Hd. Qed.
End WorldFacts.

(** ** The driver of resize_icons.py *)

Section ResizeFacts.
Import ResizeIcons.
Implicit Type w : OS.world content.

Local Abbreviation special := "Icon-App-60x60@2x.png" (only parsing).

Lemma target_path_of_inj a b : target_path_of a = target_path_of b -> a = b.
Proof. unfold target_path_of. apply String.app_inj. Qed.

Lemma source_is_no_target name : source_icon <> target_path_of name.
Proof. unfold source_icon, target_path_of. discriminate. Qed.

Lemma keeps_image_open p path w : OS.keeps p w (snd (image_open path w)).
Proof.
  unfold image_open. destruct (OS.isdir _ path); [apply keeps_log_open|].
  destruct (OS.files _ !! path) as [[]|]; apply keeps_log_open.
Qed.

Lemma keeps_resize p img a b w : OS.keeps p w (snd (resize img a b w)).
Proof. unfold resize. destruct (_ || _); apply keeps_log_resize. Qed.

Lemma keeps_resize_and_save p source t name w :
  p <> target_path_of name ->
  OS.keeps p w (snd (resize_and_save source t name w)).
Proof.
  intros Hp. unfold resize_and_save.
  pose proof (keeps_image_open p source w) as Hopen.
  destruct (image_open source w) as [[img|e] w1]; simpl in Hopen; [|done].
  pose proof (keeps_resize p img t t w1) as Hresize.
  destruct (resize img t t w1) as [[resized|e] w2]; simpl in Hresize;
    [|by eapply keeps_trans].
  pose proof (keeps_write_file p (target_path_of name) (PNG resized) w2 Hp) as Hwrite.
  destruct (OS.write_file _ _ w2) as [[[]|e] w3]; simpl in Hwrite; simpl.
  - eapply keeps_trans; [|apply keeps_print].
    eapply keeps_trans; [|exact Hwrite]. by eapply keeps_trans.
  - eapply keeps_trans; [|exact Hwrite]. by eapply keeps_trans.
Qed.

Lemma keeps_resize_icon p source t name w :
  p <> target_path_of name -> OS.keeps p w (resize_icon source t name w).
Proof.
  intros Hp. unfold resize_icon.
  pose proof (keeps_resize_and_save p source t name w Hp) as H.
  destruct (resize_and_save source t name w) as [[[]|e] w1]; simpl in H; [done|].
  eapply keeps_trans; [exact H | apply keeps_print].
Qed.

(** A turn of the loop leaves [p] alone when it is not the target of the
    turn, and also when it is, provided it exists and is not the one
    name the loop insists on. *)
Lemma keeps_main_step p t name w :
  (p = target_path_of name -> OS.path_exists w p = true /\ name <> special) ->
  OS.keeps p w (main_step w (t, name)).
Proof.
  intros Hp. unfold main_step.
  destruct (decide (p = target_path_of name)) as [->|Hne].
  - destruct (Hp eq_refl) as [Hex Hsp]. rewrite Hex. simpl.
    destruct (String.eqb_spec name "Icon-App-60x60@2x.png") as [->|_]; [done|].
    apply keeps_print.
  - destruct (_ || _); [by apply keeps_resize_icon | apply keeps_print].
Qed.

Lemma keeps_fold p (l : list (Z * string)) w :
  (forall e, In e l -> p = target_path_of (snd e) ->
             OS.path_exists w p = true /\ snd e <> special) ->
  OS.keeps p w (fold_left main_step l w).
Proof.
  revert w. induction l as [|[t name] l IH]; intros w Hw; cbn [fold_left].
  - apply keeps_refl.
  - assert (OS.keeps p w (main_step w (t, name))) as Hstep.
    { apply keeps_main_step. apply (Hw (t, name)). by left. }
    eapply keeps_trans; [exact Hstep|]. apply IH.
    intros e He Hp. rewrite (keeps_path_exists _ _ _ Hstep). apply Hw; [by right|done].
Qed.

Lemma keeps_main p w :
  (forall e, In e ICON_SIZES -> p = target_path_of (snd e) ->
             OS.path_exists w p = true /\ snd e <> special) ->
  OS.keeps p w (main w).
Proof.
  intros Hw. unfold main. destruct (negb _); [apply keeps_print|].
  eapply keeps_trans; [|apply keeps_print].
  eapply keeps_trans; [|apply keeps_print].
  eapply keeps_trans; [apply keeps_print|].
  apply keeps_fold. intros e He Hp.
  rewrite (keeps_path_exists _ _ _ (keeps_print p _ w)). by apply Hw.
Qed.

(** The driver changes no directory. *)
Lemma main_dirs w : OS.dirs (main w) = OS.dirs w.
Proof.
  destruct (keeps_main source_icon w) as [Hd _]; [|done].
  intros e _ Heq. by destruct (source_is_no_target (snd e)).
Qed.

(** With the source image readable and the directory of the target in
    place, [resize_icon] stores the resampled image. *)
Lemma resize_icon_stores src t name w :
  OS.files w !! source_icon = Some (PNG src) ->
  OS.isdir w source_icon = false ->
  0 < t ->
  OS.isdir w (target_path_of name) = false ->
  OS.isdir w (OS.dirname (target_path_of name)) = true ->
  OS.files (resize_icon source_icon t name w) !! target_path_of name
  = Some (PNG (Lanczos src t t)).
Proof.
  intros Hsrc Hnodir Ht Htarget Hdir.
  unfold resize_icon, resize_and_save, image_open.
  change (OS.isdir (OS.log (OS.Open source_icon) w) source_icon)
    with (OS.isdir w source_icon).
  rewrite Hnodir.
  change (OS.files (OS.log (OS.Open source_icon) w)) with (OS.files w).
  rewrite Hsrc. unfold resize.
  destruct (Z.leb_spec t 0); [lia|]. cbn [orb].
  unfold OS.write_file.
  match goal with
  | |- context [OS.isdir (OS.log (OS.Save ?p) ?w0) ?q] =>
      change (OS.isdir (OS.log (OS.Save p) w0) (target_path_of name))
        with (OS.isdir w (target_path_of name));
      change (OS.isdir (OS.log (OS.Save p) w0) (OS.dirname (target_path_of name)))
        with (OS.isdir w (OS.dirname (target_path_of name)))
  end.
  rewrite Htarget, Hdir, orb_true_r. cbn [OS.files OS.print OS.log].
  apply lookup_insert_eq.
Qed.

Lemma table_around_special :
  exists before after,
    ICON_SIZES = (before ++ (120, special) :: after)%list
    /\ (forall e, In e before -> snd e <> special)
    /\ (forall e, In e after -> snd e <> special).
Proof.
  exists [ (40, "Icon-App-20x20@2x.png"); (60, "Icon-App-20x20@3x.png");
           (29, "Icon-App-29x29@1x.png"); (58, "Icon-App-29x29@2x.png");
           (87, "Icon-App-29x29@3x.png"); (80, "Icon-App-40x40@2x.png");
           (120, "Icon-App-40x40@3x.png") ],
         [ (20, "Icon-App-20x20@1x.png"); (40, "Icon-App-40x40@1x.png");
           (1024, "Icon-App-1024x1024@1x.png") ].
  split; [reflexivity|].
  split; intros e He; simpl in He;
    repeat (destruct He as [<-|He]; [discriminate|]); destruct He.
Qed.

(** With the source image readable and the output directory in place,
    the run ends with the resampled 120 pixel image under the one name
    the loop insists on, whatever was there before. *)
Lemma main_redoes_special src w :
  OS.files w !! source_icon = Some (PNG src) ->
  OS.isdir w source_icon = false ->
  OS.isdir w "ios/Runner/Assets.xcassets/AppIcon.appiconset" = true ->
  OS.isdir w (target_path_of special) = false ->
  OS.files (main w) !! target_path_of special = Some (PNG (Lanczos src 120 120)).
Proof.
  intros Hsrc Hnodir Hdir Htarget.
  destruct table_around_special as (before & after & Htable & Hbefore & Hafter).
  unfold main.
  assert (OS.path_exists w source_icon = true) as ->.
  { unfold OS.path_exists, OS.isfile. rewrite Hsrc. apply orb_true_r. }
  cbn [negb]. rewrite Htable, List.fold_left_app. cbn [fold_left].
  set (w0 := OS.print _ w).
  set (w1 := fold_left main_step before w0).
  assert (OS.keeps source_icon w w1) as Hsource.
  { apply (keeps_trans _ w w0 w1); [apply keeps_print|]. apply keeps_fold.
    intros e _ Heq. by destruct (source_is_no_target (snd e)). }
  assert (OS.dirs w1 = OS.dirs w) as Hdirs by apply Hsource.
  assert (OS.files (main_step w1 (120, special)) !! target_path_of special
          = Some (PNG (Lanczos src 120 120))) as Hdone.
  { unfold main_step. rewrite String.eqb_refl, orb_true_r.
    apply resize_icon_stores; [| | lia | |].
    - destruct Hsource as (_ & -> & _). exact Hsrc.
    - unfold OS.isdir in *. by rewrite Hdirs.
    - unfold OS.isdir in *. by rewrite Hdirs.
    - unfold OS.isdir in *. by rewrite Hdirs. }
  set (w2 := main_step w1 (120, special)) in *.
  assert (OS.keeps (target_path_of special) w2 (fold_left main_step after w2)) as Hrest.
  { apply keeps_fold. intros e He Heq. apply target_path_of_inj in Heq.
    by destruct (Hafter e He). }
  destruct Hrest as (_ & Hfile & _).
  unfold OS.print. cbn [OS.files OS.log]. by rewrite Hfile.
Qed.
End ResizeFacts.

(** C8. When the source image of resize_icons.py is absent, [main] prints
    the line naming the missing file and returns: that line is all the run
    does, so nothing is opened, resized or saved for any entry of the
    table, and no file or directory changes. *)
Theorem missing_source_aborts (w : ResizeIcons.world) :
  OS.path_exists w ResizeIcons.source_icon = false ->
  OS.trace (ResizeIcons.main w)
  = (OS.trace w
     ++ [OS.Print "❌ Source icon not found: icon/bond_to_ten_icon_167x167.png"])%list
  /\ OS.stdout (ResizeIcons.main w)
     = (OS.stdout w
        ++ ["❌ Source icon not found: icon/bond_to_ten_icon_167x167.png"])%list
  /\ OS.saves (ResizeIcons.main w) = OS.saves w
  /\ OS.files (ResizeIcons.main w) = OS.files w
  /\ OS.dirs (ResizeIcons.main w) = OS.dirs w.
Proof.
  intros Habsent. unfold ResizeIcons.main. rewrite Habsent. cbn [negb].
  split; [reflexivity|]. split; [apply stdout_print|].
  split; [apply saves_print|]. split; reflexivity.
Qed.

Lemma missing_source_aborts_witness :
  OS.path_exists (Catalogue.catalogue_only : ResizeIcons.world) ResizeIcons.source_icon
  = false
  /\ OS.trace (ResizeIcons.main Catalogue.catalogue_only)
     = [OS.Print "❌ Source icon not found: icon/bond_to_ten_icon_167x167.png"]
  /\ OS.files (ResizeIcons.main Catalogue.catalogue_only) = ∅.
Proof.
  assert (OS.path_exists (Catalogue.catalogue_only : ResizeIcons.world)
            ResizeIcons.source_icon = false) as Habsent by (by vm_compute).
  split; [exact Habsent|].
  destruct (missing_source_aborts Catalogue.catalogue_only Habsent)
    as (Htrace & _ & _ & Hfiles & _).
  split; [exact Htrace | exact Hfiles].
Defined.

(** C9. In resize_icons.py, for an entry of the table other than
    [Icon-App-60x60@2x.png] whose target exists, the run attempts no save
    on the target and leaves it as it was.  [Icon-App-60x60@2x.png] is
    made again whether it exists or not: its turn of the loop always calls
    [resize_icon], and when the source image can be read and the output
    directory is there, the run ends with the source resampled to 120
    pixels under that name. *)
Theorem existing_icons_kept_except_one (w : ResizeIcons.world) :
  (forall target_size target_filename,
      In (target_size, target_filename) ResizeIcons.ICON_SIZES ->
      target_filename <> "Icon-App-60x60@2x.png" ->
      OS.path_exists w (ResizeIcons.target_path_of target_filename) = true ->
      OS.keeps (ResizeIcons.target_path_of target_filename) w (ResizeIcons.main w))
  /\ In (120, "Icon-App-60x60@2x.png") ResizeIcons.ICON_SIZES
  /\ (forall target_size,
      ResizeIcons.main_step w (target_size, "Icon-App-60x60@2x.png")
      = ResizeIcons.resize_icon ResizeIcons.source_icon target_size
          "Icon-App-60x60@2x.png" w)
  /\ (forall src,
      OS.files w !! ResizeIcons.source_icon = Some (ResizeIcons.PNG src) ->
      OS.isdir w ResizeIcons.source_icon = false ->
      OS.isdir w "ios/Runner/Assets.xcassets/AppIcon.appiconset" = true ->
      OS.isdir w (ResizeIcons.target_path_of "Icon-App-60x60@2x.png") = false ->
      OS.files (ResizeIcons.main w) !! ResizeIcons.target_path_of "Icon-App-60x60@2x.png"
      = Some (ResizeIcons.PNG (ResizeIcons.Lanczos src 120 120))).
Proof.
  split; [|split; [|split]].
  - intros t name Hin Hname Hexists. apply keeps_main.
    intros e He Heq. apply target_path_of_inj in Heq. by rewrite <- Heq.
  - simpl. tauto.
  - intros t. unfold ResizeIcons.main_step. by rewrite String.eqb_refl, orb_true_r.
  - intros src. apply main_redoes_special.
Qed.

Lemma existing_icons_kept_except_one_witness :
  OS.files (ResizeIcons.main ResizeIcons.stocked)
    !! ResizeIcons.target_path_of "Icon-App-20x20@2x.png"
  = Some (ResizeIcons.PNG (ResizeIcons.Decoded 40 40 "earlier 20@2x"))
  /\ OS.files (ResizeIcons.main ResizeIcons.stocked)
       !! ResizeIcons.target_path_of "Icon-App-60x60@2x.png"
     = Some (ResizeIcons.PNG
               (ResizeIcons.Lanczos (ResizeIcons.Decoded 167 167 "bond to ten") 120 120)).
Proof.
  destruct (existing_icons_kept_except_one ResizeIcons.stocked)
    as (Hkept & _ & _ & Hredone).
  split.
  - destruct (Hkept 40 "Icon-App-20x20@2x.png") as (_ & Hfile & _).
    + simpl. tauto.
    + discriminate.
    + by vm_compute.
    + rewrite Hfile. by vm_compute.
  - apply Hredone; by vm_compute.
Defined.

(** ** The drivers of the render scripts *)

Section RenderDriverFacts.
Context {C : Type}.
Implicit Type w : OS.world C.

Lemma dirs_write_file p (c : C) w : OS.dirs (snd (OS.write_file p c w)) = OS.dirs w.
Proof. unfold OS.write_file. destruct (OS.isdir _ p); [done|]. by destruct (_ || _). Qed.

Lemma trace_write_file p (c : C) w :
  OS.trace (snd (OS.write_file p c w)) = (OS.trace w ++ [OS.Save p])%list.
Proof. unfold OS.write_file. destruct (OS.isdir _ p); [done|]. by destruct (_ || _). Qed.

(** A loop whose turns change no directory and only add to the trace
    does the same as a whole. *)
Lemma for_each_io_dirs {A} (body : A -> OS.world C -> Py.outcome unit * OS.world C)
    (xs : list A) :
  (forall x w, OS.dirs (snd (body x w)) = OS.dirs w) ->
  forall w, OS.dirs (snd (OS.for_each_io xs body w)) = OS.dirs w.
Proof.
  intros Hbody. induction xs as [|x xs IH]; intros w; cbn [OS.for_each_io]; [done|].
  specialize (Hbody x w). destruct (body x w) as [[[]|e] w']; simpl in *; [|done].
  by rewrite IH.
Qed.

Lemma for_each_io_trace {A} (body : A -> OS.world C -> Py.outcome unit * OS.world C)
    (xs : list A) :
  (forall x w, OS.trace w `prefix_of` OS.trace (snd (body x w))) ->
  forall w, OS.trace w `prefix_of` OS.trace (snd (OS.for_each_io xs body w)).
Proof.
  intros Hbody. induction xs as [|x xs IH]; intros w; cbn [OS.for_each_io]; [done|].
  specialize (Hbody x w). destruct (body x w) as [[[]|e] w']; simpl in *; [|done].
  by etrans.
Qed.

(** [os.makedirs(p, exist_ok=True)] on a directory that is there: no
    error, nothing created. *)
Lemma makedirs_existing p w :
  OS.isdir w p = true ->
  OS.makedirs_exist_ok p w = (Py.Returned tt, OS.log (OS.Makedirs p) w).
Proof.
  intros Hdir. unfold OS.makedirs_exist_ok.
  change (OS.isdir (OS.log (OS.Makedirs p) w) p) with (OS.isdir w p).
  by rewrite Hdir.
Qed.

(** What [os.makedirs(p, exist_ok=True)] leaves behind: on an error
    nothing but the call itself, else the directory, with no file
    touched. *)
Lemma makedirs_outcome p w :
  (exists e, OS.makedirs_exist_ok p w = (Py.Raised e, OS.log (OS.Makedirs p) w))
  \/ (exists w', OS.makedirs_exist_ok p w = (Py.Returned tt, w')
                 /\ OS.isdir w' p = true
                 /\ OS.files w' = OS.files w
                 /\ OS.trace w' = (OS.trace w ++ [OS.Makedirs p])%list).
Proof.
  unfold OS.makedirs_exist_ok.
  destruct (OS.isdir (OS.log (OS.Makedirs p) w) p) eqn:Hdir.
  - right. eexists. by repeat split.
  - destruct (OS.isfile _ p); [left; by eexists|].
    destruct (List.find _ _); [left; by eexists|].
    right. eexists. split; [done|]. split; [|done].
    unfold OS.isdir; cbn [OS.dirs]. apply bool_decide_eq_true. set_solver.
Qed.
End RenderDriverFacts.

Section RenderDrivers.
Import Pillow.
Implicit Type w : OS.world image.

Lemma cbi_generate_one_dirs env e w :
  OS.dirs (snd (CreateBondIcon.generate_one env e w)) = OS.dirs w.
Proof.
  unfold CreateBondIcon.generate_one. destruct e as [size scale].
  destruct (CreateBondIcon.create_bond_to_ten_icon env size) as [icon|ex]; [|done].
  pose proof (dirs_write_file
    (OS.path_join CreateBondIcon.icon_dir (CreateBondIcon.filename_of size scale)) icon w).
  by destruct (OS.write_file _ icon w) as [[[]|ex] w'].
Qed.

Lemma cbi_generate_one_trace env e w :
  OS.trace w `prefix_of` OS.trace (snd (CreateBondIcon.generate_one env e w)).
Proof.
  unfold CreateBondIcon.generate_one. destruct e as [size scale].
  destruct (CreateBondIcon.create_bond_to_ten_icon env size) as [icon|ex]; [|done].
  pose proof (trace_write_file
    (OS.path_join CreateBondIcon.icon_dir (CreateBondIcon.filename_of size scale)) icon w)
    as Htrace.
  destruct (OS.write_file _ icon w) as [[[]|ex] w']; simpl in *.
  - rewrite Htrace, <- app_assoc. by eexists.
  - rewrite Htrace. by eexists.
Qed.

Lemma gi_generate_one_dirs env e w :
  OS.dirs (snd (GenerateIcon.generate_one env e w)) = OS.dirs w.
Proof.
  unfold GenerateIcon.generate_one. destruct e as [size scale].
  destruct (GenerateIcon.create_bond_to_ten_icon env size) as [icon|ex]; [|done].
  pose proof (dirs_write_file
    (OS.path_join GenerateIcon.icon_dir (GenerateIcon.filename_of size scale)) icon w).
  by destruct (OS.write_file _ icon w) as [[[]|ex] w'].
Qed.

Lemma gi_generate_one_trace env e w :
  OS.trace w `prefix_of` OS.trace (snd (GenerateIcon.generate_one env e w)).
Proof.
  unfold GenerateIcon.generate_one. destruct e as [size scale].
  destruct (GenerateIcon.create_bond_to_ten_icon env size) as [icon|ex]; [|done].
  pose proof (trace_write_file
    (OS.path_join GenerateIcon.icon_dir (GenerateIcon.filename_of size scale)) icon w)
    as Htrace.
  destruct (OS.write_file _ icon w) as [[[]|ex] w']; simpl in *.
  - rewrite Htrace, <- app_assoc. by eexists.
  - rewrite Htrace. by eexists.
Qed.

(** A run of a render driver starts with [os.makedirs]; when that raises
    the run is over, else the directory is there and stays. *)
Lemma cbi_driver_directory env w :
  (OS.trace w ++ [OS.Makedirs CreateBondIcon.icon_dir])%list
    `prefix_of` OS.trace (snd (CreateBondIcon.generate_ios_icons env w))
  /\ ((exists e, CreateBondIcon.generate_ios_icons env w
                 = (Py.Raised e, OS.log (OS.Makedirs CreateBondIcon.icon_dir) w))
      \/ (OS.isdir (snd (OS.makedirs_exist_ok CreateBondIcon.icon_dir w))
            CreateBondIcon.icon_dir = true
          /\ OS.dirs (snd (CreateBondIcon.generate_ios_icons env w))
             = OS.dirs (snd (OS.makedirs_exist_ok CreateBondIcon.icon_dir w)))).
Proof.
  unfold CreateBondIcon.generate_ios_icons.
  destruct (makedirs_outcome CreateBondIcon.icon_dir w)
    as [[e ->]|(w' & -> & Hdir & Hfiles & Htrace)].
  - split; [done|]. left. by exists e.
  - split.
    + rewrite <- Htrace.
      etrans; [|apply for_each_io_trace, cbi_generate_one_trace].
      by eexists.
    + right. split; [done|]. cbn [snd].
      rewrite for_each_io_dirs by apply cbi_generate_one_dirs. done.
Qed.

Lemma gi_driver_directory env w :
  (OS.trace w ++ [OS.Makedirs GenerateIcon.icon_dir])%list
    `prefix_of` OS.trace (snd (GenerateIcon.generate_ios_icons env w))
  /\ ((exists e, GenerateIcon.generate_ios_icons env w
                 = (Py.Raised e, OS.log (OS.Makedirs GenerateIcon.icon_dir) w))
      \/ (OS.isdir (snd (OS.makedirs_exist_ok GenerateIcon.icon_dir w))
            GenerateIcon.icon_dir = true
          /\ OS.dirs (snd (GenerateIcon.generate_ios_icons env w))
             = OS.dirs (snd (OS.makedirs_exist_ok GenerateIcon.icon_dir w)))).
Proof.
  unfold GenerateIcon.generate_ios_icons.
  destruct (makedirs_outcome GenerateIcon.icon_dir w)
    as [[e ->]|(w' & -> & Hdir & Hfiles & Htrace)].
  - split; [done|]. left. by exists e.
  - split.
    + rewrite <- Htrace. apply for_each_io_trace, gi_generate_one_trace.
    + right. split; [done|]. cbn [snd].
      rewrite for_each_io_dirs by apply gi_generate_one_dirs. done.
Qed.
End RenderDrivers.

(** C7 as stated fails for resize_icons.py: with the source image there
    and the output directory missing, the run attempts its eleven saves
    with the directory still missing, stores nothing and ends with the
    directory missing. *)
Lemma resize_makes_no_directory_counterexample :
  OS.path_exists ResizeIcons.source_only ResizeIcons.source_icon = true
  /\ OS.isdir ResizeIcons.source_only "ios/Runner/Assets.xcassets/AppIcon.appiconset" = false
  /\ OS.saves (ResizeIcons.main ResizeIcons.source_only)
     = map (fun entry => ResizeIcons.target_path_of (snd entry)) ResizeIcons.ICON_SIZES
  /\ OS.isdir (ResizeIcons.main ResizeIcons.source_only)
       "ios/Runner/Assets.xcassets/AppIcon.appiconset" = false
  /\ List.Forall
       (fun entry =>
          OS.isfile (ResizeIcons.main ResizeIcons.source_only)
            (ResizeIcons.target_path_of (snd entry)) = false)
       ResizeIcons.ICON_SIZES.
Proof.
  split; [by vm_compute|]. split; [by vm_compute|].
  split; [by vm_compute|]. split; [by vm_compute|].
  unfold ResizeIcons.ICON_SIZES.
  repeat (apply List.Forall_cons; [by vm_compute|]). apply List.Forall_nil.
Qed.

(** ** The scripts on a few inputs *)

Example str_of_size : Py.str 167 = "167".
Proof. reflexivity. Qed.

Example dirname_of_target :
  OS.dirname (ResizeIcons.target_path_of "Icon-App-60x60@2x.png")
  = "ios/Runner/Assets.xcassets/AppIcon.appiconset".
Proof. reflexivity. Qed.

Example ancestors_of_icon_dir :
  OS.ancestors CreateBondIcon.icon_dir
  = ["ios"; "ios/Runner"; "ios/Runner/Assets.xcassets"].
Proof. reflexivity. Qed.

Example join_icon_dir :
  OS.path_join GenerateIcon.icon_dir "Icon-App-20x20@1x.png"
  = "ios/Runner/Assets.xcassets/AppIcon.appiconset/Icon-App-20x20@1x.png".
Proof. reflexivity. Qed.

Example names_of_table :
  map (fun entry => CreateBondIcon.filename_of (fst entry) (snd entry))
      CreateBondIcon.ICON_SIZES
  = [ "Icon-App-20x20@1x.png"; "Icon-App-20x20@2x.png"; "Icon-App-20x20@3x.png";
      "Icon-App-29x29@1x.png"; "Icon-App-29x29@2x.png"; "Icon-App-29x29@3x.png";
      "Icon-App-40x40@1x.png"; "Icon-App-40x40@2x.png"; "Icon-App-40x40@3x.png";
      "Icon-App-60x60@2x.png"; "Icon-App-60x60@3x.png";
      "Icon-App-76x76@1x.png"; "Icon-App-76x76@2x.png";
      "Icon-App-83.5x83.5@2x.png"; "Icon-App-1024x1024@1x.png" ].
Proof. reflexivity. Qed.

Example geometry_at_76 :
  CreateBondIcon.margin 76 = 3 /\ CreateBondIcon.content_area 76 = 70
  /\ CreateBondIcon.hundred_size 76 = 23 /\ CreateBondIcon.cell_size 76 = 2
  /\ CreateBondIcon.unit_size 76 = 5.
Proof. repeat split. Qed.

Example geometry_at_7 :
  GenerateIcon.margin 7 = 0 /\ GenerateIcon.content_size 7 = 7
  /\ GenerateIcon.hundred_size 7 = 2 /\ GenerateIcon.ten_height 7 = 0
  /\ GenerateIcon.unit_size 7 = 0 /\ GenerateIcon.unit_x 7 = 7
  /\ GenerateIcon.unit_y 7 = 2.
Proof. repeat split. Qed.

Example run_with_everything_in_place :
  OS.stdout (ResizeIcons.main ResizeIcons.stocked)
  = [ "🎨 Generating missing iOS app icons...";
      "⏭️  Skipped Icon-App-20x20@2x.png (already exists)";
      "✅ Created Icon-App-20x20@3x.png (60x60)";
      "✅ Created Icon-App-29x29@1x.png (29x29)";
      "✅ Created Icon-App-29x29@2x.png (58x58)";
      "✅ Created Icon-App-29x29@3x.png (87x87)";
      "✅ Created Icon-App-40x40@2x.png (80x80)";
      "✅ Created Icon-App-40x40@3x.png (120x120)";
      "✅ Created Icon-App-60x60@2x.png (120x120)";
      "✅ Created Icon-App-20x20@1x.png (20x20)";
      "✅ Created Icon-App-40x40@1x.png (40x40)";
      "✅ Created Icon-App-1024x1024@1x.png (1024x1024)";
      ResizeIcons.newline ++ "🎉 Icon generation complete!";
      "📱 Ready to build and deploy to iPhone!" ].
Proof. by vm_compute. Qed.

(** * Further properties of the renderers *)

Section ShapeFacts.
Import Pillow.

Lemma shapes_app l1 l2 : shapes (l1 ++ l2) = (shapes l1 ++ shapes l2)%list.
Proof. apply List.filter_app. Qed.

Lemma cbi_shapes_label size font x y txt :
  shapes (CreateBondIcon.label_call size font x y txt) = [].
Proof.
  unfold CreateBondIcon.label_call. destruct font; [destruct (size >=? 60)|]; reflexivity.
Qed.

Lemma gi_shapes_label env font left span y txt :
  shapes (GenerateIcon.label_call env font left span y txt) = [].
Proof. unfold GenerateIcon.label_call. destruct font; reflexivity. Qed.

(** The shapes of a run of create_bond_icon.py, with no font in them. *)
Lemma cbi_shapes env size :
  shapes (CreateBondIcon.all_calls env size)
  = shapes (CreateBondIcon.hundred_calls size None
            ++ CreateBondIcon.ten_calls size None
            ++ CreateBondIcon.unit_calls size None
            ++ CreateBondIcon.border_calls size).
Proof.
  unfold CreateBondIcon.all_calls, CreateBondIcon.hundred_calls,
    CreateBondIcon.ten_calls, CreateBondIcon.unit_calls.
  generalize (CreateBondIcon.font_setup env size). intros font.
  rewrite !shapes_app. f_equal; [|f_equal; [|f_equal]].
  - destruct (_ >? 10); [|done]. by rewrite !shapes_app, !cbi_shapes_label.
  - destruct (_ && _); [|done]. by rewrite !shapes_app, !cbi_shapes_label.
  - change (shapes (?a :: ?l)) with (a :: shapes l). by rewrite !cbi_shapes_label.
Qed.

Lemma gi_shapes env size :
  shapes (GenerateIcon.all_calls env size)
  = shapes (GenerateIcon.hundred_calls env size None
            ++ GenerateIcon.ten_calls env size None
            ++ GenerateIcon.unit_calls env size None
            ++ GenerateIcon.border_calls size).
Proof.
  unfold GenerateIcon.all_calls, GenerateIcon.hundred_calls,
    GenerateIcon.ten_calls, GenerateIcon.unit_calls.
  generalize (fst (GenerateIcon.font_setup env size)). intros font.
  rewrite !shapes_app.
  change (shapes (GenerateIcon.unit_square size :: ?l))
    with (GenerateIcon.unit_square size :: shapes l).
  by rewrite !gi_shapes_label.
Qed.
End ShapeFacts.

(** X1. Fonts decide nothing but the labels: for a dimension [>= 0] the
    rectangles a renderer draws, and their order, are the same on any two
    machines, whatever fonts each of them has. *)
Theorem shapes_independent_of_fonts (env env' : Pillow.font_env) (size : Z) :
  0 <= size ->
  (exists img img',
      CreateBondIcon.create_bond_to_ten_icon env size = Py.Returned img
      /\ CreateBondIcon.create_bond_to_ten_icon env' size = Py.Returned img'
      /\ Pillow.shapes (Pillow.ops img) = Pillow.shapes (Pillow.ops img'))
  /\ (exists img img',
      GenerateIcon.create_bond_to_ten_icon env size = Py.Returned img
      /\ GenerateIcon.create_bond_to_ten_icon env' size = Py.Returned img'
      /\ Pillow.shapes (Pillow.ops img) = Pillow.shapes (Pillow.ops img')).
Proof.
  intros Hs. split.
  - do 2 eexists. split; [by apply cbi_create_closed_form|].
    split; [by apply cbi_create_closed_form|].
    cbn [Pillow.ops Pillow.draw_all CreateBondIcon.blank app].
    by rewrite !cbi_shapes.
  - do 2 eexists. split; [by apply gi_create_closed_form|].
    split; [by apply gi_create_closed_form|].
    cbn [Pillow.ops Pillow.draw_all GenerateIcon.blank app].
    rewrite (gi_shapes env), (gi_shapes env').
    unfold GenerateIcon.hundred_calls, GenerateIcon.ten_calls, GenerateIcon.unit_calls.
    reflexivity.
Qed.

Lemma shapes_independent_of_fonts_witness :
  0 <= 120
  /\ exists img img',
       GenerateIcon.create_bond_to_ten_icon Pillow.no_fonts 120 = Py.Returned img
       /\ GenerateIcon.create_bond_to_ten_icon Pillow.builtin_font_only 120 = Py.Returned img'
       /\ Pillow.shapes (Pillow.ops img) = Pillow.shapes (Pillow.ops img').
Proof.
  split; [lia|].
  destruct (shapes_independent_of_fonts Pillow.no_fonts Pillow.builtin_font_only 120
              ltac:(lia)) as [_ Hgi].
  exact Hgi.
Defined.

(** X2. In create_bond_icon.py, from 100 pixels on and with the bold
    Helvetica file loading at the size asked for, all three blocks pass
    their size tests and the labels written are "100", "10" and "1", in
    this order. *)
Theorem all_labels_from_100 (env : Pillow.font_env) (size : Z) :
  100 <= size ->
  Pillow.truetype_loads env "/System/Library/Fonts/Helvetica-Bold.ttc" (Z.max 8 (size / 25))
  = true ->
  exists img,
    CreateBondIcon.create_bond_to_ten_icon env size = Py.Returned img
    /\ Pillow.labels img = ["100"; "10"; "1"].
Proof.
  intros Hs Hfont. eexists. split; [apply cbi_create_closed_form; lia|].
  unfold Pillow.labels. cbn [Pillow.ops Pillow.draw_all CreateBondIcon.blank app].
  unfold CreateBondIcon.all_calls, CreateBondIcon.hundred_calls,
    CreateBondIcon.ten_calls, CreateBondIcon.unit_calls, CreateBondIcon.border_calls.
  assert (CreateBondIcon.font_setup env size
          = Some (Pillow.TrueType "/System/Library/Fonts/Helvetica-Bold.ttc"
                    (Z.max 8 (size / 25)))) as ->.
  { unfold CreateBondIcon.font_setup, Pillow.truetype.
    destruct (Z.geb_spec size 100); [|lia]. by rewrite Hfont. }
  assert (10 < CreateBondIcon.hundred_size size /\ 10 < CreateBondIcon.ten_width size
          /\ 0 < CreateBondIcon.ten_height size) as (Hh & Ht & Hth).
  { unfold CreateBondIcon.ten_height, CreateBondIcon.ten_width,
      CreateBondIcon.hundred_size, CreateBondIcon.block_spacing,
      CreateBondIcon.content_area, CreateBondIcon.margin. div_lia. }
  rewrite (gtb_true _ 10 Hh), (gtb_true _ 10 Ht), (gtb_true _ 0 Hth). cbn [andb].
  unfold CreateBondIcon.label_call. destruct (Z.geb_spec size 60); [|lia].
  rewrite !texts_of_app.
  replace (Pillow.texts_of (if CreateBondIcon.cell_size size >? 1 then _ else _)) with (@nil string)
    by (destruct (_ >? 1); [by rewrite cbi_grid_no_text|done]).
  replace (Pillow.texts_of (if CreateBondIcon.unit_width size >? 1 then _ else _))
    with (@nil string)
    by (destruct (_ >? 1); [by rewrite cbi_strip_no_text|done]).
  replace (Pillow.texts_of (if size >=? 120 then _ else _)) with (@nil string)
    by (by destruct (size >=? 120)).
  reflexivity.
Qed.

Lemma all_labels_from_100_witness :
  100 <= 120
  /\ exists img,
       CreateBondIcon.create_bond_to_ten_icon
         {| Pillow.truetype_loads := fun _ _ => true;
            Pillow.default_loads := false;
            Pillow.bbox_at_origin := fun _ _ => (0, 0, 0, 0) |} 120 = Py.Returned img
       /\ Pillow.labels img = ["100"; "10"; "1"].
Proof.
  split; [lia|]. apply all_labels_from_100; [lia | reflexivity].
Defined.

Section StripFacts.
Import Pillow.

Lemma NoDup_map_injective {A B} (f : A -> B) (l : list A) :
  (forall x y, In x l -> In y l -> f x = f y -> x = y) ->
  List.NoDup l -> List.NoDup (map f l).
Proof.
  intros Hinj Hl. induction Hl as [|a l Ha Hl IH]; simpl; constructor.
  - intros Hin. apply List.in_map_iff in Hin. destruct Hin as (b & Heq & Hb).
    apply Hinj in Heq; [by subst | by right | by left].
  - apply IH. intros x y Hx Hy. apply Hinj; by right.
Qed.

Lemma in_range n i : In i (Py.range n) -> 0 <= i < Z.of_nat n.
Proof.
  unfold Py.range. intros Hin. apply List.in_map_iff in Hin.
  destruct Hin as (k & <- & Hk). apply List.in_seq in Hk. lia.
Qed.

Lemma gi_grid_not_ten size :
  List.filter (filled_with GenerateIcon.ten_color) (GenerateIcon.hundred_grid size) = [].
Proof.
  apply filter_none. intros op Hop. unfold GenerateIcon.hundred_grid in Hop.
  apply List.in_flat_map in Hop. destruct Hop as (row & _ & Hop).
  apply List.in_map_iff in Hop. destruct Hop as (col & <- & _). reflexivity.
Qed.

Lemma gi_strip_is_ten size :
  List.filter (filled_with GenerateIcon.ten_color) (GenerateIcon.ten_cells size)
  = GenerateIcon.ten_cells size.
Proof.
  apply filter_all. intros op Hop. unfold GenerateIcon.ten_cells in Hop.
  apply List.in_map_iff in Hop. destruct Hop as (i & <- & _). reflexivity.
Qed.

(** The ten cells among the calls of a run of generate_icon.py. *)
Lemma gi_ten_cells env size :
  List.filter (filled_with GenerateIcon.ten_color) (GenerateIcon.all_calls env size)
  = if (GenerateIcon.unit_width size >? 1) && (GenerateIcon.ten_height size >? 0)
    then GenerateIcon.ten_cells size else [].
Proof.
  unfold GenerateIcon.all_calls, GenerateIcon.hundred_calls,
    GenerateIcon.ten_calls, GenerateIcon.unit_calls, GenerateIcon.border_calls.
  rewrite !List.filter_app, !gi_label_not_filled.
  replace (List.filter _ (if _ >? 1 then _ else _)) with (@nil draw_op)
    by (destruct (_ >? 1); [by rewrite gi_grid_not_ten|done]).
  replace (List.filter _ (if size >=? 100 then _ else _)) with (@nil draw_op)
    by (by destruct (size >=? 100)).
  simpl List.filter at 2. rewrite gi_label_not_filled, !app_nil_r. simpl app.
  destruct (_ && _); [apply gi_strip_is_ten|done].
Qed.

Lemma cbi_ten_cells_NoDup size :
  2 <= CreateBondIcon.unit_width size -> List.NoDup (CreateBondIcon.ten_cells size).
Proof.
  intros Hu. apply NoDup_map_injective; [|apply NoDup_range].
  intros i j _ _ Heq. injection Heq as Hx _. nia.
Qed.

Lemma gi_ten_cells_NoDup size :
  2 <= GenerateIcon.unit_width size -> List.NoDup (GenerateIcon.ten_cells size).
Proof.
  intros Hu. apply NoDup_map_injective; [|apply NoDup_range].
  intros i j _ _ Heq. injection Heq as Hx _. nia.
Qed.
End StripFacts.

(** X3. The ten strip is all or nothing, like the hundred block.  In
    create_bond_icon.py its ten different cells are drawn when the cell
    width is at least 2 and none otherwise.  In generate_icon.py the ten
    cells are drawn when the cell width is at least 2 and the strip height
    at least 1, and none otherwise. *)
Theorem ten_strip_all_or_nothing (env : Pillow.font_env) (size : Z) :
  1 <= size ->
  (exists img,
      CreateBondIcon.create_bond_to_ten_icon env size = Py.Returned img
      /\ (2 <= CreateBondIcon.unit_width size ->
          List.filter (Pillow.filled_with CreateBondIcon.ten_color) (Pillow.ops img)
          = CreateBondIcon.ten_cells size
          /\ List.length (CreateBondIcon.ten_cells size) = 10%nat
          /\ List.NoDup (CreateBondIcon.ten_cells size))
      /\ (CreateBondIcon.unit_width size < 2 ->
          List.filter (Pillow.filled_with CreateBondIcon.ten_color) (Pillow.ops img) = []))
  /\ (exists img,
      GenerateIcon.create_bond_to_ten_icon env size = Py.Returned img
      /\ (2 <= GenerateIcon.unit_width size -> 1 <= GenerateIcon.ten_height size ->
          List.filter (Pillow.filled_with GenerateIcon.ten_color) (Pillow.ops img)
          = GenerateIcon.ten_cells size
          /\ List.length (GenerateIcon.ten_cells size) = 10%nat
          /\ List.NoDup (GenerateIcon.ten_cells size))
      /\ (GenerateIcon.unit_width size < 2 \/ GenerateIcon.ten_height size < 1 ->
          List.filter (Pillow.filled_with GenerateIcon.ten_color) (Pillow.ops img) = [])).
Proof.
  intros Hs. split.
  - eexists. split; [apply cbi_create_closed_form; lia|].
    cbn [Pillow.ops Pillow.draw_all CreateBondIcon.blank app].
    rewrite cbi_ten_cells. split.
    + intros Hu. rewrite gtb_true by lia.
      split; [done|]. split; [reflexivity | by apply cbi_ten_cells_NoDup].
    + intros Hu. by rewrite gtb_false by lia.
  - eexists. split; [apply gi_create_closed_form; lia|].
    cbn [Pillow.ops Pillow.draw_all GenerateIcon.blank app].
    rewrite gi_ten_cells. split.
    + intros Hu Hh. rewrite !gtb_true by lia.
      split; [done|]. split; [reflexivity | by apply gi_ten_cells_NoDup].
    + intros [Hu|Hh].
      * by rewrite (gtb_false (GenerateIcon.unit_width size)) by lia.
      * rewrite (gtb_false (GenerateIcon.ten_height size)) by lia.
        by rewrite andb_false_r.
Qed.

Lemma ten_strip_all_or_nothing_witness :
  1 <= 7 /\ GenerateIcon.ten_height 7 < 1
  /\ exists img,
       GenerateIcon.create_bond_to_ten_icon Pillow.no_fonts 7 = Py.Returned img
       /\ List.filter (Pillow.filled_with GenerateIcon.ten_color) (Pillow.ops img) = [].
Proof.
  assert (GenerateIcon.ten_height 7 = 0) as Hh by reflexivity.
  split; [lia|]. split; [lia|].
  destruct (ten_strip_all_or_nothing Pillow.no_fonts 7 ltac:(lia))
    as [_ (img & Hret & _ & Hnone)].
  exists img. split; [exact Hret|]. apply Hnone. right. lia.
Defined.

(** ** Where the blocks lie *)

Section BlockPlaces.
Import Pillow.

Lemma cbi_cell_fits size :
  1 < CreateBondIcon.cell_size size ->
  10 * CreateBondIcon.cell_size size <= CreateBondIcon.hundred_size size.
Proof. unfold CreateBondIcon.cell_size. intros. div_lia. Qed.

Lemma cbi_unit_width_fits size :
  1 < CreateBondIcon.unit_width size ->
  10 * CreateBondIcon.unit_width size <= CreateBondIcon.ten_width size.
Proof. unfold CreateBondIcon.unit_width. intros. div_lia. Qed.

Lemma gi_cell_fits size :
  1 < GenerateIcon.cell_size size ->
  10 * GenerateIcon.cell_size size <= GenerateIcon.hundred_size size.
Proof. unfold GenerateIcon.cell_size. intros. div_lia. Qed.

Lemma gi_unit_width_fits size :
  1 < GenerateIcon.unit_width size ->
  10 * GenerateIcon.unit_width size <= GenerateIcon.ten_width size.
Proof. unfold GenerateIcon.unit_width. intros. div_lia. Qed.

Lemma cbi_unit_coloured env size :
  List.filter (filled_with CreateBondIcon.unit_color) (CreateBondIcon.all_calls env size)
  = [CreateBondIcon.unit_square size].
Proof.
  unfold CreateBondIcon.all_calls, CreateBondIcon.hundred_calls,
    CreateBondIcon.ten_calls, CreateBondIcon.unit_calls, CreateBondIcon.border_calls.
  rewrite !List.filter_app.
  replace (List.filter _ (if _ >? 10 then _ else _)) with (@nil draw_op).
  2:{ destruct (_ >? 10); [|done]. rewrite List.filter_app, cbi_label_not_filled.
      destruct (_ >? 1); [|done]. rewrite app_nil_r. symmetry. apply filter_none.
      intros op Hop. unfold CreateBondIcon.hundred_grid in Hop.
      apply List.in_flat_map in Hop. destruct Hop as (row & _ & Hop).
      apply List.in_map_iff in Hop. by destruct Hop as (col & <- & _). }
  replace (List.filter _ (if _ && _ then _ else _)) with (@nil draw_op).
  2:{ destruct (_ && _); [|done]. rewrite List.filter_app, cbi_label_not_filled.
      destruct (_ >? 1); [|done]. rewrite app_nil_r. symmetry. apply filter_none.
      intros op Hop. unfold CreateBondIcon.ten_cells in Hop.
      apply List.in_map_iff in Hop. by destruct Hop as (i & <- & _). }
  replace (List.filter _ (if size >=? 120 then _ else _)) with (@nil draw_op)
    by (by destruct (size >=? 120)).
  simpl List.filter at 1. by rewrite cbi_label_not_filled.
Qed.

Lemma gi_unit_coloured env size :
  List.filter (filled_with GenerateIcon.unit_color) (GenerateIcon.all_calls env size)
  = [GenerateIcon.unit_square size].
Proof.
  unfold GenerateIcon.all_calls, GenerateIcon.hundred_calls,
    GenerateIcon.ten_calls, GenerateIcon.unit_calls, GenerateIcon.border_calls.
  rewrite !List.filter_app, !gi_label_not_filled.
  replace (List.filter _ (if _ >? 1 then _ else _)) with (@nil draw_op).
  2:{ destruct (_ >? 1); [|done]. symmetry. apply filter_none.
      intros op Hop. unfold GenerateIcon.hundred_grid in Hop.
      apply List.in_flat_map in Hop. destruct Hop as (row & _ & Hop).
      apply List.in_map_iff in Hop. by destruct Hop as (col & <- & _). }
  replace (List.filter _ (if _ && _ then _ else _)) with (@nil draw_op).
  2:{ destruct (_ && _); [|done]. symmetry. apply filter_none.
      intros op Hop. unfold GenerateIcon.ten_cells in Hop.
      apply List.in_map_iff in Hop. by destruct Hop as (i & <- & _). }
  replace (List.filter _ (if size >=? 100 then _ else _)) with (@nil draw_op)
    by (by destruct (size >=? 100)).
  simpl List.filter at 1. by rewrite gi_label_not_filled.
Qed.

(** A hundred cell, a ten cell, the unit square: what each one is. *)
Lemma cbi_in_hundred env size op :
  In op (CreateBondIcon.all_calls env size) ->
  filled_with CreateBondIcon.hundred_color op = true ->
  exists row col,
    0 <= row < 10 /\ 0 <= col < 10 /\ 1 < CreateBondIcon.cell_size size
    /\ box_of op
       = Some (CreateBondIcon.hundred_x size + col * CreateBondIcon.cell_size size,
               CreateBondIcon.hundred_y size + row * CreateBondIcon.cell_size size,
               CreateBondIcon.hundred_x size + col * CreateBondIcon.cell_size size
               + CreateBondIcon.cell_size size - 1,
               CreateBondIcon.hundred_y size + row * CreateBondIcon.cell_size size
               + CreateBondIcon.cell_size size - 1).
Proof.
  intros Hin Hcol.
  assert (In op (List.filter (filled_with CreateBondIcon.hundred_color)
                   (CreateBondIcon.all_calls env size))) as Hop
    by (by apply List.filter_In).
  rewrite cbi_hundred_cells in Hop.
  destruct (Z.gtb_spec (CreateBondIcon.cell_size size) 1) as [Hc|_]; [|by destruct Hop].
  unfold CreateBondIcon.hundred_grid in Hop.
  apply List.in_flat_map in Hop. destruct Hop as (row & Hrow & Hop).
  apply List.in_map_iff in Hop. destruct Hop as (col & <- & Hcol').
  apply in_range in Hrow. apply in_range in Hcol'.
  exists row, col. repeat split; try lia.
Qed.

Lemma cbi_in_ten env size op :
  In op (CreateBondIcon.all_calls env size) ->
  filled_with CreateBondIcon.ten_color op = true ->
  exists i,
    0 <= i < 10 /\ 1 < CreateBondIcon.unit_width size
    /\ box_of op
       = Some (CreateBondIcon.ten_x size + i * CreateBondIcon.unit_width size,
               CreateBondIcon.ten_y size,
               CreateBondIcon.ten_x size + i * CreateBondIcon.unit_width size
               + CreateBondIcon.unit_width size - 1,
               CreateBondIcon.ten_y size + CreateBondIcon.ten_height size).
Proof.
  intros Hin Hcol.
  assert (In op (List.filter (filled_with CreateBondIcon.ten_color)
                   (CreateBondIcon.all_calls env size))) as Hop
    by (by apply List.filter_In).
  rewrite cbi_ten_cells in Hop.
  destruct (Z.gtb_spec (CreateBondIcon.unit_width size) 1) as [Hc|_]; [|by destruct Hop].
  unfold CreateBondIcon.ten_cells in Hop.
  apply List.in_map_iff in Hop. destruct Hop as (i & <- & Hi).
  apply in_range in Hi. exists i. repeat split; lia.
Qed.

Lemma cbi_in_unit env size op :
  In op (CreateBondIcon.all_calls env size) ->
  filled_with CreateBondIcon.unit_color op = true ->
  op = CreateBondIcon.unit_square size.
Proof.
  intros Hin Hcol.
  assert (In op (List.filter (filled_with CreateBondIcon.unit_color)
                   (CreateBondIcon.all_calls env size))) as Hop
    by (by apply List.filter_In).
  rewrite cbi_unit_coloured in Hop. by destruct Hop as [<-|[]].
Qed.

Lemma gi_in_hundred env size op :
  In op (GenerateIcon.all_calls env size) ->
  filled_with GenerateIcon.hundred_color op = true ->
  exists row col,
    0 <= row < 10 /\ 0 <= col < 10 /\ 1 < GenerateIcon.cell_size size
    /\ box_of op
       = Some (GenerateIcon.hundred_x size + col * GenerateIcon.cell_size size,
               GenerateIcon.hundred_y size + row * GenerateIcon.cell_size size,
               GenerateIcon.hundred_x size + col * GenerateIcon.cell_size size
               + GenerateIcon.cell_size size - 1,
               GenerateIcon.hundred_y size + row * GenerateIcon.cell_size size
               + GenerateIcon.cell_size size - 1).
Proof.
  intros Hin Hcol.
  assert (In op (List.filter (filled_with GenerateIcon.hundred_color)
                   (GenerateIcon.all_calls env size))) as Hop
    by (by apply List.filter_In).
  rewrite gi_hundred_cells in Hop.
  destruct (Z.gtb_spec (GenerateIcon.cell_size size) 1) as [Hc|_]; [|by destruct Hop].
  unfold GenerateIcon.hundred_grid in Hop.
  apply List.in_flat_map in Hop. destruct Hop as (row & Hrow & Hop).
  apply List.in_map_iff in Hop. destruct Hop as (col & <- & Hcol').
  apply in_range in Hrow. apply in_range in Hcol'.
  exists row, col. repeat split; try lia.
Qed.

Lemma gi_in_ten env size op :
  In op (GenerateIcon.all_calls env size) ->
  filled_with GenerateIcon.ten_color op = true ->
  exists i,
    0 <= i < 10 /\ 1 < GenerateIcon.unit_width size /\ 0 < GenerateIcon.ten_height size
    /\ box_of op
       = Some (GenerateIcon.ten_x size + i * GenerateIcon.unit_width size,
               GenerateIcon.ten_y size,
               GenerateIcon.ten_x size + i * GenerateIcon.unit_width size
               + GenerateIcon.unit_width size - 1,
               GenerateIcon.ten_y size + GenerateIcon.ten_height size).
Proof.
  intros Hin Hcol.
  assert (In op (List.filter (filled_with GenerateIcon.ten_color)
                   (GenerateIcon.all_calls env size))) as Hop
    by (by apply List.filter_In).
  rewrite gi_ten_cells in Hop.
  destruct (Z.gtb_spec (GenerateIcon.unit_width size) 1) as [Hc|_]; [|by destruct Hop].
  destruct (Z.gtb_spec (GenerateIcon.ten_height size) 0) as [Hh|_]; [|by destruct Hop].
  unfold GenerateIcon.ten_cells in Hop. cbn [andb] in Hop.
  apply List.in_map_iff in Hop. destruct Hop as (i & <- & Hi).
  apply in_range in Hi. exists i. repeat split; lia.
Qed.

Lemma gi_in_unit env size op :
  In op (GenerateIcon.all_calls env size) ->
  filled_with GenerateIcon.unit_color op = true ->
  op = GenerateIcon.unit_square size.
Proof.
  intros Hin Hcol.
  assert (In op (List.filter (filled_with GenerateIcon.unit_color)
                   (GenerateIcon.all_calls env size))) as Hop
    by (by apply List.filter_In).
  rewrite gi_unit_coloured in Hop. by destruct Hop as [<-|[]].
Qed.
End BlockPlaces.

(** X4. The three blocks never overlap.  For a dimension [>= 0], in the
    image of either render script a hundred cell and a ten cell, a hundred
    cell and the unit square, and a ten cell and the unit square have no
    pixel in common: create_bond_icon.py stacks the blocks one below the
    other; generate_icon.py puts the hundred square above the other two and
    the unit square to the right of the ten strip. *)
Theorem blocks_do_not_overlap (env : Pillow.font_env) (size : Z) :
  0 <= size ->
  (exists img,
      CreateBondIcon.create_bond_to_ten_icon env size = Py.Returned img
      /\ forall a b,
           In a (Pillow.ops img) -> In b (Pillow.ops img) ->
           (Pillow.filled_with CreateBondIcon.hundred_color a = true
            /\ Pillow.filled_with CreateBondIcon.ten_color b = true)
           \/ (Pillow.filled_with CreateBondIcon.hundred_color a = true
               /\ Pillow.filled_with CreateBondIcon.unit_color b = true)
           \/ (Pillow.filled_with CreateBondIcon.ten_color a = true
               /\ Pillow.filled_with CreateBondIcon.unit_color b = true) ->
           Pillow.boxes_apart a b)
  /\ (exists img,
      GenerateIcon.create_bond_to_ten_icon env size = Py.Returned img
      /\ forall a b,
           In a (Pillow.ops img) -> In b (Pillow.ops img) ->
           (Pillow.filled_with GenerateIcon.hundred_color a = true
            /\ Pillow.filled_with GenerateIcon.ten_color b = true)
           \/ (Pillow.filled_with GenerateIcon.hundred_color a = true
               /\ Pillow.filled_with GenerateIcon.unit_color b = true)
           \/ (Pillow.filled_with GenerateIcon.ten_color a = true
               /\ Pillow.filled_with GenerateIcon.unit_color b = true) ->
           Pillow.boxes_apart a b).
Proof.
  intros Hs. split.
  - eexists. split; [by apply cbi_create_closed_form|].
    cbn [Pillow.ops Pillow.draw_all CreateBondIcon.blank app].
    intros a b Ha Hb Hcolours.
    assert (2 <= CreateBondIcon.block_spacing size) as Hsp
      by (unfold CreateBondIcon.block_spacing; lia).
    assert (2 <= CreateBondIcon.ten_height size) as Hth
      by (unfold CreateBondIcon.ten_height; lia).
    unfold Pillow.boxes_apart.
    destruct Hcolours as [[Hca Hcb]|[[Hca Hcb]|[Hca Hcb]]].
    + destruct (cbi_in_hundred env size a Ha Hca) as (row & col & Hrow & Hcol & Hc & ->).
      destruct (cbi_in_ten env size b Hb Hcb) as (i & Hi & Hu & ->).
      pose proof (cbi_cell_fits size Hc) as Hfit.
      pose proof (Z.mul_le_mono_nonneg_r row 9 (CreateBondIcon.cell_size size)
                    ltac:(lia) ltac:(lia)).
      right; right; left. unfold CreateBondIcon.ten_y. lia.
    + destruct (cbi_in_hundred env size a Ha Hca) as (row & col & Hrow & Hcol & Hc & ->).
      rewrite (cbi_in_unit env size b Hb Hcb).
      pose proof (cbi_cell_fits size Hc) as Hfit.
      cbn [Pillow.box_of CreateBondIcon.unit_square].
      pose proof (Z.mul_le_mono_nonneg_r row 9 (CreateBondIcon.cell_size size)
                    ltac:(lia) ltac:(lia)).
      right; right; left. unfold CreateBondIcon.unit_y, CreateBondIcon.ten_y. lia.
    + destruct (cbi_in_ten env size a Ha Hca) as (i & Hi & Hu & ->).
      rewrite (cbi_in_unit env size b Hb Hcb).
      cbn [Pillow.box_of CreateBondIcon.unit_square].
      right; right; left. unfold CreateBondIcon.unit_y. lia.
  - eexists. split; [by apply gi_create_closed_form|].
    cbn [Pillow.ops Pillow.draw_all GenerateIcon.blank app].
    intros a b Ha Hb Hcolours.
    pose proof (gi_content_size_nonneg size Hs) as Hcontent.
    assert (0 <= GenerateIcon.margin size) as Hm
      by (unfold GenerateIcon.margin; div_lia).
    assert (0 <= GenerateIcon.ten_height size) as Hth
      by (unfold GenerateIcon.ten_height; div_lia).
    unfold Pillow.boxes_apart.
    destruct Hcolours as [[Hca Hcb]|[[Hca Hcb]|[Hca Hcb]]].
    + destruct (gi_in_hundred env size a Ha Hca) as (row & col & Hrow & Hcol & Hc & ->).
      destruct (gi_in_ten env size b Hb Hcb) as (i & Hi & Hu & _ & ->).
      pose proof (gi_cell_fits size Hc) as Hfit.
      pose proof (Z.mul_le_mono_nonneg_r row 9 (GenerateIcon.cell_size size)
                    ltac:(lia) ltac:(lia)).
      right; right; left. unfold GenerateIcon.ten_y. lia.
    + destruct (gi_in_hundred env size a Ha Hca) as (row & col & Hrow & Hcol & Hc & ->).
      rewrite (gi_in_unit env size b Hb Hcb).
      pose proof (gi_cell_fits size Hc) as Hfit.
      cbn [Pillow.box_of GenerateIcon.unit_square].
      assert (0 <= GenerateIcon.margin size / 2) by div_lia.
      pose proof (Z.mul_le_mono_nonneg_r row 9 (GenerateIcon.cell_size size)
                    ltac:(lia) ltac:(lia)).
      right; right; left. unfold GenerateIcon.unit_y, GenerateIcon.ten_y. lia.
    + destruct (gi_in_ten env size a Ha Hca) as (i & Hi & Hu & _ & ->).
      rewrite (gi_in_unit env size b Hb Hcb).
      pose proof (gi_unit_width_fits size Hu) as Hfit.
      cbn [Pillow.box_of GenerateIcon.unit_square].
      assert (GenerateIcon.ten_width size + GenerateIcon.unit_size size
              <= GenerateIcon.content_size size)
        by (unfold GenerateIcon.ten_width, GenerateIcon.unit_size; div_lia).
      pose proof (Z.mul_le_mono_nonneg_r i 9 (GenerateIcon.unit_width size)
                    ltac:(lia) ltac:(lia)).
      left. unfold GenerateIcon.unit_x, GenerateIcon.ten_x. lia.
Qed.

Lemma blocks_do_not_overlap_witness :
  0 <= 76
  /\ exists img,
       CreateBondIcon.create_bond_to_ten_icon Pillow.no_fonts 76 = Py.Returned img
       /\ Pillow.boxes_apart
            (Pillow.Rectangle 44 21 45 22 (Some "#1E88E5") "#424242" 1)
            (Pillow.Rectangle 26 29 27 33 (Some "#FF7043") "#424242" 1).
Proof.
  split; [lia|].
  destruct (blocks_do_not_overlap Pillow.no_fonts 76 ltac:(lia))
    as [(img & Hret & Hapart) _].
  exists img. split; [exact Hret|].
  assert (Pillow.ops img = CreateBondIcon.all_calls Pillow.no_fonts 76) as Hops.
  { rewrite cbi_create_closed_form in Hret by lia. by injection Hret as <-. }
  apply Hapart.
  - rewrite Hops. vm_compute. do 99 right. by left.
  - rewrite Hops. vm_compute. do 100 right. by left.
  - left. split; reflexivity.
Defined.

Section InsideFacts.
Import Pillow.

Lemma cbi_places size :
  17 <= size ->
  0 <= CreateBondIcon.hundred_x size /\ 0 <= CreateBondIcon.hundred_y size
  /\ CreateBondIcon.hundred_x size + CreateBondIcon.hundred_size size <= size
  /\ CreateBondIcon.hundred_y size + CreateBondIcon.hundred_size size <= size
  /\ 0 <= CreateBondIcon.ten_x size /\ 0 <= CreateBondIcon.ten_y size
  /\ CreateBondIcon.ten_x size + CreateBondIcon.ten_width size <= size
  /\ CreateBondIcon.ten_y size + CreateBondIcon.ten_height size < size
  /\ 0 <= CreateBondIcon.unit_x size /\ 0 <= CreateBondIcon.unit_y size
  /\ CreateBondIcon.unit_x size + CreateBondIcon.unit_size size < size
  /\ CreateBondIcon.unit_y size + CreateBondIcon.unit_size size < size.
Proof.
  intros Hs.
  unfold CreateBondIcon.unit_x, CreateBondIcon.unit_y, CreateBondIcon.unit_size,
    CreateBondIcon.ten_x, CreateBondIcon.ten_y, CreateBondIcon.ten_width,
    CreateBondIcon.ten_height, CreateBondIcon.hundred_x, CreateBondIcon.hundred_y,
    CreateBondIcon.hundred_size, CreateBondIcon.block_spacing,
    CreateBondIcon.content_area, CreateBondIcon.margin.
  repeat split; div_lia.
Qed.

Lemma gi_places size :
  12 <= size ->
  0 <= GenerateIcon.hundred_x size /\ 0 <= GenerateIcon.hundred_y size
  /\ GenerateIcon.hundred_x size + GenerateIcon.hundred_size size <= size
  /\ GenerateIcon.hundred_y size + GenerateIcon.hundred_size size <= size
  /\ 0 <= GenerateIcon.ten_x size /\ 0 <= GenerateIcon.ten_y size
  /\ GenerateIcon.ten_x size + GenerateIcon.ten_width size <= size
  /\ GenerateIcon.ten_y size + GenerateIcon.ten_height size < size
  /\ 0 <= GenerateIcon.unit_x size /\ 0 <= GenerateIcon.unit_y size
  /\ GenerateIcon.unit_x size + GenerateIcon.unit_size size < size
  /\ GenerateIcon.unit_y size + GenerateIcon.unit_size size < size.
Proof.
  intros Hs.
  unfold GenerateIcon.unit_x, GenerateIcon.unit_y, GenerateIcon.unit_size,
    GenerateIcon.ten_x, GenerateIcon.ten_y, GenerateIcon.ten_width,
    GenerateIcon.ten_height, GenerateIcon.hundred_x, GenerateIcon.hundred_y,
    GenerateIcon.hundred_size, GenerateIcon.content_size, GenerateIcon.margin.
  repeat split; div_lia.
Qed.

Lemma cbi_label_inside img size font x y txt op :
  In op (CreateBondIcon.label_call size font x y txt) -> box_inside img op.
Proof.
  unfold CreateBondIcon.label_call.
  destruct font; [destruct (size >=? 60)|]; simpl; intros H;
    repeat (destruct H as [<-|H]; [done|]); destruct H.
Qed.

Lemma gi_label_inside img env font left span y txt op :
  In op (GenerateIcon.label_call env font left span y txt) -> box_inside img op.
Proof.
  unfold GenerateIcon.label_call.
  destruct font; simpl; intros H; repeat (destruct H as [<-|H]; [done|]); destruct H.
Qed.
End InsideFacts.

(** X5. From 17 pixels on in create_bond_icon.py, and from 12 pixels on in
    generate_icon.py, so at every dimension of the size tables, each
    rectangle the renderer draws (hundred cells, ten cells, unit square,
    rounded border) lies inside the image. *)
Theorem drawing_stays_inside (env : Pillow.font_env) (size : Z) :
  (17 <= size ->
   exists img,
     CreateBondIcon.create_bond_to_ten_icon env size = Py.Returned img
     /\ forall op, In op (Pillow.ops img) -> Pillow.box_inside img op)
  /\ (12 <= size ->
      exists img,
        GenerateIcon.create_bond_to_ten_icon env size = Py.Returned img
        /\ forall op, In op (Pillow.ops img) -> Pillow.box_inside img op).
Proof.
  split; intros Hs.
  - eexists. split; [apply cbi_create_closed_form; lia|].
    cbn [Pillow.ops Pillow.draw_all CreateBondIcon.blank app]. intros op Hop.
    destruct (cbi_places size Hs)
      as (Hhx & Hhy & Hhr & Hhb & Htx & Hty & Htr & Htb & Hux & Huy & Hur & Hub).
    unfold CreateBondIcon.all_calls in Hop.
    apply List.in_app_or in Hop. destruct Hop as [Hop|Hop].
    { unfold CreateBondIcon.hundred_calls in Hop.
      destruct (_ >? 10); [|by destruct Hop].
      apply List.in_app_or in Hop. destruct Hop as [Hop|Hop];
        [|by eapply cbi_label_inside].
      destruct (Z.gtb_spec (CreateBondIcon.cell_size size) 1) as [Hc|_];
        [|by destruct Hop].
      unfold CreateBondIcon.hundred_grid in Hop.
      apply List.in_flat_map in Hop. destruct Hop as (row & Hrow & Hop).
      apply List.in_map_iff in Hop. destruct Hop as (col & <- & Hcol).
      apply in_range in Hrow. apply in_range in Hcol.
      pose proof (cbi_cell_fits size Hc).
      pose proof (Z.mul_le_mono_nonneg_r row 9 (CreateBondIcon.cell_size size)
                    ltac:(lia) ltac:(lia)).
      pose proof (Z.mul_le_mono_nonneg_r col 9 (CreateBondIcon.cell_size size)
                    ltac:(lia) ltac:(lia)).
      pose proof (Z.mul_nonneg_nonneg row (CreateBondIcon.cell_size size)
                    ltac:(lia) ltac:(lia)).
      pose proof (Z.mul_nonneg_nonneg col (CreateBondIcon.cell_size size)
                    ltac:(lia) ltac:(lia)).
      unfold Pillow.box_inside. cbn [Pillow.box_of Pillow.width Pillow.height Pillow.draw_all CreateBondIcon.blank]. lia. }
    apply List.in_app_or in Hop. destruct Hop as [Hop|Hop].
    { unfold CreateBondIcon.ten_calls in Hop.
      destruct (_ && _); [|by destruct Hop].
      apply List.in_app_or in Hop. destruct Hop as [Hop|Hop];
        [|by eapply cbi_label_inside].
      destruct (Z.gtb_spec (CreateBondIcon.unit_width size) 1) as [Hc|_];
        [|by destruct Hop].
      unfold CreateBondIcon.ten_cells in Hop.
      apply List.in_map_iff in Hop. destruct Hop as (i & <- & Hi).
      apply in_range in Hi.
      pose proof (cbi_unit_width_fits size Hc).
      pose proof (Z.mul_le_mono_nonneg_r i 9 (CreateBondIcon.unit_width size)
                    ltac:(lia) ltac:(lia)).
      pose proof (Z.mul_nonneg_nonneg i (CreateBondIcon.unit_width size)
                    ltac:(lia) ltac:(lia)).
      unfold Pillow.box_inside. cbn [Pillow.box_of Pillow.width Pillow.height Pillow.draw_all CreateBondIcon.blank]. lia. }
    apply List.in_app_or in Hop. destruct Hop as [Hop|Hop].
    { unfold CreateBondIcon.unit_calls in Hop. destruct Hop as [<-|Hop];
        [|by eapply cbi_label_inside].
      pose proof (cbi_unit_size_ge_4 size).
      unfold Pillow.box_inside.
      cbn [Pillow.box_of Pillow.width Pillow.height Pillow.draw_all CreateBondIcon.blank CreateBondIcon.unit_square]. lia. }
    unfold CreateBondIcon.border_calls in Hop.
    destruct (Z.geb_spec size 120); [|by destruct Hop].
    destruct Hop as [<-|[]]. unfold Pillow.box_inside. cbn [Pillow.box_of Pillow.width Pillow.height Pillow.draw_all CreateBondIcon.blank].
    lia.
  - eexists. split; [apply gi_create_closed_form; lia|].
    cbn [Pillow.ops Pillow.draw_all GenerateIcon.blank app]. intros op Hop.
    destruct (gi_places size Hs)
      as (Hhx & Hhy & Hhr & Hhb & Htx & Hty & Htr & Htb & Hux & Huy & Hur & Hub).
    unfold GenerateIcon.all_calls in Hop.
    apply List.in_app_or in Hop. destruct Hop as [Hop|Hop].
    { unfold GenerateIcon.hundred_calls in Hop.
      apply List.in_app_or in Hop. destruct Hop as [Hop|Hop];
        [|by eapply gi_label_inside].
      destruct (Z.gtb_spec (GenerateIcon.cell_size size) 1) as [Hc|_];
        [|by destruct Hop].
      unfold GenerateIcon.hundred_grid in Hop.
      apply List.in_flat_map in Hop. destruct Hop as (row & Hrow & Hop).
      apply List.in_map_iff in Hop. destruct Hop as (col & <- & Hcol).
      apply in_range in Hrow. apply in_range in Hcol.
      pose proof (gi_cell_fits size Hc).
      pose proof (Z.mul_le_mono_nonneg_r row 9 (GenerateIcon.cell_size size)
                    ltac:(lia) ltac:(lia)).
      pose proof (Z.mul_le_mono_nonneg_r col 9 (GenerateIcon.cell_size size)
                    ltac:(lia) ltac:(lia)).
      pose proof (Z.mul_nonneg_nonneg row (GenerateIcon.cell_size size)
                    ltac:(lia) ltac:(lia)).
      pose proof (Z.mul_nonneg_nonneg col (GenerateIcon.cell_size size)
                    ltac:(lia) ltac:(lia)).
      unfold Pillow.box_inside. cbn [Pillow.box_of Pillow.width Pillow.height Pillow.draw_all GenerateIcon.blank]. lia. }
    apply List.in_app_or in Hop. destruct Hop as [Hop|Hop].
    { unfold GenerateIcon.ten_calls in Hop.
      apply List.in_app_or in Hop. destruct Hop as [Hop|Hop];
        [|by eapply gi_label_inside].
      destruct (Z.gtb_spec (GenerateIcon.unit_width size) 1) as [Hc|_];
        [|by destruct Hop].
      destruct (_ >? 0); [|by destruct Hop]. cbn [andb] in Hop.
      unfold GenerateIcon.ten_cells in Hop.
      apply List.in_map_iff in Hop. destruct Hop as (i & <- & Hi).
      apply in_range in Hi.
      pose proof (gi_unit_width_fits size Hc).
      pose proof (Z.mul_le_mono_nonneg_r i 9 (GenerateIcon.unit_width size)
                    ltac:(lia) ltac:(lia)).
      pose proof (Z.mul_nonneg_nonneg i (GenerateIcon.unit_width size)
                    ltac:(lia) ltac:(lia)).
      unfold Pillow.box_inside. cbn [Pillow.box_of Pillow.width Pillow.height Pillow.draw_all GenerateIcon.blank]. lia. }
    apply List.in_app_or in Hop. destruct Hop as [Hop|Hop].
    { unfold GenerateIcon.unit_calls in Hop. destruct Hop as [<-|Hop];
        [|by eapply gi_label_inside].
      pose proof (gi_unit_size_nonneg size ltac:(lia)).
      unfold Pillow.box_inside.
      cbn [Pillow.box_of Pillow.width Pillow.height Pillow.draw_all GenerateIcon.blank GenerateIcon.unit_square]. lia. }
    unfold GenerateIcon.border_calls in Hop.
    destruct (Z.geb_spec size 100); [|by destruct Hop].
    destruct Hop as [<-|[]]. unfold Pillow.box_inside. cbn [Pillow.box_of Pillow.width Pillow.height Pillow.draw_all GenerateIcon.blank].
    lia.
Qed.

Lemma drawing_stays_inside_witness :
  17 <= 20
  /\ exists img,
       CreateBondIcon.create_bond_to_ten_icon Pillow.no_fonts 20 = Py.Returned img
       /\ forall op, In op (Pillow.ops img) -> Pillow.box_inside img op.
Proof.
  split; [lia|].
  destruct (drawing_stays_inside Pillow.no_fonts 20) as [Hcbi _].
  apply Hcbi. lia.
Defined.

(** [~ In x l] after computing [l] down to a closed list. *)
Ltac not_listed_cases :=
  let H := fresh "Hin" in
  intros H; repeat (destruct H as [H|H]; [discriminate H|]); exact H.

(** ** A whole run of create_bond_icon.py *)

Section CreateBondIconBatchFacts.
Import Pillow CreateBondIcon.
Implicit Type w : OS.world image.

(** One turn of the loop, when nothing is in the way. *)
Lemma cbi_turn env size scale w :
  0 <= size ->
  OS.isdir w icon_dir = true ->
  OS.dirname (filepath_of size scale) = icon_dir ->
  OS.isdir w (filepath_of size scale) = false ->
  generate_one env (size, scale) w
  = (Py.Returned tt,
     {| OS.dirs := OS.dirs w;
        OS.files := <[filepath_of size scale
                      := draw_all (all_calls env size) (blank size)]> (OS.files w);
        OS.trace := (OS.trace w ++ [OS.Save (filepath_of size scale);
                                    OS.Print (progress_line size scale)])%list |}).
Proof.
  intros Hs Hdir Hparent Hfree. unfold generate_one.
  rewrite cbi_create_closed_form by done.
  fold (filepath_of size scale). unfold OS.write_file.
  change (OS.isdir (OS.log (OS.Save (filepath_of size scale)) w) (filepath_of size scale))
    with (OS.isdir w (filepath_of size scale)).
  rewrite Hfree, Hparent.
  change (OS.isdir (OS.log (OS.Save (filepath_of size scale)) w) icon_dir)
    with (OS.isdir w icon_dir).
  rewrite Hdir, orb_true_r. unfold OS.print, OS.log. cbn [OS.dirs OS.files OS.trace].
  fold (progress_line size scale). by rewrite <- app_assoc.
Qed.

(** The loop over any list of entries that fit under the output
    directory and have different paths. *)
Lemma cbi_loop env (l : list (Z * string)) w :
  OS.isdir w icon_dir = true ->
  (forall e, In e l ->
             0 <= fst e
             /\ OS.dirname (filepath_of (fst e) (snd e)) = icon_dir
             /\ OS.isdir w (filepath_of (fst e) (snd e)) = false) ->
  List.NoDup (map (fun e => filepath_of (fst e) (snd e)) l) ->
  exists w',
    OS.for_each_io l (generate_one env) w = (Py.Returned tt, w')
    /\ OS.dirs w' = OS.dirs w
    /\ (forall e, In e l ->
          OS.files w' !! filepath_of (fst e) (snd e)
          = Some (draw_all (all_calls env (fst e)) (blank (fst e))))
    /\ (forall p, ~ In p (map (fun e => filepath_of (fst e) (snd e)) l) ->
          OS.files w' !! p = OS.files w !! p)
    /\ OS.trace w'
       = (OS.trace w
          ++ flat_map (fun e => [OS.Save (filepath_of (fst e) (snd e));
                                 OS.Print (progress_line (fst e) (snd e))]) l)%list.
Proof.
  revert w. induction l as [|[size scale] l IH]; intros w Hdir Hl Hnodup.
  - exists w. cbn [OS.for_each_io flat_map]. rewrite app_nil_r. by repeat split.
  - destruct (Hl (size, scale) (or_introl eq_refl)) as (Hs & Hparent & Hfree).
    cbn [fst snd] in Hs, Hparent, Hfree.
    cbn [OS.for_each_io]. rewrite (cbi_turn env size scale w Hs Hdir Hparent Hfree).
    set (w1 := {| OS.dirs := OS.dirs w; OS.files := _; OS.trace := _ |}).
    apply List.NoDup_cons_iff in Hnodup. cbn [map fst snd] in Hnodup.
    destruct Hnodup as [Hfresh Hnodup].
    destruct (IH w1) as (w' & Hrun & Hdirs & Hfiles & Hframe & Htrace);
      [done | | done |].
    { intros e He. destruct (Hl e (or_intror He)) as (? & ? & ?). by repeat split. }
    exists w'. split; [done|]. split; [done|]. split; [|split].
    + intros e [<-|He]; [|by apply Hfiles]. cbn [fst snd].
      rewrite (Hframe _ Hfresh). apply lookup_insert_eq.
    + intros p Hp. cbn [map fst snd] in Hp.
      rewrite Hframe by (intros Hin; apply Hp; by right).
      apply lookup_insert_ne. intros Heq. apply Hp. by left.
    + rewrite Htrace. cbn [flat_map OS.trace w1 fst snd]. by rewrite <- !app_assoc.
Qed.

(** What [os.makedirs] can add to the directories. *)
Lemma cbi_makedirs_dirs w w' :
  OS.makedirs_exist_ok icon_dir w = (Py.Returned tt, w') ->
  OS.isdir w' icon_dir = true
  /\ OS.files w' = OS.files w
  /\ OS.trace w' = (OS.trace w ++ [OS.Makedirs icon_dir])%list
  /\ (forall p, OS.isdir w p = false -> ~ In p (icon_dir :: OS.ancestors icon_dir) ->
                OS.isdir w' p = false)
  /\ (OS.isdir w icon_dir = true -> OS.dirs w' = OS.dirs w).
Proof.
  unfold OS.makedirs_exist_ok.
  change (OS.isdir (OS.log (OS.Makedirs icon_dir) w) icon_dir) with (OS.isdir w icon_dir).
  generalize (OS.ancestors icon_dir). intros anc.
  destruct (OS.isdir w icon_dir) eqn:Hdir.
  - intros [= <-]. by repeat split.
  - destruct (OS.isfile _ icon_dir); [done|].
    destruct (List.find _ _); [done|]. intros [= <-].
    split; [|split; [done|split; [done|split; [|done]]]].
    + unfold OS.isdir; cbn [OS.dirs]. apply bool_decide_eq_true. set_solver.
    + intros p Hp Hnot. unfold OS.isdir in *. cbn [OS.dirs OS.log].
      apply bool_decide_eq_false. apply bool_decide_eq_false in Hp.
      intros Hin. apply elem_of_union in Hin. destruct Hin as [Hin|Hin].
      * apply elem_of_union in Hin. destruct Hin as [Hin|Hin]; [done|].
        apply elem_of_list_to_set, list_elem_of_In in Hin. apply Hnot. by right.
      * apply elem_of_singleton in Hin. apply Hnot. by left.
Qed.

(** The entries of the table fit under the output directory, and none of
    their paths is the directory or one of its ancestors. *)
Lemma cbi_table_paths :
  forall e, In e ICON_SIZES ->
            0 <= fst e
            /\ OS.dirname (filepath_of (fst e) (snd e)) = icon_dir
            /\ ~ In (filepath_of (fst e) (snd e)) (icon_dir :: OS.ancestors icon_dir).
Proof.
  intros e He. unfold ICON_SIZES in He. simpl in He.
  repeat (destruct He as [<-|He];
          [split; [cbn; lia|split; [by vm_compute|vm_compute; not_listed_cases]]|]).
  destruct He.
Qed.

Lemma cbi_paths_NoDup :
  List.NoDup (map (fun e => filepath_of (fst e) (snd e)) ICON_SIZES).
Proof. apply NoDup_ListNoDup. compute_done. Qed.

(** A whole run of the driver, when the directory can be made and no
    target path is a directory. *)
Lemma cbi_batch env w :
  fst (OS.makedirs_exist_ok icon_dir w) = Py.Returned tt ->
  (forall e, In e ICON_SIZES -> OS.isdir w (filepath_of (fst e) (snd e)) = false) ->
  exists w',
    generate_ios_icons env w = (Py.Returned tt, w')
    /\ OS.isdir w' icon_dir = true
    /\ (OS.isdir w icon_dir = true -> OS.dirs w' = OS.dirs w)
    /\ (forall e, In e ICON_SIZES -> OS.isdir w' (filepath_of (fst e) (snd e)) = false)
    /\ (forall e, In e ICON_SIZES ->
          OS.files w' !! filepath_of (fst e) (snd e)
          = Some (draw_all (all_calls env (fst e)) (blank (fst e))))
    /\ (forall p, ~ In p (map (fun e => filepath_of (fst e) (snd e)) ICON_SIZES) ->
          OS.files w' !! p = OS.files w !! p)
    /\ OS.trace w'
       = (OS.trace w ++ OS.Makedirs icon_dir :: OS.Print "Generating proper Bond to Ten app icons..." ::
          []
          ++ flat_map (fun e => [OS.Save (filepath_of (fst e) (snd e));
                                 OS.Print (progress_line (fst e) (snd e))]) ICON_SIZES)%list.
Proof.
  intros Hmk Hfree. unfold generate_ios_icons.
  destruct (OS.makedirs_exist_ok icon_dir w) as [[[]|e] w1] eqn:Hmake; [|done].
  destruct (cbi_makedirs_dirs w w1 Hmake) as (Hdir & Hfiles & Htrace & Hnew & Hsame).
  set (w2 := OS.print _ w1).
  destruct (cbi_loop env ICON_SIZES w2) as (w' & Hrun & Hdirs & Hall & Hframe & Htr).
  - done.
  - intros e He. destruct (cbi_table_paths e He) as (Hs & Hparent & Hnot).
    split; [done|]. split; [done|]. apply Hnew; [by apply Hfree|done].
  - apply cbi_paths_NoDup.
  - exists w'. split; [done|]. split; [|split; [|split; [|split; [|split]]]].
    + unfold OS.isdir in *. by rewrite Hdirs.
    + intros Hthere. rewrite Hdirs. by apply Hsame.
    + intros e He. destruct (cbi_table_paths e He) as (_ & _ & Hnot).
      unfold OS.isdir in *. rewrite Hdirs. apply Hnew; [by apply Hfree|done].
    + done.
    + intros p Hp. rewrite (Hframe p Hp). exact (f_equal (fun m => m !! p) Hfiles).
    + rewrite Htr. cbn [OS.trace w2 OS.print OS.log]. rewrite Htrace.
      by rewrite <- !app_assoc.
Qed.
End CreateBondIconBatchFacts.

(** ** A whole run of generate_icon.py *)

Section GenerateIconBatchFacts.
Import Pillow GenerateIcon.
Implicit Type w : OS.world image.

(** One turn of the loop, when nothing is in the way. *)
Lemma gi_turn env size scale w :
  0 <= size ->
  OS.isdir w icon_dir = true ->
  OS.dirname (filepath_of size scale) = icon_dir ->
  OS.isdir w (filepath_of size scale) = false ->
  generate_one env (size, scale) w
  = (Py.Returned tt,
     {| OS.dirs := OS.dirs w;
        OS.files := <[filepath_of size scale
                      := draw_all (all_calls env size) (blank size)]> (OS.files w);
        OS.trace := (OS.trace w ++ [OS.Save (filepath_of size scale);
                                    OS.Print (progress_line size scale)])%list |}).
Proof.
  intros Hs Hdir Hparent Hfree. unfold generate_one.
  rewrite gi_create_closed_form by done.
  fold (filepath_of size scale). unfold OS.write_file.
  change (OS.isdir (OS.log (OS.Save (filepath_of size scale)) w) (filepath_of size scale))
    with (OS.isdir w (filepath_of size scale)).
  rewrite Hfree, Hparent.
  change (OS.isdir (OS.log (OS.Save (filepath_of size scale)) w) icon_dir)
    with (OS.isdir w icon_dir).
  rewrite Hdir, orb_true_r. unfold OS.print, OS.log. cbn [OS.dirs OS.files OS.trace].
  fold (progress_line size scale). by rewrite <- app_assoc.
Qed.

(** The loop over any list of entries that fit under the output
    directory and have different paths. *)
Lemma gi_loop env (l : list (Z * string)) w :
  OS.isdir w icon_dir = true ->
  (forall e, In e l ->
             0 <= fst e
             /\ OS.dirname (filepath_of (fst e) (snd e)) = icon_dir
             /\ OS.isdir w (filepath_of (fst e) (snd e)) = false) ->
  List.NoDup (map (fun e => filepath_of (fst e) (snd e)) l) ->
  exists w',
    OS.for_each_io l (generate_one env) w = (Py.Returned tt, w')
    /\ OS.dirs w' = OS.dirs w
    /\ (forall e, In e l ->
          OS.files w' !! filepath_of (fst e) (snd e)
          = Some (draw_all (all_calls env (fst e)) (blank (fst e))))
    /\ (forall p, ~ In p (map (fun e => filepath_of (fst e) (snd e)) l) ->
          OS.files w' !! p = OS.files w !! p)
    /\ OS.trace w'
       = (OS.trace w
          ++ flat_map (fun e => [OS.Save (filepath_of (fst e) (snd e));
                                 OS.Print (progress_line (fst e) (snd e))]) l)%list.
Proof.
  revert w. induction l as [|[size scale] l IH]; intros w Hdir Hl Hnodup.
  - exists w. cbn [OS.for_each_io flat_map]. rewrite app_nil_r. by repeat split.
  - destruct (Hl (size, scale) (or_introl eq_refl)) as (Hs & Hparent & Hfree).
    cbn [fst snd] in Hs, Hparent, Hfree.
    cbn [OS.for_each_io]. rewrite (gi_turn env size scale w Hs Hdir Hparent Hfree).
    set (w1 := {| OS.dirs := OS.dirs w; OS.files := _; OS.trace := _ |}).
    apply List.NoDup_cons_iff in Hnodup. cbn [map fst snd] in Hnodup.
    destruct Hnodup as [Hfresh Hnodup].
    destruct (IH w1) as (w' & Hrun & Hdirs & Hfiles & Hframe & Htrace);
      [done | | done |].
    { intros e He. destruct (Hl e (or_intror He)) as (? & ? & ?). by repeat split. }
    exists w'. split; [done|]. split; [done|]. split; [|split].
    + intros e [<-|He]; [|by apply Hfiles]. cbn [fst snd].
      rewrite (Hframe _ Hfresh). apply lookup_insert_eq.
    + intros p Hp. cbn [map fst snd] in Hp.
      rewrite Hframe by (intros Hin; apply Hp; by right).
      apply lookup_insert_ne. intros Heq. apply Hp. by left.
    + rewrite Htrace. cbn [flat_map OS.trace w1 fst snd]. by rewrite <- !app_assoc.
Qed.

(** What [os.makedirs] can add to the directories. *)
Lemma gi_makedirs_dirs w w' :
  OS.makedirs_exist_ok icon_dir w = (Py.Returned tt, w') ->
  OS.isdir w' icon_dir = true
  /\ OS.files w' = OS.files w
  /\ OS.trace w' = (OS.trace w ++ [OS.Makedirs icon_dir])%list
  /\ (forall p, OS.isdir w p = false -> ~ In p (icon_dir :: OS.ancestors icon_dir) ->
                OS.isdir w' p = false)
  /\ (OS.isdir w icon_dir = true -> OS.dirs w' = OS.dirs w).
Proof.
  unfold OS.makedirs_exist_ok.
  change (OS.isdir (OS.log (OS.Makedirs icon_dir) w) icon_dir) with (OS.isdir w icon_dir).
  generalize (OS.ancestors icon_dir). intros anc.
  destruct (OS.isdir w icon_dir) eqn:Hdir.
  - intros [= <-]. by repeat split.
  - destruct (OS.isfile _ icon_dir); [done|].
    destruct (List.find _ _); [done|]. intros [= <-].
    split; [|split; [done|split; [done|split; [|done]]]].
    + unfold OS.isdir; cbn [OS.dirs]. apply bool_decide_eq_true. set_solver.
    + intros p Hp Hnot. unfold OS.isdir in *. cbn [OS.dirs OS.log].
      apply bool_decide_eq_false. apply bool_decide_eq_false in Hp.
      intros Hin. apply elem_of_union in Hin. destruct Hin as [Hin|Hin].
      * apply elem_of_union in Hin. destruct Hin as [Hin|Hin]; [done|].
        apply elem_of_list_to_set, list_elem_of_In in Hin. apply Hnot. by right.
      * apply elem_of_singleton in Hin. apply Hnot. by left.
Qed.

(** The entries of the table fit under the output directory, and none of
    their paths is the directory or one of its ancestors. *)
Lemma gi_table_paths :
  forall e, In e ICON_SIZES ->
            0 <= fst e
            /\ OS.dirname (filepath_of (fst e) (snd e)) = icon_dir
            /\ ~ In (filepath_of (fst e) (snd e)) (icon_dir :: OS.ancestors icon_dir).
Proof.
  intros e He. unfold ICON_SIZES in He. simpl in He.
  repeat (destruct He as [<-|He];
          [split; [cbn; lia|split; [by vm_compute|vm_compute; not_listed_cases]]|]).
  destruct He.
Qed.

Lemma gi_paths_NoDup :
  List.NoDup (map (fun e => filepath_of (fst e) (snd e)) ICON_SIZES).
Proof. apply NoDup_ListNoDup. compute_done. Qed.

(** A whole run of the driver, when the directory can be made and no
    target path is a directory. *)
Lemma gi_batch env w :
  fst (OS.makedirs_exist_ok icon_dir w) = Py.Returned tt ->
  (forall e, In e ICON_SIZES -> OS.isdir w (filepath_of (fst e) (snd e)) = false) ->
  exists w',
    generate_ios_icons env w = (Py.Returned tt, w')
    /\ OS.isdir w' icon_dir = true
    /\ (OS.isdir w icon_dir = true -> OS.dirs w' = OS.dirs w)
    /\ (forall e, In e ICON_SIZES -> OS.isdir w' (filepath_of (fst e) (snd e)) = false)
    /\ (forall e, In e ICON_SIZES ->
          OS.files w' !! filepath_of (fst e) (snd e)
          = Some (draw_all (all_calls env (fst e)) (blank (fst e))))
    /\ (forall p, ~ In p (map (fun e => filepath_of (fst e) (snd e)) ICON_SIZES) ->
          OS.files w' !! p = OS.files w !! p)
    /\ OS.trace w'
       = (OS.trace w ++ OS.Makedirs icon_dir :: []
          ++ flat_map (fun e => [OS.Save (filepath_of (fst e) (snd e));
                                 OS.Print (progress_line (fst e) (snd e))]) ICON_SIZES)%list.
Proof.
  intros Hmk Hfree. unfold generate_ios_icons.
  destruct (OS.makedirs_exist_ok icon_dir w) as [[[]|e] w1] eqn:Hmake; [|done].
  destruct (gi_makedirs_dirs w w1 Hmake) as (Hdir & Hfiles & Htrace & Hnew & Hsame).

  destruct (gi_loop env ICON_SIZES w1) as (w' & Hrun & Hdirs & Hall & Hframe & Htr).
  - done.
  - intros e He. destruct (gi_table_paths e He) as (Hs & Hparent & Hnot).
    split; [done|]. split; [done|]. apply Hnew; [by apply Hfree|done].
  - apply gi_paths_NoDup.
  - exists w'. split; [done|]. split; [|split; [|split; [|split; [|split]]]].
    + unfold OS.isdir in *. by rewrite Hdirs.
    + intros Hthere. rewrite Hdirs. by apply Hsame.
    + intros e He. destruct (gi_table_paths e He) as (_ & _ & Hnot).
      unfold OS.isdir in *. rewrite Hdirs. apply Hnew; [by apply Hfree|done].
    + done.
    + intros p Hp. rewrite (Hframe p Hp). exact (f_equal (fun m => m !! p) Hfiles).
    + rewrite Htr. rewrite Htrace. by rewrite <- !app_assoc.
Qed.
End GenerateIconBatchFacts.

Section TraceFacts.
Context {C : Type}.
Implicit Type w : OS.world C.

(** Printing a list of lines, one after the other. *)
Lemma prints_world (lines : list string) w :
  OS.dirs (fold_left (fun w line => OS.print line w) lines w) = OS.dirs w
  /\ OS.files (fold_left (fun w line => OS.print line w) lines w) = OS.files w
  /\ OS.trace (fold_left (fun w line => OS.print line w) lines w)
     = (OS.trace w ++ map OS.Print lines)%list.
Proof.
  revert w. induction lines as [|line lines IH]; intros w; cbn [fold_left map].
  - by rewrite app_nil_r.
  - destruct (IH (OS.print line w)) as (Hd & Hf & Ht).
    rewrite Hd, Hf, Ht. unfold OS.print, OS.log. cbn [OS.dirs OS.files OS.trace].
    by rewrite <- app_assoc.
Qed.

Lemma saves_of_prints (lines : list string) :
  flat_map (fun ev => match ev with OS.Save p => [p] | _ => [] end) (map OS.Print lines)
  = [].
Proof. induction lines; [done|]. by cbn. Qed.

Lemma stdout_of_prints (lines : list string) :
  flat_map (fun ev => match ev with OS.Print l => [l] | _ => [] end) (map OS.Print lines)
  = lines.
Proof. induction lines as [|l lines IH]; [done|]. cbn. by rewrite IH. Qed.

Lemma saves_of_turns {A} (path line : A -> string) (l : list A) :
  flat_map (fun ev => match ev with OS.Save p => [p] | _ => [] end)
    (flat_map (fun e => [OS.Save (path e); OS.Print (line e)]) l)
  = map path l.
Proof. induction l as [|e l IH]; [done|]. cbn. by rewrite IH. Qed.

Lemma stdout_of_turns {A} (path line : A -> string) (l : list A) :
  flat_map (fun ev => match ev with OS.Print l => [l] | _ => [] end)
    (flat_map (fun e => [OS.Save (path e); OS.Print (line e)]) l)
  = map line l.
Proof. induction l as [|e l IH]; [done|]. cbn. by rewrite IH. Qed.
End TraceFacts.

Section CreateBondIconRunFacts.
Import Pillow CreateBondIcon.
Implicit Type w : OS.world image.

(** The saves of a loop are those of the first entries, in order, up to
    the one that raised. *)
Lemma cbi_loop_saves env (l : list (Z * string)) w :
  exists k : nat,
    OS.saves (snd (OS.for_each_io l (generate_one env) w))
    = (OS.saves w ++ map (fun e => filepath_of (fst e) (snd e)) (firstn k l))%list
    /\ (fst (OS.for_each_io l (generate_one env) w) = Py.Returned tt -> k = List.length l).
Proof.
  revert w. induction l as [|[size scale] l IH]; intros w.
  - exists 0%nat. cbn. by rewrite app_nil_r.
  - cbn [OS.for_each_io]. unfold generate_one at 1 3.
    destruct (create_bond_to_ten_icon env size) as [icon|ex].
    2:{ exists 0%nat. cbn. by rewrite app_nil_r. }
    fold (filepath_of size scale).
    pose proof (saves_write_file (filepath_of size scale) icon w) as Hsave.
    destruct (OS.write_file (filepath_of size scale) icon w) as [[[]|ex] w1];
      cbn [snd] in Hsave.
    2:{ exists 1%nat. cbn. split; [exact Hsave | done]. }
    set (w2 := OS.print _ w1).
    destruct (IH w2) as (k & Hk & Hall).
    exists (S k). split.
    + rewrite Hk. unfold w2. rewrite saves_print, Hsave. cbn [firstn map fst snd].
      by rewrite <- app_assoc.
    + intros Hret. cbn [List.length]. f_equal. by apply Hall.
Qed.
End CreateBondIconRunFacts.

Section GenerateIconRunFacts.
Import Pillow GenerateIcon.
Implicit Type w : OS.world image.

(** The saves of a loop are those of the first entries, in order, up to
    the one that raised. *)
Lemma gi_loop_saves env (l : list (Z * string)) w :
  exists k : nat,
    OS.saves (snd (OS.for_each_io l (generate_one env) w))
    = (OS.saves w ++ map (fun e => filepath_of (fst e) (snd e)) (firstn k l))%list
    /\ (fst (OS.for_each_io l (generate_one env) w) = Py.Returned tt -> k = List.length l).
Proof.
  revert w. induction l as [|[size scale] l IH]; intros w.
  - exists 0%nat. cbn. by rewrite app_nil_r.
  - cbn [OS.for_each_io]. unfold generate_one at 1 3.
    destruct (create_bond_to_ten_icon env size) as [icon|ex].
    2:{ exists 0%nat. cbn. by rewrite app_nil_r. }
    fold (filepath_of size scale).
    pose proof (saves_write_file (filepath_of size scale) icon w) as Hsave.
    destruct (OS.write_file (filepath_of size scale) icon w) as [[[]|ex] w1];
      cbn [snd] in Hsave.
    2:{ exists 1%nat. cbn. split; [exact Hsave | done]. }
    set (w2 := OS.print _ w1).
    destruct (IH w2) as (k & Hk & Hall).
    exists (S k). split.
    + rewrite Hk. unfold w2. rewrite saves_print, Hsave. cbn [firstn map fst snd].
      by rewrite <- app_assoc.
    + intros Hret. cbn [List.length]. f_equal. by apply Hall.
Qed.
End GenerateIconRunFacts.

(** ** The render drivers and the output directory *)

Section MakedirsSaves.
Context {C : Type}.
Implicit Type w : OS.world C.

(** [os.makedirs] attempts no save. *)
Lemma saves_makedirs p w :
  OS.saves (snd (OS.makedirs_exist_ok p w)) = OS.saves w.
Proof.
  assert (OS.trace (snd (OS.makedirs_exist_ok p w))
          = (OS.trace w ++ [OS.Makedirs p])%list) as Htrace.
  { destruct (makedirs_outcome p w) as [[e ->]|(w' & -> & _ & _ & Htrace)]; done. }
  unfold OS.saves. rewrite Htrace, List.flat_map_app. cbn [flat_map app].
  by rewrite app_nil_r.
Qed.
End MakedirsSaves.

Section CreateBondIconDirectory.
Import Pillow CreateBondIcon.
Implicit Type w : OS.world image.

(** A loop that starts with an entry the renderer accepts gets as far as
    the save of that entry at least. *)
Lemma cbi_loop_first_save env size scale (rest : list (Z * string)) w :
  0 <= size ->
  exists k : nat,
    (1 <= k)%nat
    /\ OS.saves (snd (OS.for_each_io ((size, scale) :: rest) (generate_one env) w))
       = (OS.saves w
          ++ map (fun e => filepath_of (fst e) (snd e))
               (firstn k ((size, scale) :: rest)))%list
    /\ (fst (OS.for_each_io ((size, scale) :: rest) (generate_one env) w)
        = Py.Returned tt ->
        k = List.length ((size, scale) :: rest)).
Proof.
  intros Hs. cbn [OS.for_each_io]. unfold generate_one at 1 3.
  rewrite cbi_create_closed_form by done.
  fold (filepath_of size scale).
  pose proof (saves_write_file (filepath_of size scale)
                (draw_all (all_calls env size) (blank size)) w) as Hsave.
  destruct (OS.write_file (filepath_of size scale) _ w) as [[[]|ex] w1];
    cbn [snd] in Hsave.
  2:{ exists 1%nat. split; [lia|]. cbn [firstn map fst snd]. split; [exact Hsave|done]. }
  set (w2 := OS.print _ w1).
  destruct (cbi_loop_saves env rest w2) as (k & Hk & Hall).
  exists (S k). split; [lia|]. split.
  - rewrite Hk. unfold w2. rewrite saves_print, Hsave. cbn [firstn map fst snd].
    by rewrite <- app_assoc.
  - intros Hret. cbn [List.length]. f_equal. by apply Hall.
Qed.

(** The run once [os.makedirs] has returned: the directory is there and
    stays, no other directory appears, the loop is entered and attempts
    the save of the first entry at least, all of them when it ends
    without an error, which it does when no target path is a
    directory. *)
Lemma cbi_driver_after_makedirs env w :
  fst (OS.makedirs_exist_ok icon_dir w) = Py.Returned tt ->
  OS.isdir (snd (OS.makedirs_exist_ok icon_dir w)) icon_dir = true
  /\ OS.dirs (snd (generate_ios_icons env w))
     = OS.dirs (snd (OS.makedirs_exist_ok icon_dir w))
  /\ OS.isdir (snd (generate_ios_icons env w)) icon_dir = true
  /\ (exists k : nat,
        (1 <= k)%nat
        /\ OS.saves (snd (generate_ios_icons env w))
           = (OS.saves w
              ++ map (fun e => filepath_of (fst e) (snd e))
                   (firstn k ICON_SIZES))%list
        /\ (fst (generate_ios_icons env w) = Py.Returned tt ->
            k = List.length ICON_SIZES))
  /\ ((forall size scale,
         In (size, scale) ICON_SIZES ->
         OS.isdir w (filepath_of size scale) = false) ->
      fst (generate_ios_icons env w) = Py.Returned tt).
Proof.
  intros Hmk.
  pose proof (saves_makedirs icon_dir w) as Hnone.
  pose proof (cbi_batch env w Hmk) as Hbatch.
  destruct (OS.makedirs_exist_ok icon_dir w) as [[[]|e'] w1] eqn:Hmake;
    cbn [fst] in Hmk; [|done].
  cbn [snd] in Hnone |- *.
  destruct (cbi_makedirs_dirs w w1 Hmake) as (Hdir & _).
  assert (generate_ios_icons env w
          = OS.for_each_io ICON_SIZES (generate_one env) (OS.print "Generating proper Bond to Ten app icons..." w1)) as Hgen.
  { unfold generate_ios_icons. by rewrite Hmake. }
  assert (OS.dirs (snd (generate_ios_icons env w)) = OS.dirs w1) as Hdirs.
  { rewrite Hgen. by rewrite for_each_io_dirs by apply cbi_generate_one_dirs. }
  split; [exact Hdir|]. split; [exact Hdirs|]. split.
  { unfold OS.isdir in *. by rewrite Hdirs. }
  split.
  - rewrite Hgen.
    destruct (cbi_loop_first_save env 20 "@1x" (List.tl ICON_SIZES) (OS.print "Generating proper Bond to Ten app icons..." w1))
      as (k & Hk & Hsaves & Hall); [lia|].
    exists k. split; [exact Hk|].
    change ((20, "@1x") :: List.tl ICON_SIZES) with ICON_SIZES in Hsaves, Hall.
    split; [|exact Hall].
    rewrite Hsaves. rewrite saves_print. by rewrite Hnone.
  - intros Hfree.
    destruct Hbatch as (w' & Hrun & _).
    { intros [size scale] He. by apply Hfree. }
    by rewrite Hrun.
Qed.

(** What a run of the driver does about the output directory:
    [os.makedirs] is its first call, and the run stops there exactly
    when that call raises.  On a directory that is there already the
    call does not raise and the run creates nothing. *)
Lemma cbi_driver_ensures env w :
  (OS.trace w ++ [OS.Makedirs icon_dir])%list
    `prefix_of` OS.trace (snd (generate_ios_icons env w))
  /\ (forall e,
        fst (OS.makedirs_exist_ok icon_dir w) = Py.Raised e ->
        generate_ios_icons env w = (Py.Raised e, OS.log (OS.Makedirs icon_dir) w))
  /\ (OS.isdir w icon_dir = true ->
      fst (OS.makedirs_exist_ok icon_dir w) = Py.Returned tt
      /\ OS.dirs (snd (generate_ios_icons env w)) = OS.dirs w).
Proof.
  split; [apply cbi_driver_directory|]. split.
  - intros e He. unfold generate_ios_icons.
    destruct (makedirs_outcome icon_dir w) as [[e' Hmk]|(w1 & Hmk & _)];
      rewrite Hmk in He |- *; cbn [fst] in He; [|done].
    by injection He as ->.
  - intros Hthere. rewrite (makedirs_existing _ _ Hthere). split; [done|].
    unfold generate_ios_icons. rewrite (makedirs_existing _ _ Hthere).
    by rewrite for_each_io_dirs by apply cbi_generate_one_dirs.
Qed.

(** The table's target paths, none of which is a directory where only
    the output directory is. *)
Lemma cbi_catalogue_targets_free size scale :
  In (size, scale) ICON_SIZES ->
  OS.isdir (Catalogue.catalogue_only : OS.world image) (filepath_of size scale) = false.
Proof.
  intros He. unfold ICON_SIZES in He. simpl in He.
  repeat (destruct He as [[= <- <-]|He]; [by vm_compute|]).
  destruct He.
Qed.
End CreateBondIconDirectory.

Section GenerateIconDirectory.
Import Pillow GenerateIcon.
Implicit Type w : OS.world image.

(** A loop that starts with an entry the renderer accepts gets as far as
    the save of that entry at least. *)
Lemma gi_loop_first_save env size scale (rest : list (Z * string)) w :
  0 <= size ->
  exists k : nat,
    (1 <= k)%nat
    /\ OS.saves (snd (OS.for_each_io ((size, scale) :: rest) (generate_one env) w))
       = (OS.saves w
          ++ map (fun e => filepath_of (fst e) (snd e))
               (firstn k ((size, scale) :: rest)))%list
    /\ (fst (OS.for_each_io ((size, scale) :: rest) (generate_one env) w)
        = Py.Returned tt ->
        k = List.length ((size, scale) :: rest)).
Proof.
  intros Hs. cbn [OS.for_each_io]. unfold generate_one at 1 3.
  rewrite gi_create_closed_form by done.
  fold (filepath_of size scale).
  pose proof (saves_write_file (filepath_of size scale)
                (draw_all (all_calls env size) (blank size)) w) as Hsave.
  destruct (OS.write_file (filepath_of size scale) _ w) as [[[]|ex] w1];
    cbn [snd] in Hsave.
  2:{ exists 1%nat. split; [lia|]. cbn [firstn map fst snd]. split; [exact Hsave|done]. }
  set (w2 := OS.print _ w1).
  destruct (gi_loop_saves env rest w2) as (k & Hk & Hall).
  exists (S k). split; [lia|]. split.
  - rewrite Hk. unfold w2. rewrite saves_print, Hsave. cbn [firstn map fst snd].
    by rewrite <- app_assoc.
  - intros Hret. cbn [List.length]. f_equal. by apply Hall.
Qed.

(** The run once [os.makedirs] has returned: the directory is there and
    stays, no other directory appears, the loop is entered and attempts
    the save of the first entry at least, all of them when it ends
    without an error, which it does when no target path is a
    directory. *)
Lemma gi_driver_after_makedirs env w :
  fst (OS.makedirs_exist_ok icon_dir w) = Py.Returned tt ->
  OS.isdir (snd (OS.makedirs_exist_ok icon_dir w)) icon_dir = true
  /\ OS.dirs (snd (generate_ios_icons env w))
     = OS.dirs (snd (OS.makedirs_exist_ok icon_dir w))
  /\ OS.isdir (snd (generate_ios_icons env w)) icon_dir = true
  /\ (exists k : nat,
        (1 <= k)%nat
        /\ OS.saves (snd (generate_ios_icons env w))
           = (OS.saves w
              ++ map (fun e => filepath_of (fst e) (snd e))
                   (firstn k ICON_SIZES))%list
        /\ (fst (generate_ios_icons env w) = Py.Returned tt ->
            k = List.length ICON_SIZES))
  /\ ((forall size scale,
         In (size, scale) ICON_SIZES ->
         OS.isdir w (filepath_of size scale) = false) ->
      fst (generate_ios_icons env w) = Py.Returned tt).
Proof.
  intros Hmk.
  pose proof (saves_makedirs icon_dir w) as Hnone.
  pose proof (gi_batch env w Hmk) as Hbatch.
  destruct (OS.makedirs_exist_ok icon_dir w) as [[[]|e'] w1] eqn:Hmake;
    cbn [fst] in Hmk; [|done].
  cbn [snd] in Hnone |- *.
  destruct (gi_makedirs_dirs w w1 Hmake) as (Hdir & _).
  assert (generate_ios_icons env w
          = OS.for_each_io ICON_SIZES (generate_one env) w1) as Hgen.
  { unfold generate_ios_icons. by rewrite Hmake. }
  assert (OS.dirs (snd (generate_ios_icons env w)) = OS.dirs w1) as Hdirs.
  { rewrite Hgen. by rewrite for_each_io_dirs by apply gi_generate_one_dirs. }
  split; [exact Hdir|]. split; [exact Hdirs|]. split.
  { unfold OS.isdir in *. by rewrite Hdirs. }
  split.
  - rewrite Hgen.
    destruct (gi_loop_first_save env 20 "@1x" (List.tl ICON_SIZES) w1)
      as (k & Hk & Hsaves & Hall); [lia|].
    exists k. split; [exact Hk|].
    change ((20, "@1x") :: List.tl ICON_SIZES) with ICON_SIZES in Hsaves, Hall.
    split; [|exact Hall].
    rewrite Hsaves. by rewrite Hnone.
  - intros Hfree.
    destruct Hbatch as (w' & Hrun & _).
    { intros [size scale] He. by apply Hfree. }
    by rewrite Hrun.
Qed.

(** What a run of the driver does about the output directory:
    [os.makedirs] is its first call, and the run stops there exactly
    when that call raises.  On a directory that is there already the
    call does not raise and the run creates nothing. *)
Lemma gi_driver_ensures env w :
  (OS.trace w ++ [OS.Makedirs icon_dir])%list
    `prefix_of` OS.trace (snd (generate_ios_icons env w))
  /\ (forall e,
        fst (OS.makedirs_exist_ok icon_dir w) = Py.Raised e ->
        generate_ios_icons env w = (Py.Raised e, OS.log (OS.Makedirs icon_dir) w))
  /\ (OS.isdir w icon_dir = true ->
      fst (OS.makedirs_exist_ok icon_dir w) = Py.Returned tt
      /\ OS.dirs (snd (generate_ios_icons env w)) = OS.dirs w).
Proof.
  split; [apply gi_driver_directory|]. split.
  - intros e He. unfold generate_ios_icons.
    destruct (makedirs_outcome icon_dir w) as [[e' Hmk]|(w1 & Hmk & _)];
      rewrite Hmk in He |- *; cbn [fst] in He; [|done].
    by injection He as ->.
  - intros Hthere. rewrite (makedirs_existing _ _ Hthere). split; [done|].
    unfold generate_ios_icons. rewrite (makedirs_existing _ _ Hthere).
    by rewrite for_each_io_dirs by apply gi_generate_one_dirs.
Qed.

(** The table's target paths, none of which is a directory where only
    the output directory is. *)
Lemma gi_catalogue_targets_free size scale :
  In (size, scale) ICON_SIZES ->
  OS.isdir (Catalogue.catalogue_only : OS.world image) (filepath_of size scale) = false.
Proof.
  intros He. unfold ICON_SIZES in He. simpl in He.
  repeat (destruct He as [[= <- <-]|He]; [by vm_compute|]).
  destruct He.
Qed.
End GenerateIconDirectory.

(** C7, as the code has it.  In each render script the driver's first
    call is [os.makedirs(icon_dir, exist_ok=True)], before any save.  The
    run stops at that call exactly when the call raises, with the same
    exception and nothing saved.  When the call returns the directory is
    there; the loop changes no directory, so the directory is still there
    at the end; the loop attempts the save of the first entry of the
    table at least, of every entry when the run ends without an error;
    and with no target path a directory the run ends without an error.
    When the directory is there at the start the call returns, so all of
    this holds, and the run leaves the directories as they were.  The
    driver of resize_icons.py makes no directory. *)
Theorem render_drivers_ensure_directory (env : Pillow.font_env)
    (w : OS.world Pillow.image) (wr : ResizeIcons.world) :
  ((OS.trace w ++ [OS.Makedirs CreateBondIcon.icon_dir])%list
     `prefix_of` OS.trace (snd (CreateBondIcon.generate_ios_icons env w))
   /\ (forall e,
         fst (OS.makedirs_exist_ok CreateBondIcon.icon_dir w) = Py.Raised e ->
         CreateBondIcon.generate_ios_icons env w
         = (Py.Raised e, OS.log (OS.Makedirs CreateBondIcon.icon_dir) w))
   /\ (fst (OS.makedirs_exist_ok CreateBondIcon.icon_dir w) = Py.Returned tt ->
       OS.isdir (snd (OS.makedirs_exist_ok CreateBondIcon.icon_dir w))
         CreateBondIcon.icon_dir = true
       /\ OS.dirs (snd (CreateBondIcon.generate_ios_icons env w))
          = OS.dirs (snd (OS.makedirs_exist_ok CreateBondIcon.icon_dir w))
       /\ OS.isdir (snd (CreateBondIcon.generate_ios_icons env w))
            CreateBondIcon.icon_dir = true
       /\ (exists k : nat,
             (1 <= k)%nat
             /\ OS.saves (snd (CreateBondIcon.generate_ios_icons env w))
                = (OS.saves w
                   ++ map (fun e => CreateBondIcon.filepath_of (fst e) (snd e))
                        (firstn k CreateBondIcon.ICON_SIZES))%list
             /\ (fst (CreateBondIcon.generate_ios_icons env w) = Py.Returned tt ->
                 k = List.length CreateBondIcon.ICON_SIZES))
       /\ ((forall size scale,
              In (size, scale) CreateBondIcon.ICON_SIZES ->
              OS.isdir w (CreateBondIcon.filepath_of size scale) = false) ->
           fst (CreateBondIcon.generate_ios_icons env w) = Py.Returned tt))
   /\ (OS.isdir w CreateBondIcon.icon_dir = true ->
       fst (OS.makedirs_exist_ok CreateBondIcon.icon_dir w) = Py.Returned tt
       /\ OS.dirs (snd (CreateBondIcon.generate_ios_icons env w)) = OS.dirs w))
  /\ ((OS.trace w ++ [OS.Makedirs GenerateIcon.icon_dir])%list
        `prefix_of` OS.trace (snd (GenerateIcon.generate_ios_icons env w))
      /\ (forall e,
            fst (OS.makedirs_exist_ok GenerateIcon.icon_dir w) = Py.Raised e ->
            GenerateIcon.generate_ios_icons env w
            = (Py.Raised e, OS.log (OS.Makedirs GenerateIcon.icon_dir) w))
      /\ (fst (OS.makedirs_exist_ok GenerateIcon.icon_dir w) = Py.Returned tt ->
          OS.isdir (snd (OS.makedirs_exist_ok GenerateIcon.icon_dir w))
            GenerateIcon.icon_dir = true
          /\ OS.dirs (snd (GenerateIcon.generate_ios_icons env w))
             = OS.dirs (snd (OS.makedirs_exist_ok GenerateIcon.icon_dir w))
          /\ OS.isdir (snd (GenerateIcon.generate_ios_icons env w))
               GenerateIcon.icon_dir = true
          /\ (exists k : nat,
                (1 <= k)%nat
                /\ OS.saves (snd (GenerateIcon.generate_ios_icons env w))
                   = (OS.saves w
                      ++ map (fun e => GenerateIcon.filepath_of (fst e) (snd e))
                           (firstn k GenerateIcon.ICON_SIZES))%list
                /\ (fst (GenerateIcon.generate_ios_icons env w) = Py.Returned tt ->
                    k = List.length GenerateIcon.ICON_SIZES))
          /\ ((forall size scale,
                 In (size, scale) GenerateIcon.ICON_SIZES ->
                 OS.isdir w (GenerateIcon.filepath_of size scale) = false) ->
              fst (GenerateIcon.generate_ios_icons env w) = Py.Returned tt))
      /\ (OS.isdir w GenerateIcon.icon_dir = true ->
          fst (OS.makedirs_exist_ok GenerateIcon.icon_dir w) = Py.Returned tt
          /\ OS.dirs (snd (GenerateIcon.generate_ios_icons env w)) = OS.dirs w))
  /\ OS.dirs (ResizeIcons.main wr) = OS.dirs wr.
Proof.
  split; [|split; [|apply main_dirs]].
  - destruct (cbi_driver_ensures env w) as (Hfirst & Hraise & Hthere).
    split; [exact Hfirst|]. split; [exact Hraise|].
    split; [apply cbi_driver_after_makedirs | exact Hthere].
  - destruct (gi_driver_ensures env w) as (Hfirst & Hraise & Hthere).
    split; [exact Hfirst|]. split; [exact Hraise|].
    split; [apply gi_driver_after_makedirs | exact Hthere].
Qed.

(** Three runs: with the directory there nothing is raised, every icon is
    saved and no directory is made; with nothing there the directory is
    made; with a file in the way the run stops at [os.makedirs]. *)
Lemma render_drivers_ensure_directory_witness :
  (OS.isdir (Catalogue.catalogue_only : OS.world Pillow.image)
     CreateBondIcon.icon_dir = true
   /\ fst (CreateBondIcon.generate_ios_icons Pillow.no_fonts Catalogue.catalogue_only)
      = Py.Returned tt
   /\ OS.dirs (snd (CreateBondIcon.generate_ios_icons Pillow.no_fonts
                      Catalogue.catalogue_only))
      = OS.dirs (Catalogue.catalogue_only : OS.world Pillow.image)
   /\ OS.saves (snd (CreateBondIcon.generate_ios_icons Pillow.no_fonts
                       Catalogue.catalogue_only))
      = map (fun e => CreateBondIcon.filepath_of (fst e) (snd e))
          CreateBondIcon.ICON_SIZES)
  /\ (OS.isdir ({| OS.dirs := ∅; OS.files := ∅; OS.trace := [] |}
                 : OS.world Pillow.image) GenerateIcon.icon_dir = false
      /\ OS.isdir (snd (GenerateIcon.generate_ios_icons Pillow.no_fonts
                          {| OS.dirs := ∅; OS.files := ∅; OS.trace := [] |}))
           GenerateIcon.icon_dir = true)
  /\ GenerateIcon.generate_ios_icons Pillow.no_fonts
       {| OS.dirs := ∅;
          OS.files := {[ GenerateIcon.icon_dir := GenerateIcon.blank 1 ]};
          OS.trace := [] |}
     = (Py.Raised (Py.FileExistsError GenerateIcon.icon_dir),
        OS.log (OS.Makedirs GenerateIcon.icon_dir)
          {| OS.dirs := ∅;
             OS.files := {[ GenerateIcon.icon_dir := GenerateIcon.blank 1 ]};
             OS.trace := [] |}).
Proof.
  assert (OS.isdir (Catalogue.catalogue_only : OS.world Pillow.image)
            CreateBondIcon.icon_dir = true) as Hdir by (by vm_compute).
  split; [|split].
  - destruct (render_drivers_ensure_directory Pillow.no_fonts Catalogue.catalogue_only
                ResizeIcons.source_only)
      as [(_ & _ & Hafter & Hthere) _].
    destruct (Hthere Hdir) as [Hmk Hdirs].
    destruct (Hafter Hmk) as (_ & _ & _ & (k & _ & Hsaves & Hall) & Hret).
    specialize (Hret cbi_catalogue_targets_free).
    split; [exact Hdir|]. split; [exact Hret|]. split; [exact Hdirs|].
    rewrite Hsaves, (Hall Hret). by rewrite firstn_all.
  - split; [by vm_compute|].
    destruct (render_drivers_ensure_directory Pillow.no_fonts
                {| OS.dirs := ∅; OS.files := ∅; OS.trace := [] |}
                ResizeIcons.source_only)
      as (_ & (_ & _ & Hafter & _) & _).
    apply Hafter. by vm_compute.
  - destruct (render_drivers_ensure_directory Pillow.no_fonts
                {| OS.dirs := ∅;
                   OS.files := {[ GenerateIcon.icon_dir := GenerateIcon.blank 1 ]};
                   OS.trace := [] |}
                ResizeIcons.source_only)
      as (_ & (_ & Hraise & _) & _).
    apply Hraise. by vm_compute.
Defined.

Section ScriptFacts.
Import Pillow.
Implicit Type w : OS.world image.

Lemma filepath_of_agree size scale :
  GenerateIcon.filepath_of size scale = CreateBondIcon.filepath_of size scale.
Proof.
  unfold GenerateIcon.filepath_of, CreateBondIcon.filepath_of.
  by rewrite filename_of_agree.
Qed.

Lemma makedirs_after_print p line w :
  fst (OS.makedirs_exist_ok p (OS.print line w)) = fst (OS.makedirs_exist_ok p w).
Proof.
  unfold OS.makedirs_exist_ok.
  change (OS.isdir (OS.log (OS.Makedirs p) (OS.print line w)) p) with (OS.isdir w p).
  change (OS.isdir (OS.log (OS.Makedirs p) w) p) with (OS.isdir w p).
  destruct (OS.isdir w p); [done|].
  change (OS.isfile (OS.log (OS.Makedirs p) (OS.print line w)) p) with (OS.isfile w p).
  change (OS.isfile (OS.log (OS.Makedirs p) w) p) with (OS.isfile w p).
  destruct (OS.isfile w p); [done|].
  change (OS.isfile (OS.log (OS.Makedirs p) (OS.print line w))) with (OS.isfile w).
  change (OS.isfile (OS.log (OS.Makedirs p) w)) with (OS.isfile w).
  by destruct (List.find _ _).
Qed.

(** A whole run of create_bond_icon.py as a program. *)
Lemma cbi_script_run env w :
  fst (OS.makedirs_exist_ok CreateBondIcon.icon_dir w) = Py.Returned tt ->
  (forall e, In e CreateBondIcon.ICON_SIZES ->
             OS.isdir w (CreateBondIcon.filepath_of (fst e) (snd e)) = false) ->
  exists w',
    CreateBondIcon.script env w = (Py.Returned tt, w')
    /\ (forall e, In e CreateBondIcon.ICON_SIZES ->
          OS.files w' !! CreateBondIcon.filepath_of (fst e) (snd e)
          = Some (draw_all (CreateBondIcon.all_calls env (fst e))
                    (CreateBondIcon.blank (fst e))))
    /\ (forall p,
          ~ In p (map (fun e => CreateBondIcon.filepath_of (fst e) (snd e))
                    CreateBondIcon.ICON_SIZES) ->
          OS.files w' !! p = OS.files w !! p)
    /\ OS.saves w'
       = (OS.saves w
          ++ map (fun e => CreateBondIcon.filepath_of (fst e) (snd e))
               CreateBondIcon.ICON_SIZES)%list
    /\ OS.stdout w'
       = (OS.stdout w
          ++ "Generating proper Bond to Ten app icons..."
             :: map (fun e => CreateBondIcon.progress_line (fst e) (snd e))
                  CreateBondIcon.ICON_SIZES
          ++ CreateBondIcon.closing_lines)%list.
Proof.
  intros Hmk Hfree.
  destruct (cbi_batch env w Hmk Hfree)
    as (w1 & Hrun & _ & _ & _ & Hall & Hframe & Htrace).
  unfold CreateBondIcon.script. rewrite Hrun.
  destruct (prints_world CreateBondIcon.closing_lines w1) as (_ & Hf & Ht).
  eexists. split; [reflexivity|]. split; [|split; [|split]].
  - intros e He. rewrite Hf. by apply Hall.
  - intros p Hp. rewrite Hf. by apply Hframe.
  - unfold OS.saves. rewrite Ht, Htrace.
    rewrite !List.flat_map_app. cbn [flat_map app].
    by rewrite saves_of_turns, saves_of_prints, app_nil_r.
  - unfold OS.stdout. rewrite Ht, Htrace.
    rewrite !List.flat_map_app. cbn [flat_map app].
    rewrite stdout_of_turns, stdout_of_prints. by rewrite <- !app_assoc.
Qed.

(** A whole run of generate_icon.py as a program. *)
Lemma gi_script_run env w :
  fst (OS.makedirs_exist_ok GenerateIcon.icon_dir w) = Py.Returned tt ->
  (forall e, In e GenerateIcon.ICON_SIZES ->
             OS.isdir w (GenerateIcon.filepath_of (fst e) (snd e)) = false) ->
  exists w',
    GenerateIcon.script env w = (Py.Returned tt, w')
    /\ (forall e, In e GenerateIcon.ICON_SIZES ->
          OS.files w' !! GenerateIcon.filepath_of (fst e) (snd e)
          = Some (draw_all (GenerateIcon.all_calls env (fst e))
                    (GenerateIcon.blank (fst e))))
    /\ (forall p,
          ~ In p (map (fun e => GenerateIcon.filepath_of (fst e) (snd e))
                    GenerateIcon.ICON_SIZES) ->
          OS.files w' !! p = OS.files w !! p)
    /\ OS.saves w'
       = (OS.saves w
          ++ map (fun e => GenerateIcon.filepath_of (fst e) (snd e))
               GenerateIcon.ICON_SIZES)%list
    /\ OS.stdout w'
       = (OS.stdout w
          ++ "Generating Bond to Ten app icons..."
             :: map (fun e => GenerateIcon.progress_line (fst e) (snd e))
                  GenerateIcon.ICON_SIZES
          ++ GenerateIcon.closing_lines)%list.
Proof.
  intros Hmk Hfree.
  set (w0 := OS.print "Generating Bond to Ten app icons..." w).
  destruct (gi_batch env w0) as (w1 & Hrun & _ & _ & _ & Hall & Hframe & Htrace).
  { unfold w0. by rewrite makedirs_after_print. }
  { exact Hfree. }
  unfold GenerateIcon.script. fold w0. rewrite Hrun.
  destruct (prints_world GenerateIcon.closing_lines w1) as (_ & Hf & Ht).
  eexists. split; [reflexivity|]. split; [|split; [|split]].
  - intros e He. rewrite Hf. by apply Hall.
  - intros p Hp. rewrite Hf. by apply Hframe.
  - unfold OS.saves. rewrite Ht, Htrace.
    rewrite !List.flat_map_app. cbn [flat_map app OS.trace w0 OS.print OS.log].
    rewrite !List.flat_map_app. cbn [flat_map app].
    by rewrite saves_of_turns, saves_of_prints, !app_nil_r.
  - unfold OS.stdout. rewrite Ht, Htrace.
    rewrite !List.flat_map_app. cbn [flat_map app OS.trace w0 OS.print OS.log].
    rewrite !List.flat_map_app. cbn [flat_map app].
    rewrite stdout_of_turns, stdout_of_prints. by rewrite <- !app_assoc.
Qed.
End ScriptFacts.

(** X6. A whole run of a render script.  When the output directory can be
    made (or is there) and no target path is a directory, the script
    returns; for each of the 15 entries of its table the file at the
    entry's path then holds the image the renderer returns for the entry's
    pixel size, as wide and as high as that size; every other file is as it
    was; the saves attempted are those 15 paths in table order; and the
    lines printed are the banner, one line per entry and the closing
    lines. *)
Theorem scripts_write_every_icon (env : Pillow.font_env) (w : OS.world Pillow.image) :
  fst (OS.makedirs_exist_ok CreateBondIcon.icon_dir w) = Py.Returned tt ->
  (forall size scale,
      In (size, scale) CreateBondIcon.ICON_SIZES ->
      OS.isdir w (CreateBondIcon.filepath_of size scale) = false) ->
  (exists w',
      CreateBondIcon.script env w = (Py.Returned tt, w')
      /\ (forall size scale,
            In (size, scale) CreateBondIcon.ICON_SIZES ->
            exists icon,
              CreateBondIcon.create_bond_to_ten_icon env size = Py.Returned icon
              /\ OS.files w' !! CreateBondIcon.filepath_of size scale = Some icon
              /\ Pillow.width icon = size /\ Pillow.height icon = size)
      /\ (forall p,
            ~ In p (map (fun e => CreateBondIcon.filepath_of (fst e) (snd e))
                      CreateBondIcon.ICON_SIZES) ->
            OS.files w' !! p = OS.files w !! p)
      /\ OS.saves w'
         = (OS.saves w
            ++ map (fun e => CreateBondIcon.filepath_of (fst e) (snd e))
                 CreateBondIcon.ICON_SIZES)%list
      /\ OS.stdout w'
         = (OS.stdout w
            ++ "Generating proper Bond to Ten app icons..."
               :: map (fun e => CreateBondIcon.progress_line (fst e) (snd e))
                    CreateBondIcon.ICON_SIZES
            ++ CreateBondIcon.closing_lines)%list)
  /\ (exists w',
      GenerateIcon.script env w = (Py.Returned tt, w')
      /\ (forall size scale,
            In (size, scale) GenerateIcon.ICON_SIZES ->
            exists icon,
              GenerateIcon.create_bond_to_ten_icon env size = Py.Returned icon
              /\ OS.files w' !! GenerateIcon.filepath_of size scale = Some icon
              /\ Pillow.width icon = size /\ Pillow.height icon = size)
      /\ (forall p,
            ~ In p (map (fun e => GenerateIcon.filepath_of (fst e) (snd e))
                      GenerateIcon.ICON_SIZES) ->
            OS.files w' !! p = OS.files w !! p)
      /\ OS.saves w'
         = (OS.saves w
            ++ map (fun e => GenerateIcon.filepath_of (fst e) (snd e))
                 GenerateIcon.ICON_SIZES)%list
      /\ OS.stdout w'
         = (OS.stdout w
            ++ "Generating Bond to Ten app icons..."
               :: map (fun e => GenerateIcon.progress_line (fst e) (snd e))
                    GenerateIcon.ICON_SIZES
            ++ GenerateIcon.closing_lines)%list).
Proof.
  intros Hmk Hfree. split.
  - destruct (cbi_script_run env w Hmk) as (w' & Hrun & Hall & Hframe & Hsaves & Hout).
    { intros [size scale] He. by apply Hfree. }
    exists w'. split; [done|]. split; [|done].
    intros size scale He.
    destruct (cbi_table_paths (size, scale) He) as (Hs & _).
    eexists. split; [by apply cbi_create_closed_form|].
    split; [exact (Hall (size, scale) He)|]. by split.
  - destruct (gi_script_run env w Hmk) as (w' & Hrun & Hall & Hframe & Hsaves & Hout).
    { intros [size scale] He. cbn [fst snd]. rewrite filepath_of_agree. by apply Hfree. }
    exists w'. split; [done|]. split; [|done].
    intros size scale He.
    destruct (gi_table_paths (size, scale) He) as (Hs & _).
    eexists. split; [by apply gi_create_closed_form|].
    split; [exact (Hall (size, scale) He)|]. by split.
Qed.

Lemma scripts_write_every_icon_witness :
  fst (OS.makedirs_exist_ok CreateBondIcon.icon_dir
         (Catalogue.catalogue_only : OS.world Pillow.image)) = Py.Returned tt
  /\ exists w',
       CreateBondIcon.script Pillow.no_fonts Catalogue.catalogue_only = (Py.Returned tt, w')
       /\ OS.saves w'
          = map (fun e => CreateBondIcon.filepath_of (fst e) (snd e))
              CreateBondIcon.ICON_SIZES.
Proof.
  assert (fst (OS.makedirs_exist_ok CreateBondIcon.icon_dir
                 (Catalogue.catalogue_only : OS.world Pillow.image)) = Py.Returned tt)
    as Hmk by (by vm_compute).
  split; [exact Hmk|].
  destruct (scripts_write_every_icon Pillow.no_fonts Catalogue.catalogue_only Hmk)
    as [(w' & Hrun & _ & _ & Hsaves & _) _].
  { intros size scale He. simpl in He.
    repeat (destruct He as [[= <- <-]|He]; [by vm_compute|]). destruct He. }
  exists w'. split; [exact Hrun | exact Hsaves].
Defined.

(** X7. Running a render driver twice gives what running it once gives:
    under the conditions of a successful run, a second run on the outcome
    of the first returns too and leaves the same files and the same
    directories. *)
Theorem render_batch_is_idempotent (env : Pillow.font_env) (w : OS.world Pillow.image) :
  fst (OS.makedirs_exist_ok CreateBondIcon.icon_dir w) = Py.Returned tt ->
  (forall size scale,
      In (size, scale) CreateBondIcon.ICON_SIZES ->
      OS.isdir w (CreateBondIcon.filepath_of size scale) = false) ->
  (exists w1 w2,
      CreateBondIcon.generate_ios_icons env w = (Py.Returned tt, w1)
      /\ CreateBondIcon.generate_ios_icons env w1 = (Py.Returned tt, w2)
      /\ OS.files w2 = OS.files w1 /\ OS.dirs w2 = OS.dirs w1)
  /\ (exists w1 w2,
      GenerateIcon.generate_ios_icons env w = (Py.Returned tt, w1)
      /\ GenerateIcon.generate_ios_icons env w1 = (Py.Returned tt, w2)
      /\ OS.files w2 = OS.files w1 /\ OS.dirs w2 = OS.dirs w1).
Proof.
  intros Hmk Hfree. split.
  - destruct (cbi_batch env w Hmk) as (w1 & Hrun & Hdir & _ & Hfree1 & Hall & _ & _).
    { intros [size scale] He. by apply Hfree. }
    destruct (cbi_batch env w1) as (w2 & Hrun2 & _ & Hdirs & _ & Hall2 & Hframe2 & _).
    { by rewrite (makedirs_existing _ _ Hdir). }
    { exact Hfree1. }
    exists w1, w2. split; [done|]. split; [done|]. split; [|by apply Hdirs].
    apply map_eq. intros p.
    destruct (List.in_dec String.string_dec p
                (map (fun e => CreateBondIcon.filepath_of (fst e) (snd e))
                   CreateBondIcon.ICON_SIZES)) as [Hin|Hout].
    + apply List.in_map_iff in Hin. destruct Hin as (e & <- & He).
      by rewrite (Hall e He), (Hall2 e He).
    + by apply Hframe2.
  - destruct (gi_batch env w Hmk) as (w1 & Hrun & Hdir & _ & Hfree1 & Hall & _ & _).
    { intros [size scale] He. cbn [fst snd]. rewrite filepath_of_agree. by apply Hfree. }
    destruct (gi_batch env w1) as (w2 & Hrun2 & _ & Hdirs & _ & Hall2 & Hframe2 & _).
    { by rewrite (makedirs_existing _ _ Hdir). }
    { exact Hfree1. }
    exists w1, w2. split; [done|]. split; [done|]. split; [|by apply Hdirs].
    apply map_eq. intros p.
    destruct (List.in_dec String.string_dec p
                (map (fun e => GenerateIcon.filepath_of (fst e) (snd e))
                   GenerateIcon.ICON_SIZES)) as [Hin|Hout].
    + apply List.in_map_iff in Hin. destruct Hin as (e & <- & He).
      by rewrite (Hall e He), (Hall2 e He).
    + by apply Hframe2.
Qed.

Lemma render_batch_is_idempotent_witness :
  fst (OS.makedirs_exist_ok CreateBondIcon.icon_dir
         (Catalogue.catalogue_only : OS.world Pillow.image)) = Py.Returned tt
  /\ exists w1 w2,
       GenerateIcon.generate_ios_icons Pillow.builtin_font_only Catalogue.catalogue_only
       = (Py.Returned tt, w1)
       /\ GenerateIcon.generate_ios_icons Pillow.builtin_font_only w1 = (Py.Returned tt, w2)
       /\ OS.files w2 = OS.files w1 /\ OS.dirs w2 = OS.dirs w1.
Proof.
  assert (fst (OS.makedirs_exist_ok CreateBondIcon.icon_dir
                 (Catalogue.catalogue_only : OS.world Pillow.image)) = Py.Returned tt)
    as Hmk by (by vm_compute).
  split; [exact Hmk|].
  destruct (render_batch_is_idempotent Pillow.builtin_font_only Catalogue.catalogue_only Hmk)
    as [_ Hgi].
  { intros size scale He. simpl in He.
    repeat (destruct He as [[= <- <-]|He]; [by vm_compute|]). destruct He. }
  exact Hgi.
Defined.

(** X8. A render driver saves in table order and stops at the first
    exception: on any machine the saves it attempts are the paths of the
    first [k] entries of the table, for some [k], and when the driver
    returns, [k] is 15. *)
Theorem render_saves_follow_the_table (env : Pillow.font_env) (w : OS.world Pillow.image) :
  (exists k : nat,
      OS.saves (snd (CreateBondIcon.generate_ios_icons env w))
      = (OS.saves w
         ++ map (fun e => CreateBondIcon.filepath_of (fst e) (snd e))
              (firstn k CreateBondIcon.ICON_SIZES))%list
      /\ (fst (CreateBondIcon.generate_ios_icons env w) = Py.Returned tt -> k = 15%nat))
  /\ (exists k : nat,
      OS.saves (snd (GenerateIcon.generate_ios_icons env w))
      = (OS.saves w
         ++ map (fun e => GenerateIcon.filepath_of (fst e) (snd e))
              (firstn k GenerateIcon.ICON_SIZES))%list
      /\ (fst (GenerateIcon.generate_ios_icons env w) = Py.Returned tt -> k = 15%nat)).
Proof.
  split.
  - unfold CreateBondIcon.generate_ios_icons.
    destruct (makedirs_outcome CreateBondIcon.icon_dir w)
      as [[e ->]|(w1 & -> & _ & _ & Htrace)].
    + exists 0%nat. split; [|done]. cbn [snd firstn map].
      rewrite app_nil_r.
      unfold OS.saves. cbn [OS.trace OS.log]. rewrite List.flat_map_app. cbn.
      by rewrite app_nil_r.
    + set (w2 := OS.print _ w1).
      destruct (cbi_loop_saves env CreateBondIcon.ICON_SIZES w2) as (k & Hk & Hall).
      exists k. split; [|exact Hall].
      rewrite Hk. f_equal. unfold w2. rewrite saves_print.
      unfold OS.saves. rewrite Htrace, List.flat_map_app. cbn. by rewrite app_nil_r.
  - unfold GenerateIcon.generate_ios_icons.
    destruct (makedirs_outcome GenerateIcon.icon_dir w)
      as [[e ->]|(w1 & -> & _ & _ & Htrace)].
    + exists 0%nat. split; [|done]. cbn [snd firstn map].
      rewrite app_nil_r.
      unfold OS.saves. cbn [OS.trace OS.log]. rewrite List.flat_map_app. cbn.
      by rewrite app_nil_r.
    + destruct (gi_loop_saves env GenerateIcon.ICON_SIZES w1) as (k & Hk & Hall).
      exists k. split; [|exact Hall].
      rewrite Hk. f_equal.
      unfold OS.saves. rewrite Htrace, List.flat_map_app. cbn. by rewrite app_nil_r.
Qed.

(** * Further properties of resize_icons.py *)

Section ResizeRunFacts.
Import ResizeIcons.
Implicit Type w : OS.world content.

Local Abbreviation special := "Icon-App-60x60@2x.png" (only parsing).
Local Abbreviation icon_dir := "ios/Runner/Assets.xcassets/AppIcon.appiconset"
  (only parsing).

(** The entries of the table have positive sizes, different names, and
    targets right under the output directory. *)
Lemma resize_table_entries :
  forall e, In e ICON_SIZES ->
            0 < fst e /\ OS.dirname (target_path_of (snd e)) = icon_dir.
Proof.
  intros e He. unfold ICON_SIZES in He. simpl in He.
  repeat (destruct He as [<-|He]; [split; [cbn; lia | by vm_compute]|]).
  destruct He.
Qed.

Lemma resize_names_NoDup : List.NoDup (map snd ICON_SIZES).
Proof. apply NoDup_ListNoDup. compute_done. Qed.

(** Around an entry of a list with different names, no other entry has
    its name. *)
Lemma split_at_entry (l : list (Z * string)) t name :
  List.NoDup (map snd l) -> In (t, name) l ->
  exists before after,
    l = (before ++ (t, name) :: after)%list
    /\ (forall e, In e before -> snd e <> name)
    /\ (forall e, In e after -> snd e <> name).
Proof.
  intros Hnodup Hin. apply List.in_split in Hin.
  destruct Hin as (before & after & ->). exists before, after.
  split; [done|].
  rewrite List.map_app in Hnodup. cbn [map snd] in Hnodup.
  pose proof (List.NoDup_remove_2 _ _ _ Hnodup) as Hnot.
  split; intros e He Heq; apply Hnot, List.in_or_app; [left|right];
    apply List.in_map_iff; by exists e.
Qed.

Lemma main_step_makes t name w :
  OS.path_exists w (target_path_of name) = false \/ name = special ->
  main_step w (t, name) = resize_icon source_icon t name w.
Proof.
  intros Hcase. unfold main_step. destruct Hcase as [->| ->]; [done|].
  by rewrite String.eqb_refl, orb_true_r.
Qed.
End ResizeRunFacts.

(** X9. resize_icons.py fills in what is missing.  With the source image
    readable and the output directory there, every entry of the table
    whose target does not exist yet (or whose name is
    [Icon-App-60x60@2x.png]) ends up holding the source resampled to the
    entry's size, as wide and as high as that size. *)
Theorem resize_fills_in_missing_icons (w : ResizeIcons.world) (src : ResizeIcons.picture)
    (target_size : Z) (target_filename : string) :
  OS.files w !! ResizeIcons.source_icon = Some (ResizeIcons.PNG src) ->
  OS.isdir w ResizeIcons.source_icon = false ->
  OS.isdir w "ios/Runner/Assets.xcassets/AppIcon.appiconset" = true ->
  In (target_size, target_filename) ResizeIcons.ICON_SIZES ->
  OS.isdir w (ResizeIcons.target_path_of target_filename) = false ->
  OS.path_exists w (ResizeIcons.target_path_of target_filename) = false
  \/ target_filename = "Icon-App-60x60@2x.png" ->
  exists pic,
    OS.files (ResizeIcons.main w) !! ResizeIcons.target_path_of target_filename
    = Some (ResizeIcons.PNG pic)
    /\ pic = ResizeIcons.Lanczos src target_size target_size
    /\ ResizeIcons.pic_width pic = target_size
    /\ ResizeIcons.pic_height pic = target_size.
Proof.
  intros Hsrc Hnodir Hdir Hin Htarget Hcase.
  exists (ResizeIcons.Lanczos src target_size target_size).
  split; [|by repeat split].
  destruct (split_at_entry _ _ _ resize_names_NoDup Hin)
    as (before & after & Htable & Hbefore & Hafter).
  destruct (resize_table_entries _ Hin) as [Hpos Hparent]. cbn [fst snd] in Hpos, Hparent.
  unfold ResizeIcons.main.
  assert (OS.path_exists w ResizeIcons.source_icon = true) as ->.
  { unfold OS.path_exists, OS.isfile. rewrite Hsrc. apply orb_true_r. }
  cbn [negb]. rewrite Htable, List.fold_left_app. cbn [fold_left].
  set (w0 := OS.print _ w).
  set (w1 := fold_left ResizeIcons.main_step before w0).
  assert (OS.keeps ResizeIcons.source_icon w w1) as Hsource.
  { apply (keeps_trans _ w w0 w1); [apply keeps_print|]. apply keeps_fold.
    intros e _ Heq. by destruct (source_is_no_target (snd e)). }
  assert (OS.keeps (ResizeIcons.target_path_of target_filename) w w1) as Hkept.
  { apply (keeps_trans _ w w0 w1); [apply keeps_print|]. apply keeps_fold.
    intros e He Heq. apply target_path_of_inj in Heq.
    by destruct (Hbefore e He). }
  assert (OS.dirs w1 = OS.dirs w) as Hdirs by apply Hsource.
  assert (OS.files (ResizeIcons.main_step w1 (target_size, target_filename))
            !! ResizeIcons.target_path_of target_filename
          = Some (ResizeIcons.PNG (ResizeIcons.Lanczos src target_size target_size)))
    as Hdone.
  { rewrite main_step_makes.
    - apply resize_icon_stores; [| | lia | |].
      + destruct Hsource as (_ & -> & _). exact Hsrc.
      + unfold OS.isdir in *. by rewrite Hdirs.
      + unfold OS.isdir in *. by rewrite Hdirs.
      + rewrite Hparent. unfold OS.isdir in *. by rewrite Hdirs.
    - destruct Hcase as [Hnew|Hsp]; [left|by right].
      by rewrite (keeps_path_exists _ _ _ Hkept). }
  set (w2 := ResizeIcons.main_step w1 (target_size, target_filename)) in *.
  assert (OS.keeps (ResizeIcons.target_path_of target_filename) w2
            (fold_left ResizeIcons.main_step after w2)) as Hrest.
  { apply keeps_fold. intros e He Heq. apply target_path_of_inj in Heq.
    by destruct (Hafter e He). }
  destruct Hrest as (_ & Hfile & _).
  unfold OS.print. cbn [OS.files OS.log]. by rewrite Hfile.
Qed.

Lemma resize_fills_in_missing_icons_witness :
  OS.files (ResizeIcons.main ResizeIcons.stocked)
    !! ResizeIcons.target_path_of "Icon-App-1024x1024@1x.png"
  = Some (ResizeIcons.PNG
            (ResizeIcons.Lanczos (ResizeIcons.Decoded 167 167 "bond to ten") 1024 1024)).
Proof.
  destruct (resize_fills_in_missing_icons ResizeIcons.stocked
              (ResizeIcons.Decoded 167 167 "bond to ten") 1024 "Icon-App-1024x1024@1x.png")
    as (pic & Hfile & -> & _).
  - by vm_compute.
  - by vm_compute.
  - by vm_compute.
  - simpl. tauto.
  - by vm_compute.
  - left. by vm_compute.
  - exact Hfile.
Defined.

(** X10. resize_icons.py changes nothing but its targets: whatever the
    machine looks like, a path that is not the target of an entry of the
    table (the source image is one such path) holds after the run what it
    held before, no save is attempted on it, and no directory is added or
    removed. *)
Theorem resize_changes_only_targets (w : ResizeIcons.world) (p : string) :
  (forall target_size target_filename,
      In (target_size, target_filename) ResizeIcons.ICON_SIZES ->
      p <> ResizeIcons.target_path_of target_filename) ->
  OS.keeps p w (ResizeIcons.main w)
  /\ OS.keeps ResizeIcons.source_icon w (ResizeIcons.main w).
Proof.
  intros Hp. split.
  - apply keeps_main. intros [t name] He Heq. by destruct (Hp t name He).
  - apply keeps_main. intros e _ Heq. by destruct (source_is_no_target (snd e)).
Qed.

Lemma resize_changes_only_targets_witness :
  OS.files (ResizeIcons.main ResizeIcons.stocked) !! "README.md" = None
  /\ OS.files (ResizeIcons.main ResizeIcons.stocked) !! ResizeIcons.source_icon
     = Some (ResizeIcons.PNG (ResizeIcons.Decoded 167 167 "bond to ten")).
Proof.
  destruct (resize_changes_only_targets ResizeIcons.stocked "README.md")
    as [(_ & Hfile & _) (_ & Hsource & _)].
  - intros t name _. unfold ResizeIcons.target_path_of. discriminate.
  - split; [rewrite Hfile | rewrite Hsource]; by vm_compute.
Defined.

Section ResizeReports.
Import ResizeIcons.
Implicit Type w : OS.world content.

Lemma stdout_log_open p w : OS.stdout (OS.log (OS.Open p) w) = OS.stdout w.
Proof. unfold OS.stdout, OS.log; simpl. by rewrite List.flat_map_app, app_nil_r. Qed.

Lemma stdout_log_resize a b w : OS.stdout (OS.log (OS.Resize a b) w) = OS.stdout w.
Proof. unfold OS.stdout, OS.log; simpl. by rewrite List.flat_map_app, app_nil_r. Qed.

Lemma stdout_write_file p (c : content) w :
  OS.stdout (snd (OS.write_file p c w)) = OS.stdout w.
Proof.
  assert (OS.stdout (OS.log (OS.Save p) w) = OS.stdout w) as Hlog.
  { unfold OS.stdout, OS.log; simpl. by rewrite List.flat_map_app, app_nil_r. }
  unfold OS.write_file. destruct (OS.isdir _ p); [done|]. by destruct (_ || _).
Qed.

(** The body of the [try]: one line when it comes through, none when it
    raises. *)
Lemma resize_and_save_stdout source t name w :
  match fst (resize_and_save source t name w) with
  | Py.Returned _ =>
      OS.stdout (snd (resize_and_save source t name w))
      = (OS.stdout w ++ [("✅ Created " ++ name ++ " (" ++ Py.str t
                             ++ "x" ++ Py.str t ++ ")")%string])%list
  | Py.Raised _ => OS.stdout (snd (resize_and_save source t name w)) = OS.stdout w
  end.
Proof.
  unfold resize_and_save.
  assert (OS.stdout (snd (image_open source w)) = OS.stdout w) as Hopen.
  { unfold image_open. destruct (OS.isdir _ source); [apply stdout_log_open|].
    destruct (OS.files _ !! source) as [[]|]; apply stdout_log_open. }
  destruct (image_open source w) as [[img|e] w1]; cbn [fst snd] in *; [|done].
  assert (OS.stdout (snd (resize img t t w1)) = OS.stdout w1) as Hresize.
  { unfold resize. destruct (_ || _); apply stdout_log_resize. }
  destruct (resize img t t w1) as [[resized|e] w2]; cbn [fst snd] in *; [|congruence].
  pose proof (stdout_write_file (target_path_of name) (PNG resized) w2) as Hwrite.
  destruct (OS.write_file _ _ w2) as [[[]|e] w3]; cbn [fst snd] in *; [|congruence].
  rewrite stdout_print. congruence.
Qed.

(** Every turn of the loop prints one line, about its entry. *)
Lemma main_step_reports w e :
  exists line,
    OS.stdout (main_step w e) = (OS.stdout w ++ [line])%list /\ reports e line.
Proof.
  destruct e as [t name]. unfold main_step.
  destruct (_ || _).
  - unfold resize_icon.
    pose proof (resize_and_save_stdout source_icon t name w) as Hout.
    destruct (resize_and_save source_icon t name w) as [[[]|ex] w1];
      cbn [fst snd] in Hout.
    + eexists. split; [exact Hout|]. by left.
    + eexists. split; [by rewrite stdout_print, Hout|]. right. left. by exists ex.
  - eexists. split; [apply stdout_print|]. right. by right.
Qed.

Lemma loop_reports (l : list (Z * string)) w :
  exists lines,
    OS.stdout (fold_left main_step l w) = (OS.stdout w ++ lines)%list
    /\ List.Forall2 reports l lines.
Proof.
  revert w. induction l as [|e l IH]; intros w; cbn [fold_left].
  - exists []. split; [by rewrite app_nil_r | constructor].
  - destruct (main_step_reports w e) as (line & Hline & Hreport).
    destruct (IH (main_step w e)) as (lines & Hlines & Hreports).
    exists (line :: lines). split; [|by constructor].
    rewrite Hlines, Hline. by rewrite <- app_assoc.
Qed.

(** With a source that Pillow cannot identify, no turn saves anything. *)
Lemma unreadable_step w e :
  OS.files w !! source_icon = Some NotAnImage ->
  OS.files (main_step w e) = OS.files w
  /\ OS.saves (main_step w e) = OS.saves w.
Proof.
  intros Hsrc. destruct e as [t name]. unfold main_step.
  destruct (_ || _); [|split; [done | apply saves_print]].
  unfold resize_icon, resize_and_save, image_open.
  change (OS.files (OS.log (OS.Open source_icon) w)) with (OS.files w).
  rewrite Hsrc.
  assert (OS.saves (OS.log (OS.Open source_icon) w) = OS.saves w) as Hlog.
  { unfold OS.saves, OS.log; simpl. by rewrite List.flat_map_app, app_nil_r. }
  destruct (OS.isdir _ source_icon); cbn [fst snd];
    (split; [done | by rewrite saves_print]).
Qed.

Lemma unreadable_loop (l : list (Z * string)) w :
  OS.files w !! source_icon = Some NotAnImage ->
  OS.files (fold_left main_step l w) = OS.files w
  /\ OS.saves (fold_left main_step l w) = OS.saves w.
Proof.
  revert w. induction l as [|e l IH]; intros w Hsrc; cbn [fold_left]; [done|].
  destruct (unreadable_step w e Hsrc) as [Hf Hs].
  destruct (IH (main_step w e)) as [Hf' Hs']; [by rewrite Hf|].
  split; congruence.
Qed.
Lemma files_print line w : OS.files (OS.print line w) = OS.files w.
Proof. reflexivity. Qed.

Lemma unreadable_main w :
  OS.files w !! source_icon = Some NotAnImage ->
  OS.files (main w) = OS.files w /\ OS.saves (main w) = OS.saves w.
Proof.
  intros Hsrc. unfold main. destruct (negb _).
  - split; [apply files_print | apply saves_print].
  - destruct (unreadable_loop ICON_SIZES
                (OS.print "🎨 Generating missing iOS app icons..." w)) as [Hf Hs].
    { by rewrite files_print. }
    split.
    + by rewrite !files_print, Hf, files_print.
    + by rewrite !saves_print, Hs, saves_print.
Qed.
End ResizeReports.

(** X11. A run of resize_icons.py that finds its source reports every
    entry of the table once, in table order, as created, failed or
    skipped, between the opening line and the two closing lines: an entry
    that fails never stops the loop. *)
Theorem resize_reports_every_entry (w : ResizeIcons.world) :
  OS.path_exists w ResizeIcons.source_icon = true ->
  exists lines,
    OS.stdout (ResizeIcons.main w)
    = (OS.stdout w
       ++ "🎨 Generating missing iOS app icons..."
          :: lines
       ++ [(ResizeIcons.newline ++ "🎉 Icon generation complete!")%string;
           "📱 Ready to build and deploy to iPhone!"])%list
    /\ List.Forall2 ResizeIcons.reports ResizeIcons.ICON_SIZES lines
    /\ List.length lines = 11%nat.
Proof.
  intros Hsrc. unfold ResizeIcons.main. rewrite Hsrc. cbn [negb].
  set (w0 := OS.print _ w).
  destruct (loop_reports ResizeIcons.ICON_SIZES w0) as (lines & Hlines & Hreports).
  exists lines. split; [|split; [done|]].
  - rewrite !stdout_print, Hlines. unfold w0. rewrite stdout_print.
    rewrite <- !app_assoc. reflexivity.
  - by rewrite <- (List.Forall2_length Hreports).
Qed.

Lemma resize_reports_every_entry_witness :
  OS.path_exists ResizeIcons.source_only ResizeIcons.source_icon = true
  /\ exists lines,
       OS.stdout (ResizeIcons.main ResizeIcons.source_only)
       = ("🎨 Generating missing iOS app icons..."
            :: lines
          ++ [(ResizeIcons.newline ++ "🎉 Icon generation complete!")%string;
              "📱 Ready to build and deploy to iPhone!"])%list
       /\ List.length lines = 11%nat.
Proof.
  assert (OS.path_exists ResizeIcons.source_only ResizeIcons.source_icon = true) as Hsrc
    by (by vm_compute).
  split; [exact Hsrc|].
  destruct (resize_reports_every_entry ResizeIcons.source_only Hsrc)
    as (lines & Hout & _ & Hlen).
  exists lines. split; [exact Hout | exact Hlen].
Defined.

(** X12. When the source of resize_icons.py exists but is not an image
    Pillow can identify, the run attempts no save and leaves every file as
    it was. *)
Theorem unreadable_source_saves_nothing (w : ResizeIcons.world) :
  OS.files w !! ResizeIcons.source_icon = Some ResizeIcons.NotAnImage ->
  OS.files (ResizeIcons.main w) = OS.files w
  /\ OS.saves (ResizeIcons.main w) = OS.saves w
  /\ OS.dirs (ResizeIcons.main w) = OS.dirs w.
Proof.
  intros Hsrc.
  destruct (unreadable_main w Hsrc) as [Hfiles Hsaves].
  split; [done|]. split; [done|].
  destruct (keeps_main ResizeIcons.source_icon w) as [Hd _]; [|done].
  intros e _ Heq. by destruct (source_is_no_target (snd e)).
Qed.

Lemma unreadable_source_saves_nothing_witness :
  OS.saves
    (ResizeIcons.main
       {| OS.dirs := {[ "icon" ]};
          OS.files := {[ ResizeIcons.source_icon := ResizeIcons.NotAnImage ]};
          OS.trace := [] |}) = [].
Proof.
  destruct (unreadable_source_saves_nothing
              {| OS.dirs := {[ "icon" ]};
                 OS.files := {[ ResizeIcons.source_icon := ResizeIcons.NotAnImage ]};
                 OS.trace := [] |}) as (_ & Hsaves & _).
  - by vm_compute.
  - exact Hsaves.
Defined.

(** * The two render scripts side by side *)

(** X13. The two render scripts name alike: they have the same table, and
    although one finds the base size with an if chain and the other with a
    dictionary lookup, for every pixel size and every scale string they
    compute the same base size, the same file name and the same path. *)
Theorem render_scripts_name_alike (size : Z) (scale : string) :
  GenerateIcon.ICON_SIZES = CreateBondIcon.ICON_SIZES
  /\ GenerateIcon.base_size_of size scale = CreateBondIcon.base_size_of size scale
  /\ GenerateIcon.filename_of size scale = CreateBondIcon.filename_of size scale
  /\ GenerateIcon.filepath_of size scale = CreateBondIcon.filepath_of size scale.
Proof.
  split; [reflexivity|]. split; [apply base_size_of_agree|].
  split; [apply filename_of_agree | apply filepath_of_agree].
Qed.

Section FontFallback.
Import Pillow.

Lemma label_fonts_app l1 l2 :
  label_fonts (l1 ++ l2) = (label_fonts l1 ++ label_fonts l2)%list.
Proof. apply List.flat_map_app. Qed.

Lemma label_fonts_none l :
  (forall op, In op l -> is_text op = false) -> label_fonts l = [].
Proof.
  induction l as [|op l IH]; intros H; [done|].
  unfold label_fonts in *. simpl. rewrite IH by (intros; apply H; by right).
  specialize (H op (or_introl eq_refl)). by destruct op.
Qed.

Lemma gi_label_fonts env size :
  label_fonts (GenerateIcon.all_calls env size)
  = match fst (GenerateIcon.font_setup env size) with
    | Some f => [f; f; f]
    | None => []
    end.
Proof.
  unfold GenerateIcon.all_calls, GenerateIcon.hundred_calls,
    GenerateIcon.ten_calls, GenerateIcon.unit_calls, GenerateIcon.border_calls.
  rewrite !label_fonts_app.
  replace (label_fonts (if _ >? 1 then _ else _)) with (@nil font).
  2:{ destruct (_ >? 1); [|done]. symmetry. apply label_fonts_none.
      intros op Hop. unfold GenerateIcon.hundred_grid in Hop.
      apply List.in_flat_map in Hop. destruct Hop as (row & _ & Hop).
      apply List.in_map_iff in Hop. by destruct Hop as (col & <- & _). }
  replace (label_fonts (if _ && _ then _ else _)) with (@nil font).
  2:{ destruct (_ && _); [|done]. symmetry. apply label_fonts_none.
      intros op Hop. unfold GenerateIcon.ten_cells in Hop.
      apply List.in_map_iff in Hop. by destruct Hop as (i & <- & _). }
  replace (label_fonts (if size >=? 100 then _ else _)) with (@nil font)
    by (by destruct (size >=? 100)).
  change (label_fonts (GenerateIcon.unit_square size :: ?l)) with (label_fonts l).
  by destruct (fst (GenerateIcon.font_setup env size)).
Qed.
End FontFallback.

(** X14. The font of the labels of generate_icon.py.  For a dimension
    [>= 0] the renderer returns whatever fonts load, and its three labels
    are written in the bold TrueType font only when the bold file and the
    regular file both load; when either of them fails, the bold one is
    dropped too and the three labels are in the built-in font, if that one
    loads, and missing otherwise. *)
Theorem label_font_falls_back (env : Pillow.font_env) (size : Z) :
  0 <= size ->
  exists img,
    GenerateIcon.create_bond_to_ten_icon env size = Py.Returned img
    /\ Pillow.label_fonts (Pillow.ops img)
       = if Pillow.truetype_loads env "/System/Library/Fonts/Helvetica-Bold.ttc"
              (Z.max (size / 20) 8)
            && Pillow.truetype_loads env "/System/Library/Fonts/Helvetica.ttc"
                 (Z.max (size / 25) 6)
         then
           let bold := Pillow.TrueType "/System/Library/Fonts/Helvetica-Bold.ttc"
                         (Z.max (size / 20) 8) in
           [bold; bold; bold]
         else if Pillow.default_loads env
              then [Pillow.DefaultFont; Pillow.DefaultFont; Pillow.DefaultFont]
              else [].
Proof.
  intros Hs. eexists. split; [by apply gi_create_closed_form|].
  cbn [Pillow.ops Pillow.draw_all GenerateIcon.blank app].
  rewrite gi_label_fonts. unfold GenerateIcon.font_setup, Pillow.truetype, Pillow.load_default.
  destruct (Pillow.truetype_loads env "/System/Library/Fonts/Helvetica-Bold.ttc" _);
    destruct (Pillow.truetype_loads env "/System/Library/Fonts/Helvetica.ttc" _);
    destruct (Pillow.default_loads env); reflexivity.
Qed.

Lemma label_font_falls_back_witness :
  0 <= 20
  /\ exists img,
       GenerateIcon.create_bond_to_ten_icon
         {| Pillow.truetype_loads :=
              fun path _ => String.eqb path "/System/Library/Fonts/Helvetica-Bold.ttc";
            Pillow.default_loads := true;
            Pillow.bbox_at_origin := fun _ _ => (0, 0, 12, 11) |} 20 = Py.Returned img
       /\ Pillow.label_fonts (Pillow.ops img)
          = [Pillow.DefaultFont; Pillow.DefaultFont; Pillow.DefaultFont].
Proof.
  split; [lia|].
  exact (label_font_falls_back
           {| Pillow.truetype_loads :=
                fun path _ => String.eqb path "/System/Library/Fonts/Helvetica-Bold.ttc";
              Pillow.default_loads := true;
              Pillow.bbox_at_origin := fun _ _ => (0, 0, 12, 11) |} 20 ltac:(lia)).
Defined.
